(** * Sprint calendar visualizer: parser and wall-calendar renderer

    A shallow embedding of [parse_sprint_data] and [generate_wall_calendar]
    from [streamlit_app.py], together with the properties of the parser
    (header skipping, short lines, date failures, ordering) and of the
    renderer (month enumeration, cell painting, legend). *)

From Stdlib Require Import String Ascii ZArith QArith Lia.
From Corelib Require Import PrimFloat.
From Equations Require Import Equations.
From stdpp Require Import base option list gmap.

Open Scope Z_scope.
Open Scope nat_scope.
Open Scope list_scope.

(** ** Python values *)

(** A Python [str] is a sequence of Unicode code points. *)
Abbreviation pystr := (list N).

(** Code points of a literal, for writing inputs down. *)
Fixpoint pystr_of (s : string) : pystr :=
  match s with
  | EmptyString => []
  | String c s' => N_of_ascii c :: pystr_of s'
  end.

(** The line feed, the separator of [text.split('\n')]. *)
Definition LF : N := 10%N.

(** [str.isspace] on one code point: the characters that [str.strip()] and
    [str.split()] treat as whitespace. *)
Definition isspace (c : N) : bool :=
  ((9 <=? c) && (c <=? 13) || (28 <=? c) && (c <=? 32)
   || (c =? 133) || (c =? 160) || (c =? 5760)
   || (8192 <=? c) && (c <=? 8202)
   || (c =? 8232) || (c =? 8233) || (c =? 8239) || (c =? 8287)
   || (c =? 12288))%N.

(** [s.lstrip()] *)
Fixpoint lstrip (s : pystr) : pystr :=
  match s with
  | [] => []
  | c :: s' => if isspace c then lstrip s' else s
  end.

(** [s.rstrip()] *)
Definition rstrip (s : pystr) : pystr := rev (lstrip (rev s)).

(** [s.strip()] *)
Definition strip (s : pystr) : pystr := rstrip (lstrip s).

(** [s.split('\n')]: the pieces between line feeds; always at least one. *)
Fixpoint split_lf (s : pystr) : list pystr :=
  match s with
  | [] => [[]]
  | c :: s' =>
      if (c =? LF)%N then [] :: split_lf s'
      else match split_lf s' with
           | [] => [[c]]
           | p :: ps => (c :: p) :: ps
           end
  end.

(** [s.split()]: the maximal runs of non-whitespace; [cur] is the run being
    read, most recent character first. *)
Fixpoint split_ws_from (cur : pystr) (s : pystr) : list pystr :=
  match s with
  | [] => match cur with [] => [] | _ => [rev cur] end
  | c :: s' =>
      if isspace c then
        match cur with
        | [] => split_ws_from [] s'
        | _ => rev cur :: split_ws_from [] s'
        end
      else split_ws_from (c :: cur) s'
  end.

Definition split_ws (s : pystr) : list pystr := split_ws_from [] s.

(** Truthiness of a string: non-empty. *)
Definition truthy (s : pystr) : bool :=
  match s with [] => false | _ => true end.

(** ** Dates and timestamps *)

(** A timezone-naive [pandas.Timestamp]: a calendar date and the time of day
    (nanoseconds since midnight).  The record admits any integers.  In the
    timestamps pandas builds the month, the day and the time of day are
    those of a real date; the year need not be one [datetime.date] accepts:
    [pd.to_datetime('0000-12-25')] is a timestamp of year 0. *)
Record Timestamp := mkTimestamp {
  ts_year : Z;
  ts_month : Z;
  ts_day : Z;
  ts_nanos : Z
}.

(** A value of a datetime column, and what [pd.to_datetime] returns on one
    token: a timestamp, or [pd.NaT], the missing value. *)
Inductive pdvalue :=
| Stamp (t : Timestamp)
| NaT.

(** A [datetime.date].  The renderer builds dates from a displayed month
    and a day of its month calendar. *)
Record date := mkDate {
  d_year : Z;
  d_month : Z;
  d_day : Z
}.

(** [Timestamp.date()] *)
Definition ts_date (t : Timestamp) : date :=
  mkDate (ts_year t) (ts_month t) (ts_day t).

(** [a <= b] on tuples of two integers, as Python compares them. *)
Definition pair_leb (a b : Z * Z) : bool :=
  ((fst a <? fst b) || (fst a =? fst b) && (snd a <=? snd b))%Z.

(** [a <= b] on dates. *)
Definition date_leb (a b : date) : bool :=
  ((d_year a <? d_year b)
   || (d_year a =? d_year b)
      && ((d_month a <? d_month b)
          || (d_month a =? d_month b) && (d_day a <=? d_day b)))%Z.

(** [a <= b] on timestamps. *)
Definition ts_leb (a b : Timestamp) : bool :=
  ((ts_year a <? ts_year b)
   || (ts_year a =? ts_year b)
      && ((ts_month a <? ts_month b)
          || (ts_month a =? ts_month b)
             && ((ts_day a <? ts_day b)
                 || (ts_day a =? ts_day b) && (ts_nanos a <=? ts_nanos b))))%Z.

(** ** Exceptions and results *)

Inductive exn :=
| ParseError (token : pystr)
| ZeroDivisionError
| IndexError
| KeyError (key : nat * nat)
| KeyErrorName (key : pystr)
| ValueError
| TypeError
| NotImplementedError.

Inductive result (A : Type) :=
| Ok (a : A)
| Raise (e : exn).
Arguments Ok {A} a.
Arguments Raise {A} e.

#[global] Instance result_bind : MBind result :=
  fun A B (k : A -> result B) (r : result A) =>
    match r with
    | Ok a => k a
    | Raise e => Raise e
    end.

(** A [for] loop over [l] threading the state [s]; an exception leaves the
    loop at once. *)
Fixpoint for_each {A S} (l : list A) (body : A -> S -> result S) (s : S)
  : result S :=
  match l with
  | [] => Ok s
  | x :: l' => s' ← body x s; for_each l' body s'
  end.

(** [enumerate(l, start)] *)
Fixpoint enumerate {A} (start : nat) (l : list A) : list (nat * A) :=
  match l with
  | [] => []
  | x :: l' => (start, x) :: enumerate (S start) l'
  end.

(** ** The data frame *)

(** One row of the frame: the dictionary appended by the parser. *)
Record Row := mkRow {
  Sprint : pystr;
  Start_Date : pdvalue;
  End_Date : pdvalue
}.

(** [pd.DataFrame(sprints)]: the rows in list order. *)
Abbreviation DataFrame := (list Row).

(** A concrete instance of [pd.to_datetime] used to run examples: it reads
    [YYYY-MM-DD] with a valid month and day, the year 0000 included, reads
    the tokens [NaT] and [nan] as the missing value, as pandas does, and
    rejects every other token. *)
Definition digit (c : N) : option Z :=
  if ((48 <=? c) && (c <=? 57))%N then Some (Z.of_N c - 48)%Z else None.

Definition number (ds : list N) : option Z :=
  foldl (fun acc c =>
           match acc, digit c with
           | Some a, Some d => Some (10 * a + d)%Z
           | _, _ => None
           end) (Some 0%Z) ds.

Definition is_leap (y : Z) : bool :=
  ((y mod 4 =? 0) && (negb (y mod 100 =? 0) || (y mod 400 =? 0)))%Z.

(** [calendar.mdays[month]], plus the leap day. *)
Definition days_in_month (y m : Z) : Z :=
  (match m with
   | 1 | 3 | 5 | 7 | 8 | 10 | 12 => 31
   | 4 | 6 | 9 | 11 => 30
   | 2 => if is_leap y then 29 else 28
   | _ => 0
   end)%Z.

Definition iso_to_datetime (tok : pystr) : option pdvalue :=
  match tok with
  | [y1; y2; y3; y4; 45%N; m1; m2; 45%N; d1; d2] =>
      match number [y1; y2; y3; y4], number [m1; m2], number [d1; d2] with
      | Some y, Some m, Some d =>
          if ((1 <=? m) && (m <=? 12)
              && (1 <=? d) && (d <=? days_in_month y m))%Z
          then Some (Stamp (mkTimestamp y m d 0))
          else None
      | _, _, _ => None
      end
  | [78%N; 97%N; 84%N] => Some NaT
  | [110%N; 97%N; 110%N] => Some NaT
  | _ => None
  end.

Section Parser.

(** [pd.to_datetime] on one token: [None] when pandas raises, and
    otherwise the value it returns, a timestamp or NaT. *)
Variable to_datetime : pystr -> option pdvalue.

(** The non-empty stripped lines of the text (line 14). *)
Definition lines (text : pystr) : list pystr :=
  filter (fun l => truthy l = true) (map strip (split_lf (strip text))).

(** [lines[1:]] (line 17) *)
Definition data_lines (text : pystr) : list pystr := tail (lines text).

(** The body of the loop (lines 21-31) on the local list [sprints].  The
    dictionary is built, start date first, before [append] runs. *)
Definition parse_line (line : pystr) (sprints : list Row) : result (list Row) :=
  match split_ws line with
  | sprint_name :: start_date :: end_date :: _ =>
      match to_datetime start_date with
      | None => Raise (ParseError start_date)
      | Some sd =>
          match to_datetime end_date with
          | None => Raise (ParseError end_date)
          | Some ed => Ok (sprints ++ [mkRow sprint_name sd ed])
          end
      end
  | _ => Ok sprints
  end.

(** The loop of lines 20-31, keeping the local list as it stands when an
    exception leaves the loop. *)
Fixpoint parse_loop (ls : list pystr) (sprints : list Row)
  : list Row * option exn :=
  match ls with
  | [] => (sprints, None)
  | line :: ls' =>
      match parse_line line sprints with
      | Ok sprints' => parse_loop ls' sprints'
      | Raise e => (sprints, Some e)
      end
  end.

(** Lines 19-33 on the data lines: the frame built from the list, or the
    exception that left the loop. *)
Definition parse_lines (ls : list pystr) : result DataFrame :=
  match parse_loop ls [] with
  | (sprints, None) => Ok sprints
  | (_, Some e) => Raise e
  end.

Definition parse_sprint_data (text : pystr) : result DataFrame :=
  parse_lines (data_lines text).

End Parser.

(** ** Colours, cells and tables *)

(** One row of the array returned by a colormap: red, green, blue and alpha,
    each in [0, 1].  The channels are rationals: those of the ten colours
    of tab10 are the fractions of 255 the palette is defined by. *)
Record RGBA := mkRGBA {
  rgba_r : Q;
  rgba_g : Q;
  rgba_b : Q;
  rgba_a : Q
}.

(** [np.mean(color[:3]) < 0.5] (line 147), on the rationals. *)
Definition mean_rgb (c : RGBA) : Q := (rgba_r c + rgba_g c + rgba_b c) / 3.

Definition is_dark (c : RGBA) : bool := negb (Qle_bool (1 # 2) (mean_rgb c)).

(** The face colour of a table cell: the default of a new cell, a named
    colour such as ['#f2f2f2'], or a row of the colormap array. *)
Inductive facecolor :=
| FaceDefault
| FaceNamed (name : string)
| FaceRGBA (c : RGBA).

(** The colour of a cell's text. *)
Inductive textcolor :=
| TextDefault
| TextNamed (name : string).

Record Cell := mkCell {
  cell_text : pystr;
  cell_face : facecolor;
  cell_textcolor : textcolor;
  cell_bold : bool
}.

Definition set_facecolor (f : facecolor) (c : Cell) : Cell :=
  mkCell (cell_text c) f (cell_textcolor c) (cell_bold c).

Definition set_text_color (tc : textcolor) (c : Cell) : Cell :=
  mkCell (cell_text c) (cell_face c) tc (cell_bold c).

Definition set_text_bold (c : Cell) : Cell :=
  mkCell (cell_text c) (cell_face c) (cell_textcolor c) true.

(** A matplotlib table: its cells keyed by (row, column). *)
Abbreviation Table := (gmap (nat * nat) Cell).

(** [ax.table(cellText=cell_text, ...)]: one fresh cell per entry. *)
Definition new_cell (txt : pystr) : Cell :=
  mkCell txt FaceDefault TextDefault false.

Definition make_table (cell_text : list (list pystr)) : Table :=
  foldl (fun t '(r, row) =>
           foldl (fun t '(c, txt) => <[(r, c) := new_cell txt]> t)
                 t (enumerate 0 row))
        ∅ (enumerate 0 cell_text).

(** [table[key]] *)
Definition table_get (t : Table) (key : nat * nat) : result Cell :=
  match t !! key with
  | Some c => Ok c
  | None => Raise (KeyError key)
  end.

(** [table[key]] followed by a method call that changes the cell in place. *)
Definition table_modify (key : nat * nat) (f : Cell -> Cell) (t : Table)
  : result Table :=
  match t !! key with
  | Some c => Ok (<[key := f c]> t)
  | None => Raise (KeyError key)
  end.

(** [l[i]] on a list. *)
Definition list_get {A} (l : list A) (i : nat) : result A :=
  match l !! i with
  | Some x => Ok x
  | None => Raise IndexError
  end.

(** A Python [dict] from sprint names to colours: keys in insertion order;
    assigning to a key already present replaces its value in place. *)
Abbreviation pydict := (list (pystr * RGBA)).

Fixpoint dict_set (k : pystr) (v : RGBA) (d : pydict) : pydict :=
  match d with
  | [] => [(k, v)]
  | (k', v') :: d' =>
      if decide (k' = k) then (k', v) :: d' else (k', v') :: dict_set k v d'
  end.

Fixpoint dict_find (k : pystr) (d : pydict) : option RGBA :=
  match d with
  | [] => None
  | (k', v') :: d' => if decide (k' = k) then Some v' else dict_find k d'
  end.

(** [d[k]] *)
Definition dict_get (d : pydict) (k : pystr) : result RGBA :=
  match dict_find k d with
  | Some v => Ok v
  | None => Raise (KeyErrorName k)
  end.

(** ** The calendar module *)

(** [str(n)] for an integer. *)
Fixpoint digits_from (fuel : nat) (n : N) (acc : pystr) : pystr :=
  match fuel with
  | O => acc
  | S fuel' =>
      let acc' := (48 + n mod 10)%N :: acc in
      if (n <? 10)%N then acc' else digits_from fuel' (n / 10)%N acc'
  end.

Definition str_int (z : Z) : pystr :=
  if (z <? 0)%Z
  then 45%N :: digits_from (S (Z.to_nat (- z))) (Z.to_N (- z)) []
  else digits_from (S (Z.to_nat z)) (Z.to_N z) [].

(** Days before January 1st of year [y], as in [datetime]. *)
Definition days_before_year (y : Z) : Z :=
  (let y' := y - 1 in y' * 365 + y' / 4 - y' / 100 + y' / 400)%Z.

(** Days of year [y] before the first of month [m]. *)
Definition days_before_month (y m : Z) : Z :=
  foldr Z.add 0%Z
    (map (fun k => days_in_month y (Z.of_nat k)) (seq 1 (Z.to_nat (m - 1)))).

(** [date(y, m, d).toordinal()] *)
Definition toordinal (y m d : Z) : Z :=
  (days_before_year y + days_before_month y m + d)%Z.

(** [calendar.weekday(y, m, d)]: Monday is 0. *)
Definition weekday (y m d : Z) : Z := ((toordinal y m d + 6) mod 7)%Z.

(** [itermonthdays] with Monday as first weekday: zeros before and after the
    days of the month, filling whole weeks. *)
Definition itermonthdays (y m : Z) : list Z :=
  let day1 := weekday y m 1 in
  let ndays := days_in_month y m in
  let days_before := (day1 mod 7)%Z in
  let days_after := ((- day1 - ndays) mod 7)%Z in
  replicate (Z.to_nat days_before) 0%Z
  ++ map Z.of_nat (seq 1 (Z.to_nat ndays))
  ++ replicate (Z.to_nat days_after) 0%Z.

(** [calendar.monthcalendar(y, m)]:
    [[days[i:i+7] for i in range(0, len(days), 7)]]. *)
Definition monthcalendar (y m : Z) : list (list Z) :=
  let days := itermonthdays y m in
  map (fun i => take 7 (drop (7 * i) days)) (seq 0 ((length days + 6) / 7)).

(** ** The renderer *)

(** A value together with the equation that names it, to keep the outcome
    of a test at hand in the branches of the loop. *)
Definition inspect {A} (a : A) : {b | a = b} := exist _ a eq_refl.

(** Iterations left in the loop of lines 51-56: twelve per remaining year
    and the rest of the current one. *)
Definition months_left (end_month cur : Z * Z) : nat :=
  Z.to_nat (12 * (fst end_month - fst cur) + 13 - Z.min (snd cur) 12).

(** The [while] loop of lines 51-56. *)
Equations? months_loop (end_month : Z * Z) (cur : Z * Z)
    (months_to_display : list (Z * Z))
  : list (Z * Z) by wf (months_left end_month cur) lt :=
months_loop end_month (current_year, current_month) months_to_display
    with inspect (pair_leb (current_year, current_month) end_month) := {
  | exist _ false _ => months_to_display
  | exist _ true Hle with inspect (current_month + 1 >? 12)%Z := {
    | exist _ true Hgt =>
        months_loop end_month (current_year + 1, 1)%Z
          (months_to_display ++ [(current_year, current_month)])
    | exist _ false Hgt =>
        months_loop end_month (current_year, current_month + 1)%Z
          (months_to_display ++ [(current_year, current_month)]) } }.
Proof.
  all: unfold months_left, pair_leb in *; simpl in *; lia.
Qed.

(** [min] and [max] of two timestamps. *)
Definition ts_min (a b : Timestamp) : Timestamp := if ts_leb b a then b else a.
Definition ts_max (a b : Timestamp) : Timestamp := if ts_leb a b then b else a.

(** [Series.min()] and [Series.max()] of a datetime column (lines 41-42):
    NaT entries are skipped, and the result is NaT when nothing is left. *)
Definition pd_min (a b : pdvalue) : pdvalue :=
  match a, b with
  | Stamp x, Stamp y => Stamp (ts_min x y)
  | NaT, _ => b
  | _, NaT => a
  end.

Definition pd_max (a b : pdvalue) : pdvalue :=
  match a, b with
  | Stamp x, Stamp y => Stamp (ts_max x y)
  | NaT, _ => b
  | _, NaT => a
  end.

Definition column_min (column : list pdvalue) : pdvalue :=
  foldl pd_min NaT column.

Definition column_max (column : list pdvalue) : pdvalue :=
  foldl pd_max NaT column.

(** [date(year, month, day)] (line 140): [datetime.date] accepts the years
    1 to 9999 and raises [ValueError] on anything that is not a date. *)
Definition new_date (year month day : Z) : result date :=
  if ((1 <=? year) && (year <=? 9999) && (1 <=? month) && (month <=? 12)
      && (1 <=? day) && (day <=? days_in_month year month))%Z
  then Ok (mkDate year month day)
  else Raise ValueError.

(** [x.date()] on a value of a datetime column: [None] stands for NaT, which
    is what [NaT.date()] returns; on a timestamp whose year [datetime.date]
    does not accept, pandas raises [NotImplementedError]. *)
Definition pd_date (x : pdvalue) : result (option date) :=
  match x with
  | NaT => Ok None
  | Stamp t =>
      if ((1 <=? ts_year t) && (ts_year t <=? 9999))%Z
      then Ok (Some (ts_date t))
      else Raise NotImplementedError
  end.

(** Line 141: [sprint_start.date() <= current_date <= sprint_end.date()].
    The chained comparison evaluates [sprint_end.date()] only when the first
    comparison holds; comparing NaT with a [datetime.date], on either side,
    raises [TypeError]. *)
Definition check_in_sprint (sprint : Row) (current_date : date) : result bool :=
  sprint_start ← pd_date (Start_Date sprint);
  match sprint_start with
  | None => Raise TypeError
  | Some first =>
      if date_leb first current_date
      then
        sprint_end ← pd_date (End_Date sprint);
        match sprint_end with
        | None => Raise TypeError
        | Some last => Ok (date_leb current_date last)
        end
      else Ok false
  end.

(** One subplot: its place in the grid, the (year, month) of its title and
    its table. *)
Record Axes := mkAxes {
  ax_row : nat;
  ax_col : nat;
  ax_title : Z * Z;
  ax_table : Table
}.

(** The figure: grid shape, the subplots in creation order, and the handles
    and labels given to [fig.legend] with its column count. *)
Record Figure := mkFigure {
  fig_rows : nat;
  fig_cols : nat;
  fig_axes : list Axes;
  fig_legend : list (pystr * RGBA);
  fig_legend_ncol : nat
}.

Definition day_names : list pystr :=
  map pystr_of ["Mon"; "Tue"; "Wed"; "Thu"; "Fri"; "Sat"; "Sun"]%string.

Section Renderer.

(** [plt.cm.tab10(np.linspace(0, 1, n))[i]]: row [i] of the colour array
    made for [n] sprints. *)
Variable sample_colors : nat -> nat -> RGBA.

(** Line 74: the dictionary comprehension over the enumerated rows. *)
Definition make_sprint_colors (df : DataFrame) : pydict :=
  foldl (fun d '(i, row) => dict_set (Sprint row) (sample_colors (length df) i) d)
        [] (enumerate 0 df).

(** Lines 97-102. *)
Definition make_cell_text (cal : list (list Z)) : list (list pystr) :=
  map (fun day => default [] (day_names !! day)) (seq 0 7)
  :: map (fun week =>
            map (fun day => if (day =? 0)%Z then [] else str_int day) week)
         cal.

(** Lines 117-119. *)
Definition style_header (t : Table) : result Table :=
  for_each (seq 0 7)
    (fun j t =>
       t ← table_modify (0, j) set_text_bold t;
       table_modify (0, j) (set_facecolor (FaceNamed "#e6e6e6")) t)
    t.

(** Lines 122-125. *)
Definition highlight_weekends (cell_text : list (list pystr)) (t : Table)
  : result Table :=
  for_each (seq 1 (length cell_text - 1))
    (fun week_idx t =>
       for_each [5; 6]
         (fun day_idx t =>
            row ← list_get cell_text week_idx;
            txt ← list_get row day_idx;
            if truthy txt
            then table_modify (week_idx, day_idx)
                   (set_facecolor (FaceNamed "#f2f2f2")) t
            else Ok t)
         t)
    t.

(** Lines 136-148 for one cell of the month; [cell] is the object stored in
    the table, changed in place. *)
Definition paint_day (sprint_colors : pydict) (year month : Z) (sprint : Row)
    (week_idx day_idx : nat) (day : Z) (t : Table) : result Table :=
  if (day =? 0)%Z then Ok t
  else
    current_date ← new_date year month day;
    inside ← check_in_sprint sprint current_date;
    if (inside : bool)
    then
      cell ← table_get t (week_idx, day_idx);
      color ← dict_get sprint_colors (Sprint sprint);
      let cell := set_facecolor (FaceRGBA color) cell in
      color' ← dict_get sprint_colors (Sprint sprint);
      let cell :=
        if is_dark color' then set_text_color (TextNamed "white") cell
        else cell in
      Ok (<[(week_idx, day_idx) := cell]> t)
    else Ok t.

(** Lines 128-148. *)
Definition paint_sprints (sprint_colors : pydict) (df : DataFrame)
    (year month : Z) (cal : list (list Z)) (t : Table) : result Table :=
  for_each df
    (fun sprint t =>
       for_each (enumerate 1 cal)
         (fun '(week_idx, week) t =>
            for_each (enumerate 0 week)
              (fun '(day_idx, day) t =>
                 paint_day sprint_colors year month sprint week_idx day_idx
                   day t)
              t)
         t)
    t.

(** Lines 77-151: the subplot of one month. *)
Definition month_axes (sprint_colors : pydict) (df : DataFrame) (cols : nat)
    (i : nat) (ym : Z * Z) : result Axes :=
  let '(year, month) := ym in
  let row := i / cols in
  let col := i mod cols in
  let cal := monthcalendar year month in
  let cell_text := make_cell_text cal in
  let table := make_table cell_text in
  table ← style_header table;
  table ← highlight_weekends cell_text table;
  table ← paint_sprints sprint_colors df year month cal table;
  Ok (mkAxes row col (year, month) table).

(** Lines 45-46 for a timestamp: its (year, month). *)
Definition year_month (t : Timestamp) : Z * Z := (ts_year t, ts_month t).

(** Lines 49-56 when [min_date] and [max_date] are timestamps. *)
Definition months_to_display (min_date max_date : Timestamp) : list (Z * Z) :=
  let start_month := year_month min_date in
  let end_month := year_month max_date in
  months_loop end_month start_month [].

(** Lines 59-162 for the months to display. *)
Definition render_months (df : DataFrame) (months : list (Z * Z))
  : result (option Figure) :=
  let num_months := length months in
  let cols := min 3 num_months in
  if decide (cols = 0) then Raise ZeroDivisionError
  else
    let rows := (num_months + cols - 1) / cols in
    let sprint_colors := make_sprint_colors df in
    axes ← for_each (enumerate 0 months)
             (fun '(i, ym) axes =>
                ax ← month_axes sprint_colors df cols i ym;
                Ok (axes ++ [ax]))
             [];
    Ok (Some (mkFigure rows cols axes sprint_colors
                (min 5 (length sprint_colors)))).

(** [generate_wall_calendar(df)]: [Ok None] is the [return None] of line 38,
    [Ok (Some fig)] the figure returned on line 162.

    The year and the month of NaT are [nan].  When only one of [min_date]
    and [max_date] is NaT, the test of line 51 compares a number with [nan]
    and fails at once: no month is listed, [cols] is 0 and line 61 raises
    [ZeroDivisionError].  When both are NaT, the four entries of the two
    tuples are the one object [np.nan]: the tuples compare equal, the loop
    runs once and lists (nan, nan), and [calendar.month_name[nan]] on line
    85 raises [TypeError]. *)
Definition generate_wall_calendar (df : DataFrame) : result (option Figure) :=
  match df with
  | [] => Ok None
  | _ :: _ =>
      match column_min (map Start_Date df), column_max (map End_Date df) with
      | Stamp min_date, Stamp max_date =>
          render_months df (months_to_display min_date max_date)
      | NaT, NaT => Raise TypeError
      | _, _ => Raise ZeroDivisionError
      end
  end.

End Renderer.

(** ** The tab10 palette *)

Definition rgb255 (r g b : Z) : RGBA := mkRGBA (r # 255) (g # 255) (b # 255) 1.

Definition tab10 : list RGBA :=
  [ rgb255 31 119 180; rgb255 255 127 14; rgb255 44 160 44;
    rgb255 214 39 40; rgb255 148 103 189; rgb255 140 86 75;
    rgb255 227 119 194; rgb255 127 127 127; rgb255 188 189 34;
    rgb255 23 190 207 ].

(** The double nearest to a small natural number. *)
Definition float_of_nat (n : nat) : float :=
  Nat.iter n (fun x => (x + 1)%float) 0%float.

(** [np.linspace(0, 1, n)[i]], computed on doubles as numpy does: [i] times
    the step [1 / (n - 1)], and the last point set to 1. *)
Definition linspace (n i : nat) : float :=
  if decide (n <= 1) then 0%float
  else if decide (i = n - 1) then 1%float
  else (float_of_nat i * (1 / float_of_nat (n - 1)))%float.

(** The entry a colormap of ten colours selects for [x] in [0, 1]: [x] is
    multiplied by 10 and truncated, and 10 itself selects the last entry. *)
Definition colormap_index (x : float) : nat :=
  let xa := (x * float_of_nat 10)%float in
  if PrimFloat.eqb xa (float_of_nat 10) then 9
  else foldr (fun k idx => if PrimFloat.leb (float_of_nat k) xa then S idx else idx)
         0 (seq 1 9).

(** [plt.cm.tab10(np.linspace(0, 1, n))[i]] (line 73). *)
Definition tab10_linspace (n i : nat) : RGBA :=
  default (rgb255 0 0 0) (tab10 !! colormap_index (linspace n i)).

(** ** Notions used to state the properties *)

(** The lines of a text, without stripping the text first. *)
Definition lines_raw (s : pystr) : list pystr :=
  filter (λ l, truthy l = true) (map strip (split_lf s)).

(** A data line the loop turns into a record: at least three tokens. *)
Definition accepted (line : pystr) : Prop := 3 ≤ length (split_ws line).

#[global] Instance accepted_dec line : Decision (accepted line) :=
  decide (3 ≤ length (split_ws line)).

(** [row] is the record made from [line]: its first three tokens, the
    dates as [to_datetime] reads them. *)
Definition row_of_line (to_datetime : pystr → option pdvalue)
    (line : pystr) (row : Row) : Prop :=
  ∃ name s e rest,
    split_ws line = name :: s :: e :: rest
    ∧ Sprint row = name
    ∧ to_datetime s = Some (Start_Date row)
    ∧ to_datetime e = Some (End_Date row).

(** A timestamp of a real calendar date and time of day, in a year that
    [datetime.date] accepts. *)
Definition valid_timestamp (t : Timestamp) : Prop :=
  (1 ≤ ts_year t ≤ 9999 ∧ 1 ≤ ts_month t ≤ 12
   ∧ 1 ≤ ts_day t ≤ days_in_month (ts_year t) (ts_month t)
   ∧ 0 ≤ ts_nanos t < 86400000000000)%Z.

(** A row whose start and end are such timestamps, not NaT. *)
Definition valid_row (r : Row) : Prop :=
  ∃ s e, Start_Date r = Stamp s ∧ End_Date r = Stamp e
         ∧ valid_timestamp s ∧ valid_timestamp e.

(** [t] is the earliest start of the frame, NaT entries left aside; [t] is
    its latest end. *)
Definition earliest_start (df : DataFrame) (t : Timestamp) : Prop :=
  Stamp t ∈ map Start_Date df
  ∧ ∀ t', Stamp t' ∈ map Start_Date df → ts_leb t t' = true.

Definition latest_end (df : DataFrame) (t : Timestamp) : Prop :=
  Stamp t ∈ map End_Date df
  ∧ ∀ t', Stamp t' ∈ map End_Date df → ts_leb t' t = true.

(** The test of line 141 as a truth value: it ran without raising and gave
    [True]. *)
Definition in_sprint (sprint : Row) (current_date : date) : bool :=
  match check_in_sprint sprint current_date with
  | Ok inside => inside
  | Raise _ => false
  end.

(** The first exception of a run of checks made in order. *)
Definition first_exn (checks : list (option exn)) : option exn :=
  foldr (λ c rest, match c with Some e => Some e | None => rest end)
        None checks.

(** What lines 140-141 raise for one cell and one sprint, if anything. *)
Definition paint_check (year month : Z) (sprint : Row) (day : Z)
  : option exn :=
  if (day =? 0)%Z then None
  else
    match new_date year month day with
    | Raise e => Some e
    | Ok current_date =>
        match check_in_sprint sprint current_date with
        | Raise e => Some e
        | Ok _ => None
        end
    end.

(** The first exception of lines 128-148 for one month, in the order of the
    three loops. *)
Definition month_check (df : DataFrame) (ym : Z * Z) : option exn :=
  first_exn
    ((λ sprint,
        first_exn
          ((λ wk : nat * list Z,
              first_exn
                ((λ dy : nat * Z, paint_check ym.1 ym.2 sprint dy.2)
                   <$> enumerate 0 wk.2))
             <$> enumerate 1 (monthcalendar ym.1 ym.2)))
       <$> df).

(** The first exception over the months of the figure. *)
Definition figure_check (df : DataFrame) (months : list (Z * Z))
  : option exn :=
  first_exn (month_check df <$> months).

(** Months counted from year 0: the (year, month) pairs from [first]
    through [last] inclusive are the indices in between, one step at a
    time. *)
Definition month_index (ym : Z * Z) : Z := (12 * fst ym + (snd ym - 1))%Z.

Definition month_of_index (k : Z) : Z * Z := ((k / 12)%Z, (k mod 12 + 1)%Z).

Definition spec_month_range (first last : Z * Z) : list (Z * Z) :=
  map (λ i, month_of_index (month_index first + Z.of_nat i)%Z)
      (seq 0 (Z.to_nat (month_index last - month_index first + 1))).

(** The dictionary comprehension of line 74 from an arbitrary dictionary
    and start index. *)
Definition sprint_colors_from (sample_colors : nat → nat → RGBA) (n : nat)
    (d : pydict) (start : nat) (rows : list Row) : pydict :=
  foldl (λ d '(i, row), dict_set (Sprint row) (sample_colors n i) d)
        d (enumerate start rows).

(** A table that has every cell named by [K]. *)
Definition keys_ok (K : nat * nat → Prop) (t : Table) : Prop :=
  ∀ k, K k → is_Some (t !! k).

(** A piece of code that never raises on such a table and only rewrites
    cells in place: cell [k] becomes [g k] of what it was. *)
Definition cellwise (K : nat * nat → Prop) (T : Table → result Table)
    (g : nat * nat → Cell → Cell) : Prop :=
  ∀ t, keys_ok K t → ∃ t', T t = Ok t' ∧ ∀ k, t' !! k = g k <$> t !! k.

(** The same for code that makes checks on the way: it raises [e] when
    [chk] is [Some e], whatever the table, and rewrites the cells when no
    check fails. *)
Definition cellwise_chk (K : nat * nat → Prop) (T : Table → result Table)
    (g : nat * nat → Cell → Cell) (chk : option exn) : Prop :=
  ∀ t, keys_ok K t →
    match chk with
    | Some e => T t = Raise e
    | None => ∃ t', T t = Ok t' ∧ ∀ k, t' !! k = g k <$> t !! k
    end.

(** What lines 141-148 do to the cell showing [day], for one sprint. *)
Definition paint (sprint_colors : pydict) (year month : Z) (sprint : Row)
    (day : Z) (c : Cell) : Cell :=
  if (day =? 0)%Z then c
  else if in_sprint sprint (mkDate year month day) then
    match dict_find (Sprint sprint) sprint_colors with
    | Some color =>
        let c := set_facecolor (FaceRGBA color) c in
        if is_dark color then set_text_color (TextNamed "white") c else c
    | None => c
    end
  else c.

(** The cell showing [day] in column [day_idx] as it is before the sprints
    are painted. *)
Definition base_cell (day_idx : nat) (day : Z) : Cell :=
  let c := new_cell (str_int day) in
  if decide (day_idx = 5 ∨ day_idx = 6)
  then set_facecolor (FaceNamed "#f2f2f2") c else c.

(** One sprint's pass over the month (lines 134-148), seen from cell [k]. *)
Definition sprint_pass (sprint_colors : pydict) (year month : Z)
    (cal : list (list Z)) (sprint : Row) (k : nat * nat) (c : Cell) : Cell :=
  foldl (λ c wk,
           foldl (λ c dy,
                    if decide (k = (wk.1, dy.1))
                    then paint sprint_colors year month sprint dy.2 c else c)
                 c (enumerate 0 wk.2))
        c (enumerate 1 cal).

(** The subplot [ax] is the one of month [ym]: in its table, the cell in
    row [S w], column [j] of a day is the base cell painted by the sprints
    of [df] in order. *)
Definition month_painted (sc : pydict) (df : DataFrame) (ym : Z * Z)
    (ax : Axes) : Prop :=
  ax_title ax = ym
  ∧ ∀ (w j : nat) week day,
      monthcalendar ym.1 ym.2 !! w = Some week → week !! j = Some day →
      day ≠ 0%Z →
      ax_table ax !! (S w, j)
      = Some (foldl (λ c s, paint sc ym.1 ym.2 s day c) (base_cell j day) df).

(** The contrast rule applied once, to the colour that ends up filling the
    cell. *)
Definition contrast_once (winner : RGBA) : textcolor :=
  if is_dark winner then TextNamed "white" else TextDefault.

(** ** Example inputs *)

(** The schedule shown in the text box when the page opens. *)
Definition sample_text : pystr := pystr_of
"Sprint Name Start Date End Date
0 2025-03-10 2025-03-21
1 2025-03-24 2025-04-11
2 2025-04-14 2025-05-02".

Definition sample_df : DataFrame :=
  [ mkRow (pystr_of "0") (Stamp (mkTimestamp 2025 3 10 0))
      (Stamp (mkTimestamp 2025 3 21 0));
    mkRow (pystr_of "1") (Stamp (mkTimestamp 2025 3 24 0))
      (Stamp (mkTimestamp 2025 4 11 0));
    mkRow (pystr_of "2") (Stamp (mkTimestamp 2025 4 14 0))
      (Stamp (mkTimestamp 2025 5 2 0)) ].

(** A header, a sprint, a line of two tokens and another sprint. *)
Definition short_line : pystr := pystr_of "planning week".

Definition short_text : pystr := pystr_of
"Sprint Name Start Date End Date
0 2025-03-10 2025-03-21
planning week
1 2025-03-24 2025-04-11".

(** A schedule whose second data line has the 30th of February. *)
Definition bad_line : pystr := pystr_of "1 2025-02-30 2025-03-07".

Definition bad_text : pystr := pystr_of
"Sprint Name Start Date End Date
0 2025-03-10 2025-03-21
1 2025-02-30 2025-03-07
2 2025-04-14 2025-05-02".

(** The same sprint line twice. *)
Definition repeated_text : pystr := pystr_of
"Sprint Name Start Date End Date
0 2025-03-10 2025-03-21
0 2025-03-10 2025-03-21
1 2025-03-24 2025-04-11".

(** A text whose first line is a well-formed sprint line. *)
Definition headless_first : pystr := pystr_of "0 2025-03-10 2025-03-21".

Definition headless_rest : pystr := pystr_of "1 2025-03-24 2025-04-11".

(** One sprint that ends in the month before it starts. *)
Definition backwards_sprint : Row :=
  mkRow (pystr_of "X") (Stamp (mkTimestamp 2025 5 1 0))
    (Stamp (mkTimestamp 2025 3 1 0)).

(** Two sprints sharing the week of March 17th, 2025. *)
Definition sprint_A : Row :=
  mkRow (pystr_of "A") (Stamp (mkTimestamp 2025 3 10 0))
    (Stamp (mkTimestamp 2025 3 21 0)).

Definition sprint_B : Row :=
  mkRow (pystr_of "B") (Stamp (mkTimestamp 2025 3 17 0))
    (Stamp (mkTimestamp 2025 3 28 0)).

Definition overlap_df : DataFrame := [sprint_A; sprint_B].

(** Three records, the first and the last with the same name. *)
Definition sprint_A_again : Row :=
  mkRow (pystr_of "A") (Stamp (mkTimestamp 2025 4 7 0))
    (Stamp (mkTimestamp 2025 4 18 0)).

Definition renamed_df : DataFrame := [sprint_A; sprint_B; sprint_A_again].

(** One sprint from mid December into January. *)
Definition new_year_sprint : Row :=
  mkRow (pystr_of "NY") (Stamp (mkTimestamp 2025 12 15 0))
    (Stamp (mkTimestamp 2026 1 9 0)).

(** The figure of a render that returned one. *)
Definition figure_of (r : result (option Figure)) : Figure :=
  match r with
  | Ok (Some fig) => fig
  | _ => mkFigure 0 0 [] [] 0
  end.

Definition nth_axes (fig : Figure) (i : nat) : Axes :=
  default (mkAxes 0 0 (0, 0)%Z ∅) (fig_axes fig !! i).

Definition sample_fig : Figure :=
  Eval vm_compute in
    figure_of (generate_wall_calendar tab10_linspace sample_df).

Definition sample_march : Axes := Eval vm_compute in nth_axes sample_fig 0.

Definition overlap_fig : Figure :=
  Eval vm_compute in
    figure_of (generate_wall_calendar tab10_linspace overlap_df).

Definition overlap_march : Axes := Eval vm_compute in nth_axes overlap_fig 0.

Definition renamed_fig : Figure :=
  Eval vm_compute in
    figure_of (generate_wall_calendar tab10_linspace renamed_df).


(** ** The page *)

(** The buffer written by [fig.savefig(buffer, format='png', dpi=300,
    bbox_inches='tight')]: the figure and the options it was saved with. *)
Record Png := mkPng {
  png_fig : Figure;
  png_dpi : nat;
  png_bbox_inches : string
}.

(** The Streamlit calls made while the button is handled. *)
Inductive st_call :=
| st_subheader (body : string)
| st_dataframe (data : DataFrame)
| st_pyplot (fig : Figure)
| st_download_button (label : string) (data : Png) (file_name mime : string)
| st_error (body : string).

Section Page.
Variable to_datetime : pystr → option pdvalue.
Variable sample_colors : nat → nat → RGBA.

(** Lines 180-203, the body of [if st.button("Generate Calendar")]: the
    calls made in order, and the exception that ended the run if one was
    raised.  A figure is a truthy object, [None] is not. *)
Definition on_generate (user_input : pystr) : list st_call * option exn :=
  match parse_sprint_data to_datetime user_input with
  | Raise e => ([], Some e)
  | Ok sprint_df =>
      let shown :=
        [ st_subheader "Parsed Sprint Data";
          st_dataframe sprint_df;
          st_subheader "Sprint Calendar Visualization" ] in
      match generate_wall_calendar sample_colors sprint_df with
      | Raise e => (shown, Some e)
      | Ok (Some fig) =>
          (shown
           ++ [ st_pyplot fig;
                st_download_button "Download Calendar Image"
                  (mkPng fig 300 "tight") "sprint_calendar.png" "image/png" ],
           None)
      | Ok None =>
          (shown
           ++ [ st_error
                  "Could not generate calendar. Please check your input format." ],
           None)
      end
  end.

End Page.


(** ** More notions and example inputs *)

(** A run of whitespace. *)
Definition whitespace (w : pystr) : Prop := Forall (λ c, isspace c = true) w.

(** A token: a non-empty string without whitespace. *)
Definition token (t : pystr) : Prop :=
  t ≠ [] ∧ Forall (λ c, isspace c = false) t.

(** What may follow a token on its line: nothing, or whitespace and then
    anything. *)
Definition token_end (rest : pystr) : Prop :=
  match rest with [] => True | c :: _ => isspace c = true end.

(** The header cell of column [j] as styled by lines 117-119. *)
Definition header_cell (j : nat) : Cell :=
  set_facecolor (FaceNamed "#e6e6e6")
    (set_text_bold (new_cell (default [] (day_names !! j)))).

(** The cell at [k] in the finished table of month ([year], [month]): a
    header cell in row 0, and below it one cell per entry of the month
    calendar, blank for a padding entry. *)
Definition final_cell (sc : pydict) (df : DataFrame) (year month : Z)
    (k : nat * nat) : option Cell :=
  match k with
  | (0, j) => if decide (j < 7) then Some (header_cell j) else None
  | (S w, j) =>
      match monthcalendar year month !! w ≫= (.!! j) with
      | Some day =>
          Some (if (day =? 0)%Z then new_cell []
                else foldl (λ c s, paint sc year month s day c)
                       (base_cell j day) df)
      | None => None
      end
  end.

(** The distinct names of a list in order of first appearance, given the
    names [seen] before. *)
Fixpoint first_seen (seen names : list pystr) : list pystr :=
  match names with
  | [] => []
  | x :: names' =>
      if decide (x ∈ seen) then first_seen seen names'
      else x :: first_seen (x :: seen) names'
  end.



(** The carriage return and the tabulation. *)
Definition CR : N := 13%N.

Definition TAB : N := 9%N.

(** A sprint from January to April 2025: four months. *)
Definition long_sprint : Row :=
  mkRow (pystr_of "L") (Stamp (mkTimestamp 2025 1 20 0))
    (Stamp (mkTimestamp 2025 4 4 0)).

Definition long_fig : Figure :=
  Eval vm_compute in
    figure_of (generate_wall_calendar tab10_linspace [long_sprint]).

Definition sample_may : Axes := Eval vm_compute in nth_axes sample_fig 2.


(** A schedule whose second data line has NaT for a start date. *)
Definition nat_text : pystr := pystr_of
"Sprint Name Start Date End Date
0 2025-03-10 2025-03-21
1 NaT 2025-03-07".

Definition nat_df : DataFrame :=
  [ mkRow (pystr_of "0") (Stamp (mkTimestamp 2025 3 10 0))
      (Stamp (mkTimestamp 2025 3 21 0));
    mkRow (pystr_of "1") NaT (Stamp (mkTimestamp 2025 3 7 0)) ].

(** A sprint that starts in year 0. *)
Definition year0_text : pystr := pystr_of
"Sprint Name Start Date End Date
0 0000-12-25 0001-01-05".

Definition year0_df : DataFrame :=
  [ mkRow (pystr_of "0") (Stamp (mkTimestamp 0 12 25 0))
      (Stamp (mkTimestamp 1 1 5 0)) ].

(** Three sprints out of order: the earliest start is in the second row,
    the latest end in the first, and the year changes in between. *)
Definition spread_first : Timestamp := mkTimestamp 2024 12 5 0.

Definition spread_last : Timestamp := mkTimestamp 2025 2 10 0.

Definition spread_df : DataFrame :=
  [ mkRow (pystr_of "B") (Stamp (mkTimestamp 2025 1 15 0)) (Stamp spread_last);
    mkRow (pystr_of "A") (Stamp spread_first)
      (Stamp (mkTimestamp 2024 12 20 0));
    mkRow (pystr_of "C") (Stamp (mkTimestamp 2025 1 1 0))
      (Stamp (mkTimestamp 2025 1 5 0)) ].

(** A sprint whose end was read as a timestamp of year 0, beside a sprint
    of January 2025. *)
Definition year0_end_df : DataFrame :=
  [ mkRow (pystr_of "0") (Stamp (mkTimestamp 2025 1 1 0))
      (Stamp (mkTimestamp 2025 1 31 0));
    mkRow (pystr_of "1") (Stamp (mkTimestamp 2025 1 10 0))
      (Stamp (mkTimestamp 0 1 1 0)) ].

(** A sprint of January 2025 and a sprint that starts in June with NaT for
    its end. *)
Definition nat_end_df : DataFrame :=
  [ mkRow (pystr_of "0") (Stamp (mkTimestamp 2025 1 1 0))
      (Stamp (mkTimestamp 2025 1 31 0));
    mkRow (pystr_of "1") (Stamp (mkTimestamp 2025 6 1 0)) NaT ].

Definition spread_fig : Figure :=
  Eval vm_compute in
    figure_of (generate_wall_calendar tab10_linspace spread_df).

(** * Properties *)

(** ** Strings *)

Lemma isspace_LF : isspace LF = true.
Proof. reflexivity. Qed.

Lemma split_lf_not_nil s : split_lf s ≠ [].
Proof.
  destruct s as [|c s]; simpl; [done|].
  destruct (c =? LF)%N; [done|]. by destruct (split_lf s).
Qed.

Lemma split_lf_app_lf a b : split_lf (a ++ LF :: b) = split_lf a ++ split_lf b.
Proof.
  induction a as [|c a IH]; simpl; [done|].
  destruct (c =? LF)%N; [by rewrite IH|].
  rewrite IH. pose proof (split_lf_not_nil a).
  by destruct (split_lf a).
Qed.

Lemma split_lf_no_lf s : LF ∉ s → split_lf s = [s].
Proof.
  induction s as [|c s IH]; intros Hs; simpl; [done|].
  apply not_elem_of_cons in Hs as [Hc Hs].
  destruct (N.eqb_spec c LF); [congruence|]. by rewrite IH.
Qed.

Lemma split_lf_snoc s c :
  c ≠ LF →
  ∃ init lastp, split_lf s = init ++ [lastp]
                ∧ split_lf (s ++ [c]) = init ++ [lastp ++ [c]].
Proof.
  intros Hc. induction s as [|x s (init & lastp & E1 & E2)]; simpl.
  - exists [], []. destruct (N.eqb_spec c LF); [congruence|done].
  - destruct (x =? LF)%N.
    + exists ([] :: init), lastp. by rewrite E1, E2.
    + rewrite E1, E2. destruct init as [|p init]; simpl.
      * by exists [], (x :: lastp).
      * by exists ((x :: p) :: init), lastp.
Qed.

Lemma lstrip_decompose s : ∃ w, Forall (λ c, isspace c = true) w ∧ s = w ++ lstrip s.
Proof.
  induction s as [|c s (w & Hw & E)]; simpl.
  - by exists [].
  - destruct (isspace c) eqn:Hc.
    + exists (c :: w). split; [by constructor|]. simpl. by rewrite <- E.
    + by exists [].
Qed.

Lemma rstrip_decompose s : ∃ w, Forall (λ c, isspace c = true) w ∧ s = rstrip s ++ w.
Proof.
  destruct (lstrip_decompose (rev s)) as (w & Hw & E).
  exists (rev w). split; [by apply Forall_rev|].
  unfold rstrip. rewrite <- rev_app_distr, <- E. by rewrite rev_involutive.
Qed.

Lemma lstrip_space c s : isspace c = true → lstrip (c :: s) = lstrip s.
Proof. intros H. simpl. by rewrite H. Qed.

Lemma lstrip_snoc_space s c :
  isspace c = true →
  lstrip (s ++ [c]) = match lstrip s with [] => [] | _ => lstrip s ++ [c] end.
Proof.
  intros Hc. induction s as [|x s IH]; simpl; [by rewrite Hc|].
  destruct (isspace x); [done|]. done.
Qed.

Lemma rstrip_snoc_space s c : isspace c = true → rstrip (s ++ [c]) = rstrip s.
Proof.
  intros Hc. unfold rstrip. rewrite rev_app_distr. simpl. by rewrite Hc.
Qed.

Lemma strip_space_l c s : isspace c = true → strip (c :: s) = strip s.
Proof. intros Hc. unfold strip. by rewrite lstrip_space. Qed.

Lemma strip_space_r s c : isspace c = true → strip (s ++ [c]) = strip s.
Proof.
  intros Hc. unfold strip. rewrite lstrip_snoc_space by done.
  destruct (lstrip s) eqn:E; [done|]. by rewrite rstrip_snoc_space.
Qed.

Lemma lines_raw_space_l c s : isspace c = true → lines_raw (c :: s) = lines_raw s.
Proof.
  intros Hc. unfold lines_raw. simpl.
  destruct (N.eqb_spec c LF) as [->|Hne].
  - simpl. rewrite filter_cons_False; [done|]. by compute.
  - pose proof (split_lf_not_nil s). destruct (split_lf s) as [|p ps]; [done|].
    simpl. by rewrite strip_space_l.
Qed.

Lemma lines_raw_space_r s c : isspace c = true → lines_raw (s ++ [c]) = lines_raw s.
Proof.
  intros Hc. unfold lines_raw.
  destruct (N.eqb_spec c LF) as [->|Hne].
  - rewrite split_lf_app_lf. simpl. rewrite map_app, filter_app. simpl.
    rewrite filter_cons_False; [|by compute]. by rewrite filter_nil, app_nil_r.
  - destruct (split_lf_snoc s c Hne) as (init & lastp & -> & ->).
    rewrite !map_app. simpl. by rewrite strip_space_r.
Qed.

Lemma lines_raw_spaces_l w s :
  Forall (λ c, isspace c = true) w → lines_raw (w ++ s) = lines_raw s.
Proof.
  induction 1 as [|c w Hc _ IH]; simpl; [done|]. by rewrite lines_raw_space_l.
Qed.

Lemma lines_raw_spaces_r s w :
  Forall (λ c, isspace c = true) w → lines_raw (s ++ w) = lines_raw s.
Proof.
  induction w as [|c w IH] using rev_ind; intros Hw; [by rewrite app_nil_r|].
  apply Forall_app in Hw as [Hw Hc]. rewrite Forall_singleton in Hc.
  rewrite app_assoc, lines_raw_space_r by done. auto.
Qed.

Lemma lines_raw_strip s : lines_raw (strip s) = lines_raw s.
Proof.
  destruct (lstrip_decompose s) as (w1 & Hw1 & E1).
  destruct (rstrip_decompose (lstrip s)) as (w2 & Hw2 & E2).
  transitivity (lines_raw (lstrip s)).
  - unfold strip. rewrite <- (lines_raw_spaces_r _ w2 Hw2). by rewrite <- E2.
  - rewrite <- (lines_raw_spaces_l w1 (lstrip s) Hw1). by rewrite <- E1.
Qed.

Lemma lines_eq_raw text : lines text = lines_raw text.
Proof. apply lines_raw_strip. Qed.

Lemma lines_app_lf a b : lines (a ++ LF :: b) = lines a ++ lines b.
Proof.
  rewrite !lines_eq_raw. unfold lines_raw.
  by rewrite split_lf_app_lf, map_app, filter_app.
Qed.

Lemma lines_single h : LF ∉ h → strip h ≠ [] → lines h = [strip h].
Proof.
  intros Hh Hne. rewrite lines_eq_raw. unfold lines_raw.
  rewrite split_lf_no_lf by done. simpl.
  rewrite filter_cons_True; [done|]. by destruct (strip h).
Qed.

Lemma split_ws_from_snoc_space cur s c :
  isspace c = true → split_ws_from cur (s ++ [c]) = split_ws_from cur s.
Proof.
  intros Hc. revert cur. induction s as [|x s IH]; intros cur; simpl.
  - rewrite Hc. by destruct cur.
  - destruct (isspace x); [destruct cur|]; by rewrite ?IH.
Qed.

Lemma split_ws_strip s : split_ws (strip s) = split_ws s.
Proof.
  destruct (lstrip_decompose s) as (w1 & Hw1 & E1).
  destruct (rstrip_decompose (lstrip s)) as (w2 & Hw2 & E2).
  assert (Hr : ∀ t w, Forall (λ c, isspace c = true) w →
                      split_ws (t ++ w) = split_ws t).
  { intros t w. induction w as [|c w IH] using rev_ind; intros Hw;
      [by rewrite app_nil_r|].
    apply Forall_app in Hw as [Hw Hc]. rewrite Forall_singleton in Hc.
    unfold split_ws in *.
    rewrite app_assoc, split_ws_from_snoc_space by done. auto. }
  assert (Hl : ∀ w t, Forall (λ c, isspace c = true) w →
                      split_ws (w ++ t) = split_ws t).
  { intros w t. induction 1 as [|c w Hc _ IH]; [done|].
    unfold split_ws in *. simpl. by rewrite Hc. }
  transitivity (split_ws (lstrip s)).
  - unfold strip. rewrite <- (Hr _ w2 Hw2). by rewrite <- E2.
  - rewrite <- (Hl w1 (lstrip s) Hw1). by rewrite <- E1.
Qed.

Section ParserFacts.
Variable to_datetime : pystr → option pdvalue.

Lemma parse_line_short line sprints :
  length (split_ws line) < 3 → parse_line to_datetime line sprints = Ok sprints.
Proof.
  unfold parse_line. intros H.
  destruct (split_ws line) as [|a [|b [|c l]]]; simpl in *; try done. lia.
Qed.

Lemma parse_loop_app l1 l2 sprints :
  parse_loop to_datetime (l1 ++ l2) sprints =
  match parse_loop to_datetime l1 sprints with
  | (sprints', None) => parse_loop to_datetime l2 sprints'
  | raised => raised
  end.
Proof.
  revert sprints. induction l1 as [|line l1 IH]; intros sprints; simpl; [done|].
  destruct (parse_line to_datetime line sprints); [apply IH|done].
Qed.

Lemma parse_loop_skip l1 line l2 sprints :
  length (split_ws line) < 3 →
  parse_loop to_datetime (l1 ++ line :: l2) sprints = parse_loop to_datetime (l1 ++ l2) sprints.
Proof.
  intros H. rewrite !parse_loop_app. destruct (parse_loop to_datetime l1 sprints) as [s [e|]]; [done|].
  simpl. by rewrite parse_line_short.
Qed.

Lemma parse_line_accepted line sprints sprints' :
  accepted line → parse_line to_datetime line sprints = Ok sprints' →
  ∃ row, sprints' = sprints ++ [row] ∧ row_of_line to_datetime line row.
Proof.
  unfold accepted, parse_line. intros Hacc.
  destruct (split_ws line) as [|name [|s [|e rest]]] eqn:E; simpl in Hacc; try lia.
  destruct (to_datetime s) as [sd|] eqn:Es; [|done].
  destruct (to_datetime e) as [ed|] eqn:Ee; [|done].
  intros [= <-]. exists (mkRow name sd ed). split; [done|].
  by exists name, s, e, rest.
Qed.

Lemma parse_loop_rows ls sprints sprints' :
  parse_loop to_datetime ls sprints = (sprints', None) →
  ∃ new, sprints' = sprints ++ new
         ∧ Forall2 (row_of_line to_datetime) (filter accepted ls) new.
Proof.
  revert sprints. induction ls as [|line ls IH]; intros sprints; simpl.
  - intros [= <-]. exists []. by rewrite app_nil_r.
  - destruct (parse_line to_datetime line sprints) as [s1|] eqn:E; [|done].
    intros H. apply IH in H as (new & -> & HF).
    destruct (decide (accepted line)) as [Ha|Hn].
    + destruct (parse_line_accepted _ _ _ Ha E) as (row & -> & Hrow).
      exists (row :: new). rewrite <- app_assoc. split; [done|].
      rewrite filter_cons_True by done. by constructor.
    + rewrite parse_line_short in E by (unfold accepted in Hn; lia).
      injection E as <-. exists new. split; [done|].
      by rewrite filter_cons_False.
Qed.

Lemma parse_line_bad line name s e rest sprints :
  split_ws line = name :: s :: e :: rest →
  to_datetime s = None ∨ to_datetime e = None →
  ∃ tok, parse_line to_datetime line sprints = Raise (ParseError tok)
         ∧ (tok = s ∨ tok = e) ∧ to_datetime tok = None.
Proof.
  intros E H. unfold parse_line. rewrite E.
  destruct (to_datetime s) eqn:Es.
  - destruct H as [|He]; [done|]. rewrite He. eauto.
  - eauto.
Qed.

Lemma parse_loop_raises ls sprints sprints' e :
  parse_loop to_datetime ls sprints = (sprints', Some e) →
  ∃ before line after,
    ls = before ++ line :: after
    ∧ parse_loop to_datetime before sprints = (sprints', None)
    ∧ parse_line to_datetime line sprints' = Raise e.
Proof.
  revert sprints. induction ls as [|line ls IH]; intros sprints; simpl; [done|].
  destruct (parse_line to_datetime line sprints) as [s1|e1] eqn:E.
  - intros H. apply IH in H as (before & l & after & -> & Hb & Hl).
    exists (line :: before), l, after. simpl. by rewrite E.
  - intros [= <- <-]. by exists [], line, ls.
Qed.

(** C5: a data line that splits into fewer than three tokens leaves the
    list of records as it is and raises nothing; the parse of the whole
    text is the parse of the text read without that line. *)
Theorem short_line_skipped text l1 line l2 :
  data_lines text = l1 ++ line :: l2 →
  length (split_ws line) < 3 →
  (∀ sprints, parse_line to_datetime line sprints = Ok sprints)
  ∧ parse_sprint_data to_datetime text = parse_lines to_datetime (l1 ++ l2).
Proof.
  intros Hd Hshort. split; [intros; by apply parse_line_short|].
  unfold parse_sprint_data, parse_lines.
  by rewrite Hd, parse_loop_skip.
Qed.

(** C6, amended: when a data line has at least three tokens and
    [to_datetime] raises on its second or third token, the parse raises a
    [ParseError] naming a token that [to_datetime] rejects, and the list of
    records at that moment holds only what lines before that line
    produced.  A token read as NaT is not rejected. *)
Theorem bad_date_raises text l1 line l2 name s e rest :
  data_lines text = l1 ++ line :: l2 →
  split_ws line = name :: s :: e :: rest →
  to_datetime s = None ∨ to_datetime e = None →
  ∃ tok sprints before,
    parse_sprint_data to_datetime text = Raise (ParseError tok)
    ∧ to_datetime tok = None
    ∧ parse_loop to_datetime (data_lines text) [] = (sprints, Some (ParseError tok))
    ∧ before `prefix_of` l1
    ∧ parse_loop to_datetime before [] = (sprints, None).
Proof.
  intros Hd Hsplit Hbad.
  unfold parse_sprint_data, parse_lines. rewrite Hd.
  rewrite parse_loop_app.
  destruct (parse_loop to_datetime l1 []) as [s1 [e1|]] eqn:E1.
  - apply parse_loop_raises in E1 as (before & bl & after & -> & Hb & Hl).
    unfold parse_line in Hl.
    assert (∃ tok, e1 = ParseError tok ∧ to_datetime tok = None) as (tok & -> & Htok).
    { destruct (split_ws bl) as [|a [|b [|c l]]]; try done.
      destruct (to_datetime b) eqn:Eb; [|injection Hl as <-; eauto].
      destruct (to_datetime c) eqn:Ec; [done|injection Hl as <-; eauto]. }
    exists tok, s1, before. repeat split; try done.
    by apply prefix_app_r.
  - simpl.
    destruct (parse_line_bad line name s e rest s1 Hsplit Hbad) as (tok & -> & _ & Htok).
    exists tok, s1, l1. repeat split; done.
Qed.

(** C7: when the parse succeeds, the frame has exactly one row per accepted
    data line, in the order of the lines: row [i] is made from the [i]-th
    accepted line, equal lines giving equal rows. *)
Theorem parse_preserves_order text df :
  parse_sprint_data to_datetime text = Ok df →
  Forall2 (row_of_line to_datetime) (filter accepted (data_lines text)) df.
Proof.
  unfold parse_sprint_data, parse_lines.
  destruct (parse_loop to_datetime (data_lines text) []) as [s [e|]] eqn:E; [done|].
  intros [= <-]. by apply parse_loop_rows in E as (new & -> & HF).
Qed.

(** C8: the first non-blank line [h] is dropped whatever it contains: with
    or without blank lines before it, the result is the parse of the lines
    after it, and a text made of [h] alone gives the empty frame. *)
Theorem header_line_discarded blank h body :
  lines blank = [] → LF ∉ h → strip h ≠ [] →
  parse_sprint_data to_datetime (h ++ LF :: body) = parse_lines to_datetime (lines body)
  ∧ parse_sprint_data to_datetime (blank ++ LF :: h ++ LF :: body) = parse_lines to_datetime (lines body)
  ∧ parse_sprint_data to_datetime h = Ok [].
Proof.
  intros Hb Hh Hne. unfold parse_sprint_data, data_lines.
  rewrite !lines_app_lf, Hb, lines_single by done. done.
Qed.

End ParserFacts.

(** ** The months between two dates *)

Lemma months_loop_step e cy cm acc :
  months_loop e (cy, cm) acc =
  if pair_leb (cy, cm) e then
    if (cm + 1 >? 12)%Z then months_loop e (cy + 1, 1)%Z (acc ++ [(cy, cm)])
    else months_loop e (cy, cm + 1)%Z (acc ++ [(cy, cm)])
  else acc.
Proof.
  destruct (pair_leb (cy, cm) e) eqn:Hle;
    [destruct (cm + 1 >? 12)%Z eqn:Hgt|];
    rewrite months_loop_equation_1; unfold months_loop_unfold_clause_1;
    destruct (inspect (pair_leb (cy, cm) e)) as [[] Hle']; try congruence;
    unfold months_loop_unfold_clause_1_clause_2;
    destruct (inspect (cm + 1 >? 12)%Z) as [[] Hgt']; congruence.
Qed.

Lemma month_of_index_index y m :
  (1 ≤ m ≤ 12)%Z → month_of_index (month_index (y, m)) = (y, m).
Proof.
  intros Hm. unfold month_of_index, month_index. simpl.
  f_equal.
  - symmetry. apply (Z.div_unique _ _ _ (m - 1)); lia.
  - assert ((12 * y + (m - 1)) mod 12 = m - 1)%Z; [|lia].
    symmetry. apply (Z.mod_unique _ _ y); lia.
Qed.

Lemma spec_month_range_nil first last :
  (month_index last < month_index first)%Z → spec_month_range first last = [].
Proof.
  intros H. unfold spec_month_range.
  by replace (Z.to_nat _) with 0 by lia.
Qed.

Lemma spec_month_range_cons y m last :
  (1 ≤ m ≤ 12)%Z →
  (month_index (y, m) ≤ month_index last)%Z →
  spec_month_range (y, m) last =
  (y, m) :: spec_month_range
              (if (m + 1 >? 12)%Z then (y + 1, 1)%Z else (y, m + 1)%Z) last.
Proof.
  intros Hm Hle. unfold spec_month_range.
  set (nxt := if (m + 1 >? 12)%Z then _ else _).
  assert (Hn : month_index nxt = (month_index (y, m) + 1)%Z).
  { unfold nxt, month_index. destruct (Z.gtb_spec (m + 1) 12); simpl; lia. }
  rewrite Hn.
  replace (Z.to_nat (month_index last - month_index (y, m) + 1))
    with (S (Z.to_nat (month_index last - (month_index (y, m) + 1) + 1))) by lia.
  simpl. rewrite Z.add_0_r, month_of_index_index by done. f_equal.
  rewrite <- seq_shift, map_map. apply map_ext. intros i. f_equal. lia.
Qed.

Lemma pair_leb_index a b :
  (1 ≤ snd a ≤ 12)%Z → (1 ≤ snd b ≤ 12)%Z →
  pair_leb a b = true ↔ (month_index a ≤ month_index b)%Z.
Proof.
  destruct a as [ay am], b as [by_ bm]. unfold pair_leb, month_index. simpl.
  intros Ha Hb.
  rewrite orb_true_iff, andb_true_iff, Z.ltb_lt, Z.eqb_eq, Z.leb_le. lia.
Qed.

Lemma month_index_of_index k : month_index (month_of_index k) = k.
Proof.
  unfold month_index, month_of_index. simpl.
  pose proof (Z.div_mod k 12 ltac:(lia)). lia.
Qed.

Lemma spec_month_range_elem first last y m :
  (y, m) ∈ spec_month_range first last
  ↔ (1 ≤ m ≤ 12)%Z
    ∧ (month_index first ≤ month_index (y, m) ≤ month_index last)%Z.
Proof.
  unfold spec_month_range. rewrite list_elem_of_fmap. split.
  - intros (i & E & Hi%elem_of_seq).
    assert (Hk := month_index_of_index (month_index first + Z.of_nat i)).
    rewrite <- E in Hk. split; [|lia].
    injection E as _ ->.
    pose proof (Z.mod_pos_bound (month_index first + Z.of_nat i) 12
                  ltac:(lia)). lia.
  - intros [Hm Hr]. exists (Z.to_nat (month_index (y, m) - month_index first)).
    split; [|apply elem_of_seq; lia].
    replace (month_index first
             + Z.of_nat (Z.to_nat (month_index (y, m) - month_index first)))%Z
      with (month_index (y, m)) by lia.
    by rewrite month_of_index_index.
Qed.

Lemma months_loop_range last y m acc :
  (1 ≤ m ≤ 12)%Z → (1 ≤ snd last ≤ 12)%Z →
  months_loop last (y, m) acc = acc ++ spec_month_range (y, m) last.
Proof.
  intros Hm Hl.
  remember (Z.to_nat (month_index last - month_index (y, m) + 1)) as n eqn:En.
  revert y m acc Hm En.
  induction n as [|n IH]; intros y m acc Hm En; rewrite months_loop_step.
  - destruct (pair_leb (y, m) last) eqn:E.
    + apply pair_leb_index in E; [|done..]. lia.
    + rewrite spec_month_range_nil, app_nil_r; [done|].
      destruct (Z.lt_ge_cases (month_index last) (month_index (y, m))) as [|H]; [done|].
      apply pair_leb_index in H; [congruence|done..].
  - destruct (pair_leb (y, m) last) eqn:E.
    + apply pair_leb_index in E; [|done..].
      rewrite spec_month_range_cons by done.
      destruct (Z.gtb_spec (m + 1) 12).
      * rewrite IH; [by rewrite <- app_assoc|lia|].
        unfold month_index in *; simpl in *; lia.
      * rewrite IH; [by rewrite <- app_assoc|lia|].
        unfold month_index in *; simpl in *; lia.
    + assert (¬ (month_index (y, m) ≤ month_index last)%Z) as H.
      { intros H. apply pair_leb_index in H; [congruence|done..]. }
      lia.
Qed.

(** ** The month calendar *)

Lemma days_in_month_nonneg y m : (0 ≤ days_in_month y m)%Z.
Proof.
  unfold days_in_month.
  repeat match goal with
         | |- context [match ?x with _ => _ end] => destruct x
         end; lia.
Qed.

Lemma itermonthdays_length y m : ∃ k, length (itermonthdays y m) = 7 * k.
Proof.
  unfold itermonthdays.
  set (day1 := weekday y m 1). set (ndays := days_in_month y m).
  pose proof (days_in_month_nonneg y m) as Hn. fold ndays in Hn.
  rewrite !length_app, !length_replicate, length_map, length_seq.
  pose proof (Z.mod_pos_bound day1 7 ltac:(lia)) as Ha.
  pose proof (Z.mod_pos_bound (- day1 - ndays) 7 ltac:(lia)) as Hb.
  pose proof (Z.div_mod day1 7 ltac:(lia)) as Ea.
  pose proof (Z.div_mod (- day1 - ndays) 7 ltac:(lia)) as Eb.
  exists (Z.to_nat (- (day1 / 7 + (- day1 - ndays) / 7))). lia.
Qed.

Lemma monthcalendar_lookup y m w week :
  monthcalendar y m !! w = Some week →
  length week = 7 ∧ ∀ j, j < 7 → week !! j = itermonthdays y m !! (7 * w + j).
Proof.
  unfold monthcalendar. destruct (itermonthdays_length y m) as [k Hk].
  rewrite list_lookup_fmap, Hk.
  replace ((7 * k + 6) / 7) with k
    by (apply (Nat.div_unique _ _ _ 6); lia).
  destruct (seq 0 k !! w) as [i|] eqn:E; [|done]. simpl.
  apply lookup_seq in E as [-> Hw]. simpl (0 + w). intros [= <-]. split.
  - rewrite length_take, length_drop. lia.
  - intros j Hj. by rewrite lookup_take_lt, lookup_drop.
Qed.

Lemma weekday_range y m d : (0 ≤ weekday y m d < 7)%Z.
Proof. unfold weekday. apply Z.mod_pos_bound. lia. Qed.

Lemma weekday_shift y m d :
  weekday y m d = ((weekday y m 1 + (d - 1)) mod 7)%Z.
Proof.
  unfold weekday, toordinal.
  rewrite Zplus_mod_idemp_l. f_equal. lia.
Qed.

Lemma itermonthdays_nonzero y m (i : nat) d :
  itermonthdays y m !! i = Some d → d ≠ 0%Z →
  (1 ≤ d ≤ days_in_month y m)%Z
  ∧ Z.of_nat i = (weekday y m 1 + (d - 1))%Z.
Proof.
  unfold itermonthdays. intros Hi Hd.
  pose proof (weekday_range y m 1) as Hr.
  rewrite Z.mod_small in Hi by done.
  apply lookup_app_Some in Hi as [Hi|[Hlen Hi]].
  { apply lookup_replicate in Hi as [-> _]. done. }
  rewrite length_replicate in Hlen, Hi.
  apply lookup_app_Some in Hi as [Hi|[_ Hi]].
  2:{ apply lookup_replicate in Hi as [-> _]. done. }
  rewrite list_lookup_fmap in Hi.
  destruct (seq 1 _ !! _) as [k|] eqn:E; [|done].
  injection Hi as <-. apply lookup_seq in E as [-> Hk]. lia.
Qed.

Lemma itermonthdays_day y m d :
  (1 ≤ d ≤ days_in_month y m)%Z →
  itermonthdays y m !! Z.to_nat (weekday y m 1 + (d - 1)) = Some d.
Proof.
  intros Hd. unfold itermonthdays.
  pose proof (weekday_range y m 1) as Hr.
  rewrite Z.mod_small by done.
  rewrite lookup_app_r; rewrite length_replicate; [|lia].
  rewrite lookup_app_l by (rewrite length_map, length_seq; lia).
  rewrite list_lookup_fmap.
  replace (Z.to_nat (weekday y m 1 + (d - 1)) - Z.to_nat (weekday y m 1))
    with (Z.to_nat (d - 1)) by lia.
  rewrite lookup_seq_lt by lia. simpl. f_equal. lia.
Qed.

Lemma monthcalendar_lookup_total y m (i : nat) :
  i < length (itermonthdays y m) →
  ∃ week, monthcalendar y m !! (i / 7) = Some week
          ∧ week !! (i mod 7) = itermonthdays y m !! i.
Proof.
  intros Hi. unfold monthcalendar. destruct (itermonthdays_length y m) as [k Hk].
  rewrite list_lookup_fmap, Hk.
  replace ((7 * k + 6) / 7) with k by (apply (Nat.div_unique _ _ _ 6); lia).
  pose proof (Nat.div_mod_eq i 7) as Hdm.
  pose proof (Nat.mod_upper_bound i 7 ltac:(lia)) as Hmod.
  rewrite Hk in Hi.
  rewrite lookup_seq_lt by lia. cbn [fmap option_fmap option_map].
  eexists. split; [done|].
  rewrite lookup_take_lt, lookup_drop by done. f_equal. lia.
Qed.

Lemma calendar_cell_weekday y m (w j : nat) week day :
  monthcalendar y m !! w = Some week → week !! j = Some day → day ≠ 0%Z →
  (1 ≤ day ≤ days_in_month y m)%Z ∧ weekday y m day = Z.of_nat j.
Proof.
  intros Hw Hj Hd. apply monthcalendar_lookup in Hw as [Hlen Hw].
  pose proof (lookup_lt_Some _ _ _ Hj) as Hj7. rewrite Hlen in Hj7.
  rewrite Hw in Hj by done.
  apply itermonthdays_nonzero in Hj as [Hr Hi]; [|done]. split; [done|].
  rewrite weekday_shift, <- Hi.
  symmetry. apply (Z.mod_unique _ _ (Z.of_nat w)); lia.
Qed.

Lemma calendar_shows_day y m day :
  (1 ≤ day ≤ days_in_month y m)%Z →
  ∃ (w j : nat) week,
    monthcalendar y m !! w = Some week ∧ week !! j = Some day.
Proof.
  intros Hd. pose proof (itermonthdays_day y m day Hd) as Hi.
  destruct (monthcalendar_lookup_total y m _ (lookup_lt_Some _ _ _ Hi))
    as (week & Hw & Hj).
  eexists _, _, week. split; [done|]. by rewrite Hj.
Qed.

(** ** Loops that rewrite cells in place *)

Lemma keys_ok_fmap (K : nat * nat → Prop) (t t' : Table)
    (g : nat * nat → Cell → Cell) :
  keys_ok K t → (∀ k, t' !! k = g k <$> t !! k) → keys_ok K t'.
Proof.
  intros Ht Hl k Hk. rewrite Hl. destruct (Ht k Hk) as [c ->]. by eexists.
Qed.

Lemma cellwise_ret (K : nat * nat → Prop) : cellwise K Ok (λ _ c, c).
Proof. intros t _. exists t. split; [done|]. intros k. by destruct (t !! k). Qed.

Lemma cellwise_ext (K : nat * nat → Prop) T g g' :
  (∀ k c, g k c = g' k c) → cellwise K T g → cellwise K T g'.
Proof.
  intros Hg HT t Ht. destruct (HT t Ht) as (t' & E & Hl).
  exists t'. split; [done|]. intros k. rewrite Hl.
  destruct (t !! k); simpl; by rewrite ?Hg.
Qed.

Lemma cellwise_bind (K : nat * nat → Prop) T1 T2 g1 g2 :
  cellwise K T1 g1 → cellwise K T2 g2 →
  cellwise K (λ t, t1 ← T1 t; T2 t1) (λ k c, g2 k (g1 k c)).
Proof.
  intros H1 H2 t Ht. destruct (H1 t Ht) as (t1 & E1 & L1).
  destruct (H2 t1 (keys_ok_fmap _ _ _ _ Ht L1)) as (t2 & E2 & L2).
  exists t2. rewrite E1. simpl. split; [done|].
  intros k. rewrite L2, L1. by destruct (t !! k).
Qed.

Lemma cellwise_for_each {A} (K : nat * nat → Prop) (l : list A) body g :
  (∀ x, x ∈ l → cellwise K (body x) (g x)) →
  cellwise K (for_each l body) (λ k c, foldl (λ c x, g x k c) c l).
Proof.
  induction l as [|x l IH]; intros Hb; simpl.
  - apply cellwise_ret.
  - apply (cellwise_bind K (body x) (for_each l body) (g x)
             (λ k c, foldl (λ c x, g x k c) c l)).
    + apply Hb. by left.
    + apply IH. intros y Hy. apply Hb. by right.
Qed.

Lemma cellwise_modify (K : nat * nat → Prop) key f :
  K key →
  cellwise K (table_modify key f) (λ k c, if decide (k = key) then f c else c).
Proof.
  intros Hk t Ht. unfold table_modify. destruct (Ht key Hk) as [c Hc].
  rewrite Hc. eexists. split; [done|]. intros k.
  destruct (decide (k = key)) as [->|Hne].
  - by rewrite lookup_insert_eq, Hc.
  - rewrite lookup_insert_ne by done. by destruct (t !! k).
Qed.

(** The same loops when the body makes checks. *)

Lemma first_exn_cons c checks :
  first_exn (c :: checks)
  = match c with Some e => Some e | None => first_exn checks end.
Proof. done. Qed.

Lemma first_exn_None checks :
  first_exn checks = None ↔ Forall (λ c, c = None) checks.
Proof.
  induction checks as [|[e|] checks IH]; simpl.
  - split; [constructor|done].
  - split; [done|]. by intros [? _]%Forall_cons.
  - rewrite IH. split; [by constructor|]. by intros [_ ?]%Forall_cons.
Qed.


Lemma cellwise_chk_for_each {A} (K : nat * nat → Prop) (l : list A) body g
    (chk : A → option exn) :
  (∀ x, x ∈ l → cellwise_chk K (body x) (g x) (chk x)) →
  cellwise_chk K (for_each l body) (λ k c, foldl (λ c x, g x k c) c l)
    (first_exn (chk <$> l)).
Proof.
  induction l as [|x l IH]; intros Hb; cbn [fmap list_fmap].
  - apply cellwise_ret.
  - rewrite first_exn_cons. intros t Ht.
    pose proof (Hb x ltac:(by left) t Ht) as Hx.
    assert (IH' : cellwise_chk K (for_each l body)
                    (λ k c, foldl (λ c x, g x k c) c l) (first_exn (chk <$> l))).
    { apply IH. intros y Hy. apply Hb. by right. }
    cbn [for_each]. destruct (chk x) as [e|].
    + by rewrite Hx.
    + destruct Hx as (t1 & -> & L1). cbn [mbind result_bind].
      pose proof (IH' t1 (keys_ok_fmap _ _ _ _ Ht L1)) as Hl.
      destruct (first_exn (chk <$> l)) as [e|]; [done|].
      destruct Hl as (t2 & -> & L2). exists t2. split; [done|].
      intros k. rewrite L2, L1. cbn [foldl]. by destruct (t !! k).
Qed.

(** Folds that touch one position. *)

Lemma foldl_id {A C} (f : C → A → C) (l : list A) c :
  (∀ x c, x ∈ l → f c x = c) → foldl f c l = c.
Proof.
  induction l as [|x l IH]; intros H; simpl; [done|].
  rewrite H by (by left). apply IH. intros y c' Hy. apply H. by right.
Qed.

Lemma foldl_enumerate_pick {A C} (f : C → nat * A → C) (h : A → C → C)
    (l : list A) (i n : nat) c :
  (∀ c i' x, f c (i', x) = if decide (i' = n + i) then h x c else c) →
  foldl f c (enumerate n l) =
  match l !! i with Some x => h x c | None => c end.
Proof.
  intros Hf. revert i n c Hf. induction l as [|x l IH]; intros i n c Hf; simpl.
  - done.
  - rewrite Hf. destruct i as [|i]; simpl.
    + rewrite decide_True by lia. apply foldl_id.
      intros [i' y] c' Hy. rewrite Hf. rewrite decide_False; [done|].
      assert (S n ≤ i'); [|lia].
      clear -Hy. revert Hy. generalize (S n). induction l as [|z l IH]; intros m; simpl.
      * by intros ?%elem_of_nil.
      * intros [[= -> ->]|H]%elem_of_cons; [lia|]. apply IH in H. lia.
    + rewrite decide_False by lia. apply IH.
      intros c' i' y. rewrite Hf. by replace (S n + i) with (n + S i) by lia.
Qed.

Lemma foldl_seq_pick {C} (f : C → nat → C) (h : C → C) (a n i : nat) c :
  (∀ c i', f c i' = if decide (i' = i) then h c else c) →
  foldl f c (seq a n) = if decide (a ≤ i < a + n) then h c else c.
Proof.
  intros Hf. revert a c. induction n as [|n IH]; intros a c; simpl.
  - rewrite decide_False by lia. done.
  - rewrite Hf, IH. destruct (decide (a = i)) as [->|].
    + rewrite decide_False by lia. by rewrite decide_True by lia.
    + destruct (decide (S a ≤ i < S a + n)).
      * by rewrite decide_True by lia.
      * by rewrite decide_False by lia.
Qed.

(** ** The table of one month *)

Lemma fill_row_lookup (r : nat) (row : list pystr) (t : Table) (n r' c' : nat) :
  foldl (λ t '(c, txt), <[(r, c) := new_cell txt]> t) t (enumerate n row)
    !! (r', c') =
  if decide (r' = r ∧ n ≤ c' < n + length row)
  then new_cell <$> row !! (c' - n) else t !! (r', c').
Proof.
  revert n t. induction row as [|txt row IH]; intros n t; simpl.
  - rewrite decide_False by lia. done.
  - rewrite IH. destruct (decide (r' = r ∧ S n ≤ c' < S n + length row)) as [[-> H]|H].
    + rewrite decide_True by lia.
      replace (c' - n) with (S (c' - S n)) by lia. done.
    + destruct (decide (r' = r ∧ c' = n)) as [[-> ->]|H'].
      * rewrite lookup_insert_eq, decide_True by lia.
        by replace (n - n) with 0 by lia.
      * rewrite lookup_insert_ne by (intros [= -> ->]; lia).
        by rewrite decide_False by lia.
Qed.

Lemma make_table_from_lookup (rows : list (list pystr)) (t : Table) (n r c : nat) :
  foldl (λ t '(r, row),
           foldl (λ t '(c, txt), <[(r, c) := new_cell txt]> t) t (enumerate 0 row))
        t (enumerate n rows) !! (r, c) =
  match (if decide (n ≤ r) then rows !! (r - n) ≫= (.!! c) else None) with
  | Some txt => Some (new_cell txt)
  | None => t !! (r, c)
  end.
Proof.
  revert n t. induction rows as [|row rows IH]; intros n t; simpl.
  - by destruct (decide (n ≤ r)).
  - rewrite IH. destruct (decide (S n ≤ r)) as [H|H].
    + rewrite decide_True by lia.
      replace (r - n) with (S (r - S n)) by lia. simpl.
      destruct (rows !! (r - S n) ≫= (.!! c)); [done|].
      rewrite fill_row_lookup. by rewrite decide_False by lia.
    + rewrite fill_row_lookup. destruct (decide (n ≤ r)) as [H'|H'].
      * assert (r = n) as -> by lia. replace (n - n) with 0 by lia. simpl.
        rewrite Nat.sub_0_r. case_decide as Hc.
        -- destruct (lookup_lt_is_Some_2 row c) as [txt ->]; [lia|done].
        -- rewrite lookup_ge_None_2 by lia. done.
      * by rewrite decide_False by lia.
Qed.

Lemma make_table_lookup cell_text (r c : nat) :
  make_table cell_text !! (r, c) =
  new_cell <$> (cell_text !! r ≫= (.!! c)).
Proof.
  unfold make_table. rewrite make_table_from_lookup, lookup_empty.
  rewrite decide_True by lia. rewrite Nat.sub_0_r.
  by destruct (cell_text !! r ≫= (.!! c)).
Qed.

Lemma digits_from_not_nil fuel n acc : acc ≠ [] → digits_from fuel n acc ≠ [].
Proof.
  revert n acc. induction fuel as [|fuel IH]; intros n acc H; simpl; [done|].
  destruct (n <? 10)%N; [done|]. by apply IH.
Qed.

Lemma str_int_truthy z : truthy (str_int z) = true.
Proof.
  unfold str_int. destruct (z <? 0)%Z; [done|].
  simpl. 
  match goal with |- truthy ?s = true => assert (s ≠ []) as H; [|by destruct s] end.
  destruct (_ <? 10)%N; [done|]. by apply digits_from_not_nil.
Qed.

Lemma weekend_pass_at (cell_text : list (list pystr)) (w j : nat) c :
  S w < length cell_text →
  foldl (λ c week_idx,
           foldl (λ c day_idx,
                    if decide ((S w, j) = (week_idx, day_idx))
                    then if truthy (default [] (cell_text !! week_idx ≫= (.!! day_idx)))
                         then set_facecolor (FaceNamed "#f2f2f2") c else c
                    else c)
                 c [5; 6])
        c (seq 1 (length cell_text - 1)) =
  if decide (j = 5 ∨ j = 6)
  then if truthy (default [] (cell_text !! S w ≫= (.!! j)))
       then set_facecolor (FaceNamed "#f2f2f2") c else c
  else c.
Proof.
  intros Hw.
  rewrite (foldl_seq_pick _
             (λ c, if decide (j = 5 ∨ j = 6)
                   then if truthy (default [] (cell_text !! S w ≫= (.!! j)))
                        then set_facecolor (FaceNamed "#f2f2f2") c else c
                   else c) _ _ (S w)).
  - by rewrite decide_True by lia.
  - intros c' i'. cbn [foldl].
    destruct (decide (i' = S w)) as [->|Hne].
    + destruct (decide (j = 5 ∨ j = 6)) as [[-> | ->]|Hj].
      * repeat case_decide; by simplify_eq.
      * repeat case_decide; by simplify_eq.
      * repeat case_decide; simplify_eq; tauto.
    + repeat case_decide; by simplify_eq.
Qed.

Section Month.
Variable sprint_colors : pydict.
Variables year month : Z.
Variable K : nat * nat → Prop.

Lemma new_date_Ok y m d current_date :
  new_date y m d = Ok current_date → current_date = mkDate y m d.
Proof. unfold new_date. case_match; [by intros [= <-]|done]. Qed.

Lemma paint_day_cellwise sprint (week_idx day_idx : nat) day :
  K (week_idx, day_idx) →
  is_Some (dict_find (Sprint sprint) sprint_colors) →
  cellwise_chk K
    (paint_day sprint_colors year month sprint week_idx day_idx day)
    (λ k c, if decide (k = (week_idx, day_idx))
            then paint sprint_colors year month sprint day c else c)
    (paint_check year month sprint day).
Proof.
  intros Hk [color Hcol] t Ht. unfold paint_day, paint, paint_check, in_sprint.
  destruct (day =? 0)%Z.
  { exists t. split; [done|]. intros k. destruct (t !! k); simpl; [|done].
    by case_decide. }
  destruct (new_date year month day) as [d|e] eqn:Ed; [|done].
  apply new_date_Ok in Ed as ->. cbn [mbind result_bind].
  destruct (check_in_sprint sprint _) as [[]|e]; cbn [mbind result_bind];
    [| |done].
  2:{ exists t. split; [done|]. intros k. destruct (t !! k); simpl; [|done].
      by case_decide. }
  destruct (Ht _ Hk) as [c Hc]. unfold table_get, dict_get.
  rewrite Hc, Hcol. simpl. eexists. split; [done|]. intros k.
  destruct (decide (k = (week_idx, day_idx))) as [->|Hne].
  - by rewrite lookup_insert_eq, Hc.
  - rewrite lookup_insert_ne by done. by destruct (t !! k).
Qed.

Lemma elem_of_enumerate {A} (l : list A) n i x :
  (i, x) ∈ enumerate n l → n ≤ i ∧ l !! (i - n) = Some x.
Proof.
  revert n. induction l as [|y l IH]; intros n; simpl.
  - by intros ?%elem_of_nil.
  - intros [[= -> ->]|H]%elem_of_cons.
    + split; [lia|]. by replace (n - n) with 0 by lia.
    + apply IH in H as [H1 H2]. split; [lia|].
      by replace (i - n) with (S (i - S n)) by lia.
Qed.

Lemma paint_sprints_cellwise df :
  let cal := monthcalendar year month in
  (∀ w week j, cal !! w = Some week → j < length week → K (S w, j)) →
  (∀ sprint, sprint ∈ df → is_Some (dict_find (Sprint sprint) sprint_colors)) →
  cellwise_chk K (paint_sprints sprint_colors df year month cal)
    (λ k c, foldl (λ c sprint,
                     sprint_pass sprint_colors year month cal sprint k c) c df)
    (month_check df (year, month)).
Proof.
  intros cal HK Hdf. unfold paint_sprints, month_check. cbn [fst snd].
  fold cal.
  apply (cellwise_chk_for_each K df _
           (λ sprint k c, sprint_pass sprint_colors year month cal sprint k c)
           (λ sprint,
              first_exn
                ((λ wk : nat * list Z,
                    first_exn
                      ((λ dy : nat * Z, paint_check year month sprint dy.2)
                         <$> enumerate 0 wk.2))
                   <$> enumerate 1 cal))).
  intros sprint Hs. unfold sprint_pass.
  apply (cellwise_chk_for_each K (enumerate 1 cal) _
           (λ wk k c,
              foldl (λ c dy,
                       if decide (k = (wk.1, dy.1))
                       then paint sprint_colors year month sprint dy.2 c else c)
                    c (enumerate 0 wk.2))
           (λ wk : nat * list Z,
              first_exn
                ((λ dy : nat * Z, paint_check year month sprint dy.2)
                   <$> enumerate 0 wk.2))).
  intros [week_idx week] Hw. cbn [fst snd].
  apply elem_of_enumerate in Hw as [Hw1 Hw2].
  apply (cellwise_chk_for_each K (enumerate 0 week) _
           (λ dy k c,
              if decide (k = (week_idx, dy.1))
              then paint sprint_colors year month sprint dy.2 c else c)
           (λ dy : nat * Z, paint_check year month sprint dy.2)).
  intros [day_idx day] Hd. cbn [fst snd].
  apply elem_of_enumerate in Hd as [_ Hd]. rewrite Nat.sub_0_r in Hd.
  apply paint_day_cellwise; [|by apply Hdf].
  replace week_idx with (S (week_idx - 1)) by lia.
  apply (HK _ week); [done|]. by eapply lookup_lt_Some.
Qed.

Lemma sprint_pass_at cal sprint (w j : nat) c :
  sprint_pass sprint_colors year month cal sprint (S w, j) c =
  match cal !! w ≫= (.!! j) with
  | Some day => paint sprint_colors year month sprint day c
  | None => c
  end.
Proof.
  unfold sprint_pass.
  rewrite (foldl_enumerate_pick _
             (λ week c, match week !! j with
                        | Some day => paint sprint_colors year month sprint day c
                        | None => c
                        end) cal w 1).
  - by destruct (cal !! w).
  - intros c' i' week. simpl.
    rewrite (foldl_enumerate_pick _
               (λ day c, if decide (i' = S w)
                         then paint sprint_colors year month sprint day c else c)
               week j 0).
    + destruct (week !! j); by repeat case_decide.
    + intros c'' j' day. simpl. repeat case_decide; try done; simplify_eq.
      all: exfalso; auto.
Qed.

Lemma highlight_weekends_cellwise (cell_text : list (list pystr)) :
  (∀ w j, w < length cell_text → j < 7 → K (w, j)) →
  (∀ row, row ∈ cell_text → length row = 7) →
  cellwise K (highlight_weekends cell_text)
    (λ k c, foldl (λ c week_idx,
                     foldl (λ c day_idx,
                              if decide (k = (week_idx, day_idx))
                              then if truthy (default [] (cell_text !! week_idx ≫= (.!! day_idx)))
                                   then set_facecolor (FaceNamed "#f2f2f2") c else c
                              else c)
                           c [5; 6])
                  c (seq 1 (length cell_text - 1))).
Proof.
  intros HK Hrows. unfold highlight_weekends.
  apply (cellwise_for_each K _ _
           (λ week_idx k c,
              foldl (λ c day_idx,
                       if decide (k = (week_idx, day_idx))
                       then if truthy (default [] (cell_text !! week_idx ≫= (.!! day_idx)))
                            then set_facecolor (FaceNamed "#f2f2f2") c else c
                       else c)
                    c [5; 6])).
  intros week_idx Hw. apply elem_of_seq in Hw.
  apply (cellwise_for_each K [5; 6] _
           (λ day_idx k c,
              if decide (k = (week_idx, day_idx))
              then if truthy (default [] (cell_text !! week_idx ≫= (.!! day_idx)))
                   then set_facecolor (FaceNamed "#f2f2f2") c else c
              else c)).
  intros day_idx Hd.
  assert (day_idx < 7) as Hd7.
  { apply elem_of_cons in Hd as [->|Hd]; [lia|].
    apply elem_of_cons in Hd as [->|Hd]; [lia|]. by apply elem_of_nil in Hd. }
  destruct (lookup_lt_is_Some_2 cell_text week_idx) as [row Hrow]; [lia|].
  assert (length row = 7) as Hlen by (apply Hrows; by eapply list_elem_of_lookup_2).
  destruct (lookup_lt_is_Some_2 row day_idx) as [txt Htxt]; [lia|].
  unfold list_get. rewrite Hrow. simpl. rewrite Htxt. simpl.
  destruct (truthy txt) eqn:Et.
  - eapply cellwise_ext; [|apply cellwise_modify; apply HK; lia].
    intros k c. simpl. rewrite ?Hrow. simpl. rewrite ?Htxt. simpl. by rewrite ?Et.
  - eapply cellwise_ext; [|apply cellwise_ret].
    intros k c. simpl. rewrite ?Hrow. simpl. rewrite ?Htxt. simpl. rewrite ?Et.
    by case_decide.
Qed.

Lemma style_header_cellwise :
  (∀ j, j < 7 → K (0, j)) →
  ∃ g, cellwise K style_header g ∧ ∀ w j c, g (S w, j) c = c.
Proof.
  intros HK. eexists. split.
  - unfold style_header.
    apply (cellwise_for_each K _ _
             (λ j k c,
                (if decide (k = (0, j)) then set_facecolor (FaceNamed "#e6e6e6") else id)
                  ((if decide (k = (0, j)) then set_text_bold else id) c))).
    intros j Hj%elem_of_seq.
    eapply cellwise_ext;
      [|apply (cellwise_bind K _ _ _ _
                 (cellwise_modify K (0, j) set_text_bold (HK j ltac:(lia)))
                 (cellwise_modify K (0, j) (set_facecolor (FaceNamed "#e6e6e6"))
                    (HK j ltac:(lia))))].
    intros k c. simpl. by repeat case_decide.
  - intros w j c. reflexivity.
Qed.

End Month.

Lemma foldl_ext_all {A C} (f g : C → A → C) (l : list A) c :
  (∀ c x, f c x = g c x) → foldl f c l = foldl g c l.
Proof.
  intros H. revert c. induction l as [|x l IH]; intros c; simpl; [done|].
  by rewrite H, IH.
Qed.

Lemma make_cell_text_length cal : length (make_cell_text cal) = S (length cal).
Proof. unfold make_cell_text. simpl. by rewrite length_map. Qed.

Lemma make_cell_text_rows y m row :
  row ∈ make_cell_text (monthcalendar y m) → length row = 7.
Proof.
  unfold make_cell_text. intros [->|H]%elem_of_cons; [done|].
  apply list_elem_of_fmap in H as (week & -> & Hw).
  apply list_elem_of_lookup in Hw as [w Hw].
  rewrite length_map. by apply monthcalendar_lookup in Hw as [? _].
Qed.

Lemma make_cell_text_day cal (w j : nat) week day :
  cal !! w = Some week → week !! j = Some day → day ≠ 0%Z →
  make_cell_text cal !! S w ≫= (.!! j) = Some (str_int day).
Proof.
  intros Hw Hj Hd. unfold make_cell_text. simpl.
  rewrite list_lookup_fmap, Hw. simpl. rewrite list_lookup_fmap, Hj. simpl.
  destruct (Z.eqb_spec day 0); [done|done].
Qed.

Lemma month_axes_spec sc df cols i y m :
  (∀ s, s ∈ df → is_Some (dict_find (Sprint s) sc)) →
  match month_check df (y, m) with
  | Some e => month_axes sc df cols i (y, m) = Raise e
  | None =>
      ∃ t, month_axes sc df cols i (y, m)
           = Ok (mkAxes (i / cols) (i mod cols) (y, m) t)
         ∧ ∀ (w j : nat) week day,
             monthcalendar y m !! w = Some week → week !! j = Some day →
             day ≠ 0%Z →
             t !! (S w, j)
             = Some (foldl (λ c s, paint sc y m s day c) (base_cell j day) df)
  end.
Proof.
  intros Hsc. unfold month_axes.
  set (cal := monthcalendar y m). set (ct := make_cell_text cal).
  set (K := λ k : nat * nat, k.1 < length ct ∧ k.2 < 7).
  assert (Hrows : ∀ row, row ∈ ct → length row = 7)
    by apply make_cell_text_rows.
  assert (H0 : keys_ok K (make_table ct)).
  { intros [r c] [Hr Hc]. cbn [fst snd] in Hr, Hc. rewrite make_table_lookup.
    destruct (lookup_lt_is_Some_2 ct r Hr) as [row Hrow]. rewrite Hrow. simpl.
    destruct (lookup_lt_is_Some_2 row c) as [txt ->]; [|by eexists].
    rewrite (Hrows row); [done|]. by eapply list_elem_of_lookup_2. }
  destruct (style_header_cellwise K) as (g1 & Hg1 & Hid).
  { intros j Hj. split; [|done]. unfold ct.
    rewrite make_cell_text_length. cbn [fst]. lia. }
  destruct (Hg1 _ H0) as (t1 & E1 & L1).
  pose proof (keys_ok_fmap _ _ _ _ H0 L1) as H1.
  destruct (highlight_weekends_cellwise K ct) with (t := t1)
    as (t2 & E2 & L2); [by intros w j ??|done|done|].
  pose proof (keys_ok_fmap _ _ _ _ H1 L2) as H2.
  pose proof (paint_sprints_cellwise sc y m K df) as H3. cbv zeta in H3.
  fold cal in H3. specialize (H3 ltac:(
    intros w week j Hw Hj; split; cbn [fst snd];
    [ unfold ct; rewrite make_cell_text_length;
      apply lookup_lt_Some in Hw; lia
    | apply monthcalendar_lookup in Hw as [Hl _]; lia ]) Hsc t2 H2).
  rewrite E1. cbn [mbind result_bind]. rewrite E2. cbn [mbind result_bind].
  destruct (month_check df (y, m)) as [e|]; [by rewrite H3|].
  destruct H3 as (t3 & E3 & L3).
  exists t3. rewrite E3. cbn [mbind result_bind].
  split; [done|]. intros w j week day Hw Hj Hd.
  rewrite L3, L2, L1, make_table_lookup.
  fold cal in Hw.
  assert (Hct : ct !! S w ≫= (.!! j) = Some (str_int day))
    by by apply (make_cell_text_day cal w j week day).
  rewrite Hct. cbn [fmap option_fmap option_map].
  rewrite Hid, weekend_pass_at
    by (unfold ct; rewrite make_cell_text_length; apply lookup_lt_Some in Hw; lia).
  rewrite Hct. simpl. rewrite str_int_truthy. f_equal.
  apply foldl_ext_all. intros c s.
  rewrite sprint_pass_at, Hw. simpl. by rewrite Hj.
Qed.

(** ** The colour of each name *)

Lemma dict_find_set (name k : pystr) v (d : pydict) :
  dict_find name (dict_set k v d) =
  if decide (k = name) then Some v else dict_find name d.
Proof.
  induction d as [|[k' v'] d IH]; simpl.
  - done.
  - destruct (decide (k' = k)) as [->|Hk]; simpl.
    + by destruct (decide (k = name)).
    + rewrite IH. destruct (decide (k' = name)) as [->|]; [|done].
      by rewrite decide_False.
Qed.

Lemma dict_set_keys (k : pystr) v (d : pydict) :
  map fst (dict_set k v d) =
  if decide (k ∈ map fst d) then map fst d else map fst d ++ [k].
Proof.
  induction d as [|[k' v'] d IH]; simpl; [done|].
  destruct (decide (k' = k)) as [->|Hk]; simpl.
  - rewrite decide_True; [done|]. by left.
  - rewrite IH. destruct (decide (k ∈ map fst d)) as [Hin|Hin].
    + rewrite decide_True; [done|]. by right.
    + rewrite decide_False; [done|].
      intros [?|?]%elem_of_cons; congruence.
Qed.

Section Colors.
Variable sample_colors : nat → nat → RGBA.
Variable n : nat.

Lemma sprint_colors_from_cons d start row rows :
  sprint_colors_from sample_colors n d start (row :: rows)
  = sprint_colors_from sample_colors n
      (dict_set (Sprint row) (sample_colors n start) d) (S start) rows.
Proof. reflexivity. Qed.

Lemma sprint_colors_from_other rows d start name :
  name ∉ map Sprint rows →
  dict_find name (sprint_colors_from sample_colors n d start rows)
  = dict_find name d.
Proof.
  revert d start. induction rows as [|row rows IH]; intros d start Hn; [done|].
  simpl in Hn. apply not_elem_of_cons in Hn as [Hne Hn].
  rewrite sprint_colors_from_cons, IH by done.
  rewrite dict_find_set. by rewrite decide_False.
Qed.

Lemma sprint_colors_from_last before row after d start :
  Sprint row ∉ map Sprint after →
  dict_find (Sprint row)
    (sprint_colors_from sample_colors n d start (before ++ row :: after))
  = Some (sample_colors n (start + length before)).
Proof.
  intros Hn. revert d start.
  induction before as [|x before IH]; intros d start.
  - simpl app. rewrite sprint_colors_from_cons.
    rewrite sprint_colors_from_other by done.
    rewrite dict_find_set, decide_True by done. by rewrite Nat.add_0_r.
  - simpl app. rewrite sprint_colors_from_cons, IH. do 2 f_equal. simpl. lia.
Qed.

Lemma sprint_colors_from_keys rows d start :
  NoDup (map fst d) →
  NoDup (map fst (sprint_colors_from sample_colors n d start rows))
  ∧ ∀ name, name ∈ map fst (sprint_colors_from sample_colors n d start rows)
            ↔ name ∈ map fst d ∨ name ∈ map Sprint rows.
Proof.
  revert d start. induction rows as [|row rows IH]; intros d start Hd.
  - split; [done|]. intros name. simpl. rewrite elem_of_nil. tauto.
  - rewrite sprint_colors_from_cons.
    assert (Hk := dict_set_keys (Sprint row) (sample_colors n start) d).
    destruct (IH (dict_set (Sprint row) (sample_colors n start) d) (S start))
      as [IH1 IH2].
    { rewrite Hk. case_decide; [done|].
      apply NoDup_app. split_and!; [done| |apply NoDup_singleton].
      intros x Hx ->%list_elem_of_singleton. done. }
    split; [done|]. intros name. rewrite IH2, Hk. simpl map.
    rewrite elem_of_cons. case_decide as Hin.
    + split; [tauto|]. intros [?|[->|?]]; auto.
    + rewrite elem_of_app, list_elem_of_singleton. tauto.
Qed.

End Colors.

Lemma make_sprint_colors_last sample_colors before row after :
  Sprint row ∉ map Sprint after →
  dict_find (Sprint row) (make_sprint_colors sample_colors (before ++ row :: after))
  = Some (sample_colors (length (before ++ row :: after)) (length before)).
Proof.
  intros H. change (make_sprint_colors sample_colors ?df)
    with (sprint_colors_from sample_colors (length df) [] 0 df).
  by rewrite (sprint_colors_from_last sample_colors _ before row after [] 0).
Qed.

Lemma make_sprint_colors_keys sample_colors df :
  NoDup (map fst (make_sprint_colors sample_colors df))
  ∧ ∀ name, name ∈ map fst (make_sprint_colors sample_colors df)
            ↔ name ∈ map Sprint df.
Proof.
  destruct (sprint_colors_from_keys sample_colors (length df) df [] 0) as [H1 H2];
    [apply NoDup_nil_2|].
  split; [done|]. intros name.
  change (make_sprint_colors sample_colors df)
    with (sprint_colors_from sample_colors (length df) [] 0 df).
  rewrite H2. simpl. rewrite elem_of_nil. tauto.
Qed.

Lemma dict_find_is_Some (d : pydict) name :
  name ∈ map fst d → is_Some (dict_find name d).
Proof.
  induction d as [|[k v] d IH]; simpl.
  - by intros ?%elem_of_nil.
  - intros Hin. case_decide; [by eexists|].
    apply elem_of_cons in Hin as [->|Hin]; [done|auto].
Qed.

Lemma make_sprint_colors_total sample_colors df s :
  s ∈ df → is_Some (dict_find (Sprint s) (make_sprint_colors sample_colors df)).
Proof.
  intros Hs. apply dict_find_is_Some.
  apply make_sprint_colors_keys. by apply list_elem_of_fmap_2.
Qed.

(** ** The figure *)

Section Figure.
Variable sample_colors : nat → nat → RGBA.

Lemma figure_check_cons df ym months :
  figure_check df (ym :: months)
  = match month_check df ym with
    | Some e => Some e
    | None => figure_check df months
    end.
Proof. done. Qed.

Lemma axes_loop sc df cols months start acc :
  (∀ s, s ∈ df → is_Some (dict_find (Sprint s) sc)) →
  match figure_check df months with
  | Some e =>
      for_each (enumerate start months)
        (λ '(i, ym) axes, ax ← month_axes sc df cols i ym; Ok (axes ++ [ax]))
        acc
      = Raise e
  | None =>
      ∃ axes,
        for_each (enumerate start months)
          (λ '(i, ym) axes, ax ← month_axes sc df cols i ym; Ok (axes ++ [ax]))
          acc
        = Ok (acc ++ axes)
        ∧ Forall2 (month_painted sc df) months axes
  end.
Proof.
  intros Hsc. revert start acc.
  induction months as [|[y m] months IH]; intros start acc;
    cbn [for_each enumerate].
  - exists []. by rewrite app_nil_r.
  - rewrite figure_check_cons.
    pose proof (month_axes_spec sc df cols start y m Hsc) as Hm.
    destruct (month_check df (y, m)) as [e|]; [by rewrite Hm|].
    destruct Hm as (t & -> & Ht). cbn [mbind result_bind].
    specialize (IH (S start)
                  (acc ++ [mkAxes (start / cols) (start mod cols) (y, m) t])).
    destruct (figure_check df months) as [e|]; [done|].
    destruct IH as (axes & -> & HF).
    eexists (_ :: axes). rewrite <- app_assoc. split; [done|].
    constructor; [|done]. split; [done|]. apply Ht.
Qed.

Lemma render_months_nil df :
  render_months sample_colors df [] = Raise ZeroDivisionError.
Proof. done. Qed.

Lemma render_months_spec df months :
  months ≠ [] →
  match figure_check df months with
  | Some e => render_months sample_colors df months = Raise e
  | None =>
      ∃ fig,
        render_months sample_colors df months = Ok (Some fig)
        ∧ fig_legend fig = make_sprint_colors sample_colors df
        ∧ Forall2 (month_painted (make_sprint_colors sample_colors df) df)
            months (fig_axes fig)
  end.
Proof.
  intros Hm. unfold render_months.
  destruct (decide (3 `min` length months = 0)) as [H0|_].
  { destruct months; [done|simpl in H0; lia]. }
  pose proof (axes_loop (make_sprint_colors sample_colors df) df
                (3 `min` length months) months 0 []) as Hl.
  specialize (Hl ltac:(intros s Hs; by apply make_sprint_colors_total)).
  destruct (figure_check df months) as [e|]; [by rewrite Hl|].
  destruct Hl as (axes & -> & HF).
  simpl. eexists. split; [done|]. by split.
Qed.

Lemma render_months_not_None df months :
  render_months sample_colors df months ≠ Ok None.
Proof.
  destruct months as [|ym months]; [done|].
  pose proof (render_months_spec df (ym :: months) ltac:(done)) as H.
  destruct (figure_check df (ym :: months)) as [e|].
  - by rewrite H.
  - destruct H as (fig & -> & _). done.
Qed.

Lemma generate_wall_calendar_inv df fig :
  generate_wall_calendar sample_colors df = Ok (Some fig) →
  ∃ min_date max_date,
    column_min (map Start_Date df) = Stamp min_date
    ∧ column_max (map End_Date df) = Stamp max_date
    ∧ figure_check df (months_to_display min_date max_date) = None
    ∧ fig_legend fig = make_sprint_colors sample_colors df
    ∧ Forall2 (month_painted (make_sprint_colors sample_colors df) df)
        (months_to_display min_date max_date) (fig_axes fig).
Proof.
  destruct df as [|r rs]; [done|]. unfold generate_wall_calendar.
  destruct (column_min _) as [lo|], (column_max _) as [hi|]; try done.
  intros H. exists lo, hi. split; [done|]. split; [done|].
  destruct (decide (months_to_display lo hi = [])) as [E|Hne].
  { by rewrite E in H. }
  pose proof (render_months_spec (r :: rs) _ Hne) as Hs.
  destruct (figure_check _ _) as [e|]; [by rewrite Hs in H|].
  destruct Hs as (fig' & E & H1 & H2). rewrite E in H.
  by injection H as <-.
Qed.

Lemma generate_wall_calendar_not_None r rs :
  generate_wall_calendar sample_colors (r :: rs) ≠ Ok None.
Proof.
  unfold generate_wall_calendar.
  destruct (column_min _) as [lo|], (column_max _) as [hi|]; try done.
  apply render_months_not_None.
Qed.

(** C4: the renderer returns [None] on the empty frame, without raising,
    and on no other frame. *)
Theorem none_iff_empty df :
  generate_wall_calendar sample_colors df = Ok None ↔ df = [].
Proof.
  split; [|by intros ->]. destruct df as [|r rs]; [done|]. intros H.
  by apply generate_wall_calendar_not_None in H.
Qed.

(** What the sprints do to one cell. *)

Lemma paint_not_in_sprint sc y m s day c :
  in_sprint s (mkDate y m day) = false → paint sc y m s day c = c.
Proof. unfold paint. intros ->. by destruct (day =? 0)%Z. Qed.

Lemma paint_skip_all sc y m day c (df : list Row) :
  Forall (λ s, in_sprint s (mkDate y m day) = false) df →
  foldl (λ c s, paint sc y m s day c) c df = c.
Proof.
  intros H. apply foldl_id. intros s c' Hs.
  apply paint_not_in_sprint. by eapply (proj1 (Forall_forall _ _) H).
Qed.

Lemma paint_face_winner sc y m day c before b after color :
  day ≠ 0%Z →
  in_sprint b (mkDate y m day) = true →
  Forall (λ s, in_sprint s (mkDate y m day) = false) after →
  dict_find (Sprint b) sc = Some color →
  cell_face (foldl (λ c s, paint sc y m s day c) c (before ++ b :: after))
  = FaceRGBA color.
Proof.
  intros Hd Hb Ha Hc. rewrite foldl_app. simpl.
  rewrite paint_skip_all by done. unfold paint.
  destruct (Z.eqb_spec day 0); [done|]. rewrite Hb, Hc.
  by destruct (is_dark color).
Qed.

Lemma paint_textcolor sc y m day (df : list Row) c :
  day ≠ 0%Z →
  cell_textcolor (foldl (λ c s, paint sc y m s day c) c df) =
  if existsb (λ s, in_sprint s (mkDate y m day)
                   && from_option is_dark false (dict_find (Sprint s) sc)) df
  then TextNamed "white" else cell_textcolor c.
Proof.
  intros Hd. induction df as [|s df IH] using rev_ind; [done|].
  rewrite foldl_app, existsb_app. simpl. rewrite orb_false_r.
  unfold paint at 1. destruct (Z.eqb_spec day 0); [done|].
  destruct (in_sprint s _); simpl; [|by rewrite orb_false_r].
  destruct (dict_find (Sprint s) sc) as [color|]; simpl;
    [|by rewrite orb_false_r].
  destruct (is_dark color); simpl; [by rewrite orb_true_r|].
  by rewrite orb_false_r.
Qed.

Lemma winner_cell_face df fig ax y m (w j : nat) week day before b after :
  generate_wall_calendar sample_colors df = Ok (Some fig) →
  ax ∈ fig_axes fig → ax_title ax = (y, m) →
  monthcalendar y m !! w = Some week → week !! j = Some day → day ≠ 0%Z →
  df = before ++ b :: after →
  in_sprint b (mkDate y m day) = true →
  Forall (λ s, in_sprint s (mkDate y m day) = false) after →
  ∃ color cell,
    dict_find (Sprint b) (make_sprint_colors sample_colors df) = Some color
    ∧ ax_table ax !! (S w, j) = Some cell
    ∧ cell_face cell = FaceRGBA color.
Proof.
  intros Hfig Hax Htitle Hw Hj Hd Hdf Hb Hafter.
  apply generate_wall_calendar_inv in Hfig as (lo & hi & _ & _ & _ & _ & HF).
  apply list_elem_of_lookup in Hax as [i Hax].
  destruct (Forall2_lookup_r _ _ _ _ _ HF Hax) as ([y' m'] & _ & Ht & Hcell).
  rewrite Htitle in Ht. injection Ht as <- <-. simpl in Hcell.
  destruct (make_sprint_colors_total sample_colors df b) as [color Hcolor].
  { rewrite Hdf. apply elem_of_app. right. by left. }
  exists color. eexists. split; [done|]. split; [by eapply Hcell|].
  subst df. by eapply paint_face_winner.
Qed.

(** C1: in every month of a returned figure, the cell of a day covered by
    sprint [b] and by no sprint after [b] in the frame is filled with the
    colour of [b], whatever sprints before [b] cover the day. *)
Theorem last_covering_sprint_wins df fig ax y m (w j : nat) week day
    before b after :
  generate_wall_calendar sample_colors df = Ok (Some fig) →
  ax ∈ fig_axes fig → ax_title ax = (y, m) →
  monthcalendar y m !! w = Some week → week !! j = Some day → day ≠ 0%Z →
  df = before ++ b :: after →
  in_sprint b (mkDate y m day) = true →
  Forall (λ s, in_sprint s (mkDate y m day) = false) after →
  ∃ color cell,
    dict_find (Sprint b) (make_sprint_colors sample_colors df) = Some color
    ∧ ax_table ax !! (S w, j) = Some cell
    ∧ cell_face cell = FaceRGBA color.
Proof. apply winner_cell_face. Qed.

(** C9: in every month of a returned figure, the cell of a day that falls
    on a Saturday or a Sunday and lies in no sprint's range is filled with
    the weekend colour ['#f2f2f2']. *)
Theorem free_weekend_keeps_fill df fig ax y m (w j : nat) week day :
  generate_wall_calendar sample_colors df = Ok (Some fig) →
  ax ∈ fig_axes fig → ax_title ax = (y, m) →
  monthcalendar y m !! w = Some week → week !! j = Some day → day ≠ 0%Z →
  weekday y m day = 5%Z ∨ weekday y m day = 6%Z →
  Forall (λ s, in_sprint s (mkDate y m day) = false) df →
  cell_face <$> ax_table ax !! (S w, j) = Some (FaceNamed "#f2f2f2").
Proof.
  intros Hfig Hax Htitle Hw Hj Hd Hwe Hfree.
  destruct (calendar_cell_weekday y m w j week day Hw Hj Hd) as [_ Hcol].
  apply generate_wall_calendar_inv in Hfig as (lo & hi & _ & _ & _ & _ & HF).
  apply list_elem_of_lookup in Hax as [i Hax].
  destruct (Forall2_lookup_r _ _ _ _ _ HF Hax) as ([y' m'] & _ & Ht & Hcell).
  rewrite Htitle in Ht. injection Ht as <- <-. simpl in Hcell.
  rewrite (Hcell w j week day) by done. simpl.
  rewrite paint_skip_all by done. unfold base_cell.
  rewrite decide_True by lia. done.
Qed.

(** What the code does with the text colour: the day number is white as
    soon as one sprint covering the day has a dark colour, whichever sprint
    fills the cell in the end. *)
Lemma text_white_iff_some_dark df fig ax y m (w j : nat) week day :
  generate_wall_calendar sample_colors df = Ok (Some fig) →
  ax ∈ fig_axes fig → ax_title ax = (y, m) →
  monthcalendar y m !! w = Some week → week !! j = Some day → day ≠ 0%Z →
  cell_textcolor <$> ax_table ax !! (S w, j) =
  Some (if existsb
             (λ s, in_sprint s (mkDate y m day)
                   && from_option is_dark false
                        (dict_find (Sprint s)
                           (make_sprint_colors sample_colors df))) df
        then TextNamed "white" else TextDefault).
Proof.
  intros Hfig Hax Htitle Hw Hj Hd.
  apply generate_wall_calendar_inv in Hfig as (lo & hi & _ & _ & _ & _ & HF).
  apply list_elem_of_lookup in Hax as [i Hax].
  destruct (Forall2_lookup_r _ _ _ _ _ HF Hax) as ([y' m'] & _ & Ht & Hcell).
  rewrite Htitle in Ht. injection Ht as <- <-. simpl in Hcell.
  rewrite (Hcell w j week day) by done. simpl.
  rewrite paint_textcolor by done. do 2 f_equal.
  unfold base_cell. by case_decide.
Qed.

End Figure.

(** ** The months displayed and the legend *)

Lemma ts_leb_le a b :
  ts_leb a b = true
  ↔ (ts_year a < ts_year b
     ∨ ts_year a = ts_year b
       ∧ (ts_month a < ts_month b
          ∨ ts_month a = ts_month b
            ∧ (ts_day a < ts_day b
               ∨ ts_day a = ts_day b ∧ ts_nanos a ≤ ts_nanos b)))%Z.
Proof.
  unfold ts_leb.
  rewrite !orb_true_iff, !andb_true_iff, !orb_true_iff, !andb_true_iff,
    !orb_true_iff, !andb_true_iff, !Z.ltb_lt, !Z.eqb_eq, Z.leb_le. tauto.
Qed.

Lemma ts_leb_refl a : ts_leb a a = true.
Proof. apply ts_leb_le. lia. Qed.

Lemma ts_leb_trans a b c :
  ts_leb a b = true → ts_leb b c = true → ts_leb a c = true.
Proof. rewrite !ts_leb_le. lia. Qed.

Lemma ts_leb_total a b : ts_leb a b = true ∨ ts_leb b a = true.
Proof. rewrite !ts_leb_le. lia. Qed.

Lemma ts_leb_antisym a b :
  ts_leb a b = true → ts_leb b a = true → a = b.
Proof.
  rewrite !ts_leb_le. destruct a, b. simpl. intros H1 H2.
  f_equal; lia.
Qed.

Lemma ts_min_spec a b :
  (ts_min a b = a ∨ ts_min a b = b)
  ∧ ts_leb (ts_min a b) a = true ∧ ts_leb (ts_min a b) b = true.
Proof.
  unfold ts_min. destruct (ts_leb b a) eqn:E.
  - split; [by right|]. split; [done|apply ts_leb_refl].
  - split; [by left|]. split; [apply ts_leb_refl|].
    by destruct (ts_leb_total a b) as [?|?]; [|congruence].
Qed.

Lemma ts_max_spec a b :
  (ts_max a b = a ∨ ts_max a b = b)
  ∧ ts_leb a (ts_max a b) = true ∧ ts_leb b (ts_max a b) = true.
Proof.
  unfold ts_max. destruct (ts_leb a b) eqn:E.
  - split; [by right|]. split; [done|apply ts_leb_refl].
  - split; [by left|]. split; [apply ts_leb_refl|].
    by destruct (ts_leb_total a b) as [?|?]; [congruence|].
Qed.

(** [min] and [max] over a column: the least and the greatest timestamp,
    NaT entries left aside. *)
Lemma foldl_pd_min_spec acc col :
  match foldl pd_min acc col with
  | Stamp lo =>
      Stamp lo ∈ acc :: col
      ∧ ∀ t, Stamp t ∈ acc :: col → ts_leb lo t = true
  | NaT => Forall (λ x, x = NaT) (acc :: col)
  end.
Proof.
  revert acc. induction col as [|x col IH]; intros acc; cbn [foldl].
  - destruct acc as [a|]; [|by constructor]. split; [by left|].
    intros t [[= ->]|H]%elem_of_cons; [apply ts_leb_refl|].
    by apply elem_of_nil in H.
  - specialize (IH (pd_min acc x)).
    destruct (foldl pd_min (pd_min acc x) col) as [lo|].
    + destruct IH as [Hin Hle]. split.
      * apply elem_of_cons in Hin as [Hin|Hin]; [|by do 2 right].
        destruct acc as [a|], x as [b|]; simpl in Hin.
        -- injection Hin as ->.
           destruct (ts_min_spec a b) as [[->| ->] _];
             [by left|right; by left].
        -- rewrite Hin. by left.
        -- rewrite Hin. right. by left.
        -- done.
      * intros t Ht.
        assert (Hm : ∀ m, pd_min acc x = Stamp m → ts_leb lo m = true).
        { intros m Em. apply Hle. rewrite <- Em. by left. }
        apply elem_of_cons in Ht as [<-|Ht];
          [|apply elem_of_cons in Ht as [<-|Ht]].
        -- destruct x as [b|]; simpl in Hm.
           ++ eapply ts_leb_trans; [by apply Hm|].
              by destruct (ts_min_spec t b) as (_ & ? & _).
           ++ by apply Hm.
        -- destruct acc as [a|]; simpl in Hm.
           ++ eapply ts_leb_trans; [by apply Hm|].
              by destruct (ts_min_spec a t) as (_ & _ & ?).
           ++ by apply Hm.
        -- apply Hle. by right.
    + apply Forall_cons in IH as [Hm IH].
      destruct acc as [a|], x as [b|]; try done.
      by repeat constructor.
Qed.

Lemma foldl_pd_max_spec acc col :
  match foldl pd_max acc col with
  | Stamp hi =>
      Stamp hi ∈ acc :: col
      ∧ ∀ t, Stamp t ∈ acc :: col → ts_leb t hi = true
  | NaT => Forall (λ x, x = NaT) (acc :: col)
  end.
Proof.
  revert acc. induction col as [|x col IH]; intros acc; cbn [foldl].
  - destruct acc as [a|]; [|by constructor]. split; [by left|].
    intros t [[= ->]|H]%elem_of_cons; [apply ts_leb_refl|].
    by apply elem_of_nil in H.
  - specialize (IH (pd_max acc x)).
    destruct (foldl pd_max (pd_max acc x) col) as [hi|].
    + destruct IH as [Hin Hle]. split.
      * apply elem_of_cons in Hin as [Hin|Hin]; [|by do 2 right].
        destruct acc as [a|], x as [b|]; simpl in Hin.
        -- injection Hin as ->.
           destruct (ts_max_spec a b) as [[->| ->] _];
             [by left|right; by left].
        -- rewrite Hin. by left.
        -- rewrite Hin. right. by left.
        -- done.
      * intros t Ht.
        assert (Hm : ∀ m, pd_max acc x = Stamp m → ts_leb m hi = true).
        { intros m Em. apply Hle. rewrite <- Em. by left. }
        apply elem_of_cons in Ht as [<-|Ht];
          [|apply elem_of_cons in Ht as [<-|Ht]].
        -- destruct x as [b|]; simpl in Hm.
           ++ eapply ts_leb_trans; [|by apply Hm].
              by destruct (ts_max_spec t b) as (_ & ? & _).
           ++ by apply Hm.
        -- destruct acc as [a|]; simpl in Hm.
           ++ eapply ts_leb_trans; [|by apply Hm].
              by destruct (ts_max_spec a t) as (_ & _ & ?).
           ++ by apply Hm.
        -- apply Hle. by right.
    + apply Forall_cons in IH as [Hm IH].
      destruct acc as [a|], x as [b|]; try done.
      by repeat constructor.
Qed.

Lemma column_min_Stamp col lo :
  column_min col = Stamp lo →
  Stamp lo ∈ col ∧ ∀ t, Stamp t ∈ col → ts_leb lo t = true.
Proof.
  unfold column_min. intros E. pose proof (foldl_pd_min_spec NaT col) as H.
  rewrite E in H. destruct H as [Hin Hle]. split.
  - by apply elem_of_cons in Hin as [?|?].
  - intros t Ht. apply Hle. by right.
Qed.

Lemma column_max_Stamp col hi :
  column_max col = Stamp hi →
  Stamp hi ∈ col ∧ ∀ t, Stamp t ∈ col → ts_leb t hi = true.
Proof.
  unfold column_max. intros E. pose proof (foldl_pd_max_spec NaT col) as H.
  rewrite E in H. destruct H as [Hin Hle]. split.
  - by apply elem_of_cons in Hin as [?|?].
  - intros t Ht. apply Hle. by right.
Qed.

Lemma column_min_NaT col :
  column_min col = NaT → Forall (λ x, x = NaT) col.
Proof.
  unfold column_min. intros E. pose proof (foldl_pd_min_spec NaT col) as H.
  rewrite E in H. by apply Forall_cons in H as [_ ?].
Qed.

Lemma column_max_NaT col :
  column_max col = NaT → Forall (λ x, x = NaT) col.
Proof.
  unfold column_max. intros E. pose proof (foldl_pd_max_spec NaT col) as H.
  rewrite E in H. by apply Forall_cons in H as [_ ?].
Qed.

Lemma earliest_start_min df first :
  earliest_start df first → column_min (map Start_Date df) = Stamp first.
Proof.
  intros [Hin Hle]. destruct (column_min _) as [lo|] eqn:E.
  - apply column_min_Stamp in E as [Hlo Hmin]. f_equal.
    apply ts_leb_antisym; [by apply Hmin|by apply Hle].
  - apply column_min_NaT in E. rewrite Forall_forall in E.
    by apply E in Hin.
Qed.

Lemma latest_end_max df last :
  latest_end df last → column_max (map End_Date df) = Stamp last.
Proof.
  intros [Hin Hle]. destruct (column_max _) as [hi|] eqn:E.
  - apply column_max_Stamp in E as [Hhi Hmax]. f_equal.
    apply ts_leb_antisym; [by apply Hle|by apply Hmax].
  - apply column_max_NaT in E. rewrite Forall_forall in E.
    by apply E in Hin.
Qed.

Lemma months_to_display_range lo hi :
  (1 ≤ ts_month lo ≤ 12)%Z → (1 ≤ ts_month hi ≤ 12)%Z →
  months_to_display lo hi = spec_month_range (year_month lo) (year_month hi).
Proof.
  intros Hs He. unfold months_to_display, year_month.
  by rewrite months_loop_range.
Qed.

Lemma spec_month_range_single y m :
  (1 ≤ m ≤ 12)%Z → spec_month_range (y, m) (y, m) = [(y, m)].
Proof.
  intros Hm. rewrite spec_month_range_cons by (done || lia).
  by rewrite spec_month_range_nil
    by (destruct (Z.gtb_spec (m + 1) 12); unfold month_index; simpl; lia).
Qed.

Lemma spec_month_range_rollover y :
  spec_month_range (y, 12%Z) ((y + 1)%Z, 1%Z) = [(y, 12%Z); ((y + 1)%Z, 1%Z)].
Proof.
  rewrite spec_month_range_cons by (unfold month_index; simpl; lia).
  simpl. by rewrite spec_month_range_single.
Qed.

Lemma month_painted_titles sc df months axes :
  Forall2 (month_painted sc df) months axes → map ax_title axes = months.
Proof.
  induction 1 as [|ym ax months axes [Ht _] _ IH]; simpl; [done|].
  by rewrite Ht, IH.
Qed.

Lemma dict_find_elem (d : pydict) k c :
  NoDup (map fst d) → (k, c) ∈ d ↔ dict_find k d = Some c.
Proof.
  induction d as [|[k' c'] d IH]; simpl; intros Hnd.
  - split; [by intros ?%elem_of_nil|done].
  - apply NoDup_cons in Hnd as [Hk' Hnd]. rewrite elem_of_cons, IH by done.
    case_decide as Hk.
    + subst k'. split.
      * intros [[= ->]|Hf]; [done|].
        exfalso. apply Hk'. apply list_elem_of_fmap.
        exists (k, c). split; [done|]. by apply IH.
      * intros [= ->]. by left.
    + split; [|by right]. intros [[= -> ->]|?]; done.
Qed.

(** The checks of lines 140-141 pass on frames of valid rows. *)

Lemma year_in_range y :
  (1 ≤ y ≤ 9999)%Z → ((1 <=? y) && (y <=? 9999))%Z = true.
Proof. intros H. rewrite andb_true_iff, !Z.leb_le. lia. Qed.

Lemma pd_date_valid t :
  (1 ≤ ts_year t ≤ 9999)%Z → pd_date (Stamp t) = Ok (Some (ts_date t)).
Proof. intros H. unfold pd_date. by rewrite year_in_range. Qed.

Lemma check_in_sprint_stamps r s e d :
  Start_Date r = Stamp s → End_Date r = Stamp e →
  (1 ≤ ts_year s ≤ 9999)%Z → (1 ≤ ts_year e ≤ 9999)%Z →
  check_in_sprint r d
  = Ok (date_leb (ts_date s) d && date_leb d (ts_date e)).
Proof.
  intros Hs He Hys Hye. unfold check_in_sprint.
  rewrite Hs, He, !pd_date_valid by done. cbn [mbind result_bind].
  by destruct (date_leb (ts_date s) d).
Qed.

Lemma check_in_sprint_valid r d :
  valid_row r → ∃ inside, check_in_sprint r d = Ok inside.
Proof.
  intros (s & e & Hs & He & (Hys & _) & (Hye & _)).
  rewrite (check_in_sprint_stamps r s e) by done. by eexists.
Qed.

Lemma new_date_valid y m d :
  (1 ≤ y ≤ 9999)%Z → (1 ≤ m ≤ 12)%Z → (1 ≤ d ≤ days_in_month y m)%Z →
  new_date y m d = Ok (mkDate y m d).
Proof.
  intros Hy Hm Hd. unfold new_date.
  match goal with |- (if ?c then _ else _) = _ => assert (c = true) as -> end;
    [|done].
  rewrite !andb_true_iff, !Z.leb_le. lia.
Qed.

Lemma month_check_pass df ym :
  (∀ sprint (w j : nat) week day,
     sprint ∈ df → monthcalendar ym.1 ym.2 !! w = Some week →
     week !! j = Some day →
     paint_check ym.1 ym.2 sprint day = None) →
  month_check df ym = None.
Proof.
  intros H. unfold month_check.
  apply first_exn_None, Forall_fmap, Forall_forall. intros sprint Hs.
  apply first_exn_None, Forall_fmap, Forall_forall. intros [wi week] Hw.
  apply elem_of_enumerate in Hw as [Hw1 Hw].
  apply first_exn_None, Forall_fmap, Forall_forall. intros [j day] Hj.
  apply elem_of_enumerate in Hj as [_ Hj]. rewrite Nat.sub_0_r in Hj.
  cbn [fst snd] in *. by eapply H.
Qed.

Lemma valid_frame_checks df lo hi :
  Forall valid_row df →
  Stamp lo ∈ map Start_Date df → Stamp hi ∈ map End_Date df →
  figure_check df (spec_month_range (year_month lo) (year_month hi)) = None.
Proof.
  intros Hv Hlo Hhi.
  assert (Hvlo : valid_timestamp lo).
  { apply list_elem_of_fmap in Hlo as (r & E & Hr).
    rewrite Forall_forall in Hv. destruct (Hv r Hr) as (s & e & Hs & _ & ? & _).
    rewrite Hs in E. by injection E as ->. }
  assert (Hvhi : valid_timestamp hi).
  { apply list_elem_of_fmap in Hhi as (r & E & Hr).
    rewrite Forall_forall in Hv. destruct (Hv r Hr) as (s & e & _ & He & _ & ?).
    rewrite He in E. by injection E as ->. }
  unfold figure_check.
  apply first_exn_None, Forall_fmap, Forall_forall. intros [y m] Hym.
  apply spec_month_range_elem in Hym as [Hm Hr].
  apply month_check_pass. cbn [fst snd].
  intros sprint w j week day Hs Hw Hj. unfold paint_check.
  destruct (Z.eqb_spec day 0) as [|Hd]; [done|].
  destruct (calendar_cell_weekday y m w j week day Hw Hj Hd) as [Hday _].
  rewrite new_date_valid; [|  |done|done].
  - rewrite Forall_forall in Hv.
    destruct (check_in_sprint_valid sprint (mkDate y m day) (Hv _ Hs))
      as [inside ->]. done.
  - destruct Hvlo as (? & ? & _), Hvhi as (? & ? & _).
    unfold month_index, year_month in Hr. simpl in Hr. lia.
Qed.

Section Months.
Variable sample_colors : nat → nat → RGBA.

Lemma generate_wall_calendar_stamps df lo hi :
  column_min (map Start_Date df) = Stamp lo →
  column_max (map End_Date df) = Stamp hi →
  generate_wall_calendar sample_colors df
  = render_months sample_colors df (months_to_display lo hi).
Proof.
  intros Hlo Hhi. destruct df as [|r rs]; [done|].
  unfold generate_wall_calendar. by rewrite Hlo, Hhi.
Qed.

Lemma valid_frame_outcome df first last :
  earliest_start df first → latest_end df last → Forall valid_row df →
  let months := spec_month_range (year_month first) (year_month last) in
  if pair_leb (year_month first) (year_month last)
  then ∃ fig, generate_wall_calendar sample_colors df = Ok (Some fig)
              ∧ map ax_title (fig_axes fig) = months
  else generate_wall_calendar sample_colors df = Raise ZeroDivisionError.
Proof.
  intros Hf Hl Hv months.
  assert (Hvf : valid_timestamp first).
  { destruct Hf as [Hin _]. apply list_elem_of_fmap in Hin as (r & E & Hr).
    rewrite Forall_forall in Hv. destruct (Hv r Hr) as (s & e & Hs & _ & ? & _).
    rewrite Hs in E. by injection E as ->. }
  assert (Hvl : valid_timestamp last).
  { destruct Hl as [Hin _]. apply list_elem_of_fmap in Hin as (r & E & Hr).
    rewrite Forall_forall in Hv. destruct (Hv r Hr) as (s & e & _ & He & _ & ?).
    rewrite He in E. by injection E as ->. }
  destruct Hvf as (_ & Hmf & _), Hvl as (_ & Hml & _).
  rewrite (generate_wall_calendar_stamps df first last)
    by (by apply earliest_start_min || by apply latest_end_max).
  rewrite months_to_display_range by done. fold months.
  destruct (pair_leb (year_month first) (year_month last)) eqn:E.
  - apply pair_leb_index in E; [|done..].
    assert (Hne : months ≠ []).
    { unfold months, year_month. by rewrite spec_month_range_cons. }
    pose proof (render_months_spec sample_colors df months Hne) as Hs.
    unfold months in Hs at 1.
    rewrite (valid_frame_checks df first last Hv (proj1 Hf) (proj1 Hl)) in Hs.
    destruct Hs as (fig & Hfig & _ & HF). exists fig. split; [done|].
    by eapply month_painted_titles.
  - assert (months = []) as ->; [|apply render_months_nil].
    apply spec_month_range_nil.
    destruct (Z.lt_ge_cases (month_index (year_month last))
                (month_index (year_month first))) as [|H]; [done|].
    apply pair_leb_index in H; [congruence|done..].
Qed.

(** C3: the months displayed run from the month of the earliest start
    through the month of the latest end, one calendar month at a time,
    December followed by January of the next year.  With [first] the
    earliest start of the frame and [last] its latest end: lines 41-56
    find [first] and [last] and list exactly the range of months from the
    one to the other, which is what the rest of the function renders; a
    pair is in the range exactly when it is a month between the two; a
    returned figure has one subplot per month of the range, in that order;
    on a frame of valid rows the figure is returned when the range is not
    empty, and with no month to display line 61 divides by zero; one month
    gives one subplot and December to January gives two. *)
Theorem months_enumerated df first last :
  earliest_start df first → latest_end df last →
  (1 ≤ ts_month first ≤ 12)%Z → (1 ≤ ts_month last ≤ 12)%Z →
  let first_month := year_month first in
  let last_month := year_month last in
  let months := spec_month_range first_month last_month in
  (column_min (map Start_Date df) = Stamp first
   ∧ column_max (map End_Date df) = Stamp last
   ∧ months_to_display first last = months
   ∧ generate_wall_calendar sample_colors df
     = render_months sample_colors df months)
  ∧ (∀ y m, (y, m) ∈ months
            ↔ (1 ≤ m ≤ 12)%Z
              ∧ pair_leb first_month (y, m) = true
              ∧ pair_leb (y, m) last_month = true)
  ∧ (∀ fig, generate_wall_calendar sample_colors df = Ok (Some fig) →
            map ax_title (fig_axes fig) = months)
  ∧ (Forall valid_row df →
     if pair_leb first_month last_month
     then ∃ fig, generate_wall_calendar sample_colors df = Ok (Some fig)
                 ∧ map ax_title (fig_axes fig) = months
     else generate_wall_calendar sample_colors df = Raise ZeroDivisionError)
  ∧ (∀ fig, generate_wall_calendar sample_colors df = Ok (Some fig) →
            first_month = last_month →
            map ax_title (fig_axes fig) = [first_month])
  ∧ (∀ fig y, generate_wall_calendar sample_colors df = Ok (Some fig) →
              first_month = (y, 12%Z) → last_month = ((y + 1)%Z, 1%Z) →
              map ax_title (fig_axes fig) = [(y, 12%Z); ((y + 1)%Z, 1%Z)]).
Proof.
  intros Hf Hl Hmf Hml first_month last_month months.
  assert (Htitles : ∀ fig,
            generate_wall_calendar sample_colors df = Ok (Some fig) →
            map ax_title (fig_axes fig) = months).
  { intros fig Hfig.
    apply generate_wall_calendar_inv in Hfig
      as (lo & hi & Hlo & Hhi & _ & _ & HF).
    rewrite (earliest_start_min df first Hf) in Hlo. injection Hlo as <-.
    rewrite (latest_end_max df last Hl) in Hhi. injection Hhi as <-.
    rewrite months_to_display_range in HF by done.
    by eapply month_painted_titles. }
  split; [|split; [|split; [|split; [|split]]]].
  - pose proof (earliest_start_min df first Hf) as Hlo.
    pose proof (latest_end_max df last Hl) as Hhi.
    split; [done|]. split; [done|].
    rewrite (generate_wall_calendar_stamps df first last) by done.
    by rewrite months_to_display_range.
  - intros y m. unfold months. rewrite spec_month_range_elem. split.
    + intros [Hm Hr]. split; [done|].
      rewrite !pair_leb_index by done. lia.
    + intros (Hm & H1 & H2). split; [done|].
      rewrite !pair_leb_index in H1, H2 by done. lia.
  - done.
  - intros Hv. by apply valid_frame_outcome.
  - intros fig Hfig E. rewrite (Htitles fig Hfig).
    unfold months. rewrite <- E. unfold first_month, year_month.
    by apply spec_month_range_single.
  - intros fig y Hfig Es Ee. rewrite (Htitles fig Hfig).
    unfold months. rewrite Es, Ee. apply spec_month_range_rollover.
Qed.

(** C10: a name carried by several records has one colour, the one sampled
    for the last record with that name; the legend of the figure has one
    entry per distinct name, with that colour; and a cell won by any record
    of that name is filled with it. *)
Theorem same_name_one_color df fig before row after :
  generate_wall_calendar sample_colors df = Ok (Some fig) →
  df = before ++ row :: after →
  Sprint row ∉ map Sprint after →
  let last_color := sample_colors (length df) (length before) in
  dict_find (Sprint row) (make_sprint_colors sample_colors df) = Some last_color
  ∧ fig_legend fig = make_sprint_colors sample_colors df
  ∧ NoDup (map fst (fig_legend fig))
  ∧ (∀ name, name ∈ map fst (fig_legend fig) ↔ name ∈ map Sprint df)
  ∧ (∀ c, (Sprint row, c) ∈ fig_legend fig ↔ c = last_color)
  ∧ ∀ ax y m (w j : nat) week day before' b after',
      ax ∈ fig_axes fig → ax_title ax = (y, m) →
      monthcalendar y m !! w = Some week → week !! j = Some day →
      day ≠ 0%Z →
      df = before' ++ b :: after' →
      in_sprint b (mkDate y m day) = true →
      Forall (λ s, in_sprint s (mkDate y m day) = false) after' →
      Sprint b = Sprint row →
      cell_face <$> ax_table ax !! (S w, j) = Some (FaceRGBA last_color).
Proof.
  intros Hfig Hdf Hlast last_color.
  assert (Hcolor : dict_find (Sprint row) (make_sprint_colors sample_colors df)
                   = Some last_color).
  { unfold last_color. rewrite Hdf. by apply make_sprint_colors_last. }
  split; [done|].
  pose proof Hfig as Hinv.
  apply generate_wall_calendar_inv in Hinv as (lo & hi & _ & _ & _ & Hleg & _).
  destruct (make_sprint_colors_keys sample_colors df) as [Hnd Hkeys].
  rewrite Hleg. split_and!; [done|done|done| |].
  - intros c. rewrite dict_find_elem, Hcolor by done.
    split; [by intros [= ->]|by intros ->].
  - intros ax y m w j week day before' b after' Hax Ht Hw Hj Hd Hdf' Hb Ha Hname.
    destruct (winner_cell_face sample_colors df fig ax y m w j week day
                before' b after') as (color & cell & Hc & -> & Hface); try done.
    simpl. rewrite Hface. rewrite Hname, Hcolor in Hc. by injection Hc as <-.
Qed.
End Months.

(** * The properties on the example inputs *)

(** The sample schedule parses to three records and renders on March, April
    and May 2025, one row of three subplots, with three legend entries. *)
Example sample_parse :
  parse_sprint_data iso_to_datetime sample_text = Ok sample_df.
Proof. vm_compute. reflexivity. Qed.

Example sample_render :
  generate_wall_calendar tab10_linspace sample_df = Ok (Some sample_fig)
  ∧ map ax_title (fig_axes sample_fig)
    = [(2025, 3); (2025, 4); (2025, 5)]%Z
  ∧ (fig_rows sample_fig, fig_cols sample_fig) = (1, 3)
  ∧ map fst (fig_legend sample_fig) = map pystr_of ["0"; "1"; "2"]%string.
Proof. split; [vm_compute; reflexivity|]. repeat split. Qed.

(** March 10th, 2025 (a Monday, third week) carries the colour of sprint
    "0". *)
Example sample_march_10 :
  cell_face <$> ax_table sample_march !! (3, 0)
  = Some (FaceRGBA (tab10_linspace 3 0)).
Proof. vm_compute. reflexivity. Qed.

(** A frame whose latest end lies in a month before its earliest start has
    no month to display, and line 61 divides by zero. *)
Example backwards_raises :
  months_to_display (mkTimestamp 2025 5 1 0) (mkTimestamp 2025 3 1 0) = []
  ∧ generate_wall_calendar tab10_linspace [backwards_sprint]
    = Raise ZeroDivisionError.
Proof. split; vm_compute; reflexivity. Qed.

(** One sprint from mid December into January: two subplots, the second in
    the next year. *)
Example new_year_months :
  map ax_title
    (fig_axes (figure_of (generate_wall_calendar tab10_linspace
                            [new_year_sprint])))
  = [(2025, 12); (2026, 1)]%Z.
Proof. vm_compute. reflexivity. Qed.

(** A row whose start is NaT: line 141 compares NaT with a date. *)
Example nat_start_raises :
  generate_wall_calendar tab10_linspace nat_df = Raise TypeError.
Proof. vm_compute. reflexivity. Qed.

(** A sprint that starts in year 0: the first month displayed is December
    of year 0, and line 140 builds a date of that year. *)
Example year0_raises :
  parse_sprint_data iso_to_datetime year0_text = Ok year0_df
  ∧ generate_wall_calendar tab10_linspace year0_df = Raise ValueError.
Proof. split; vm_compute; reflexivity. Qed.

(** An end in year 0 is met when the first comparison of line 141 holds,
    on January 10th: [sprint_end.date()] is then called. *)
Example year0_end_raises :
  generate_wall_calendar tab10_linspace year0_end_df
  = Raise NotImplementedError.
Proof. vm_compute. reflexivity. Qed.

(** An end that is NaT is never looked at when the sprint starts after the
    last month displayed: the figure has the one month of January. *)
Example nat_end_unreached :
  map ax_title
    (fig_axes (figure_of (generate_wall_calendar tab10_linspace nat_end_df)))
  = [(2025, 1)]%Z.
Proof. vm_compute. reflexivity. Qed.

(** A frame whose dates are all NaT, and a frame with a start and no end. *)
Example all_nat_raises :
  generate_wall_calendar tab10_linspace [mkRow (pystr_of "0") NaT NaT]
  = Raise TypeError
  ∧ generate_wall_calendar tab10_linspace
      [mkRow (pystr_of "0") (Stamp (mkTimestamp 2025 1 1 0)) NaT]
    = Raise ZeroDivisionError.
Proof. split; vm_compute; reflexivity. Qed.

(** The means of the ten colours of tab10 are at least 1/1000 away from
    1/2: the rounding of the doubles numpy averages does not change the
    outcome of the test of line 147. *)
Example tab10_means_clear :
  forallb (λ c, Qle_bool (mean_rgb c + (1 # 1000)) (1 # 2)
                || Qle_bool ((1 # 2) + (1 # 1000)) (mean_rgb c)) tab10
  = true.
Proof. vm_compute. reflexivity. Qed.

(** With 36 sprints the palette is sampled on doubles: the eighth sample
    point, 7 times the double nearest to 1/35, is just below 0.2 and
    selects the second colour. *)
Example tab10_linspace_36_7 :
  tab10_linspace 36 7 = rgb255 255 127 14.
Proof. vm_compute. reflexivity. Qed.

(** The legend of [renamed_df] has two entries; "A" carries the colour
    sampled for the third record. *)
Example renamed_legend :
  fig_legend renamed_fig
  = [(pystr_of "A", tab10_linspace 3 2); (pystr_of "B", tab10_linspace 3 1)].
Proof. vm_compute. reflexivity. Qed.

(** C2: on [overlap_df] the cell of March 17th, 2025 ends filled with the
    colour of sprint B, a light colour for which the contrast rule applied
    once gives the default text colour; the figure the code returns has the
    day number in white, as set when sprint A painted the cell. *)
Theorem stale_white_text_after_overwrite :
  ∃ fig ax cell,
    generate_wall_calendar tab10_linspace overlap_df = Ok (Some fig)
    ∧ fig_axes fig !! 0 = Some ax
    ∧ ax_table ax !! (4, 0) = Some cell
    ∧ cell_text cell = pystr_of "17"
    ∧ cell_face cell = FaceRGBA (tab10_linspace 2 1)
    ∧ cell_textcolor cell = TextNamed "white"
    ∧ contrast_once (tab10_linspace 2 1) = TextDefault.
Proof.
  exists overlap_fig, overlap_march. eexists.
  split; [vm_compute; reflexivity|].
  split; [reflexivity|]. split; [vm_compute; reflexivity|].
  repeat split.
Qed.

Lemma short_line_skipped_witness :
  (∀ sprints, parse_line iso_to_datetime short_line sprints = Ok sprints)
  ∧ parse_sprint_data iso_to_datetime short_text
    = parse_lines iso_to_datetime
        ([pystr_of "0 2025-03-10 2025-03-21"]
         ++ [pystr_of "1 2025-03-24 2025-04-11"]).
Proof.
  apply (short_line_skipped iso_to_datetime short_text
           [pystr_of "0 2025-03-10 2025-03-21"] short_line
           [pystr_of "1 2025-03-24 2025-04-11"]).
  - vm_compute. reflexivity.
  - vm_compute. lia.
Defined.

Lemma bad_date_raises_witness :
  ∃ tok sprints before,
    parse_sprint_data iso_to_datetime bad_text = Raise (ParseError tok)
    ∧ iso_to_datetime tok = None
    ∧ parse_loop iso_to_datetime (data_lines bad_text) []
      = (sprints, Some (ParseError tok))
    ∧ before `prefix_of` [pystr_of "0 2025-03-10 2025-03-21"]
    ∧ parse_loop iso_to_datetime before [] = (sprints, None).
Proof.
  apply (bad_date_raises iso_to_datetime bad_text
           [pystr_of "0 2025-03-10 2025-03-21"] bad_line
           [pystr_of "2 2025-04-14 2025-05-02"]
           (pystr_of "1") (pystr_of "2025-02-30") (pystr_of "2025-03-07") []).
  - vm_compute. reflexivity.
  - vm_compute. reflexivity.
  - left. vm_compute. reflexivity.
Defined.

(** C6, as stated, fails on a token that [to_datetime] reads as NaT: the
    second data line of [nat_text] has three tokens, its second token is
    no calendar date, and the parse raises nothing and returns a record for
    the line, with NaT as its start. *)
Lemma nat_token_gives_record :
  data_lines nat_text
  = [pystr_of "0 2025-03-10 2025-03-21"; pystr_of "1 NaT 2025-03-07"]
  ∧ split_ws (pystr_of "1 NaT 2025-03-07")
    = [pystr_of "1"; pystr_of "NaT"; pystr_of "2025-03-07"]
  ∧ iso_to_datetime (pystr_of "NaT") = Some NaT
  ∧ parse_sprint_data iso_to_datetime nat_text = Ok nat_df
  ∧ mkRow (pystr_of "1") NaT (Stamp (mkTimestamp 2025 3 7 0)) ∈ nat_df.
Proof.
  split_and!; try (vm_compute; reflexivity).
  apply list_elem_of_further, list_elem_of_here.
Qed.

Lemma parse_preserves_order_witness :
  Forall2 (row_of_line iso_to_datetime)
    (filter accepted (data_lines repeated_text))
    [ mkRow (pystr_of "0") (Stamp (mkTimestamp 2025 3 10 0))
        (Stamp (mkTimestamp 2025 3 21 0));
      mkRow (pystr_of "0") (Stamp (mkTimestamp 2025 3 10 0))
        (Stamp (mkTimestamp 2025 3 21 0));
      mkRow (pystr_of "1") (Stamp (mkTimestamp 2025 3 24 0))
        (Stamp (mkTimestamp 2025 4 11 0)) ].
Proof.
  apply (parse_preserves_order iso_to_datetime repeated_text).
  vm_compute. reflexivity.
Defined.

Lemma header_line_discarded_witness :
  parse_sprint_data iso_to_datetime (headless_first ++ LF :: headless_rest)
  = parse_lines iso_to_datetime (lines headless_rest)
  ∧ parse_sprint_data iso_to_datetime
      (pystr_of "  " ++ LF :: headless_first ++ LF :: headless_rest)
    = parse_lines iso_to_datetime (lines headless_rest)
  ∧ parse_sprint_data iso_to_datetime headless_first = Ok [].
Proof.
  apply (header_line_discarded iso_to_datetime (pystr_of "  ")
           headless_first headless_rest).
  - vm_compute. reflexivity.
  - apply (bool_decide_unpack _). vm_compute. exact I.
  - vm_compute. discriminate.
Defined.

Lemma last_covering_sprint_wins_witness :
  ∃ color cell,
    dict_find (Sprint sprint_B) (make_sprint_colors tab10_linspace overlap_df)
    = Some color
    ∧ ax_table overlap_march !! (4, 0) = Some cell
    ∧ cell_face cell = FaceRGBA color.
Proof.
  apply (last_covering_sprint_wins tab10_linspace overlap_df overlap_fig
           overlap_march 2025 3 3 0 [17; 18; 19; 20; 21; 22; 23]%Z 17
           [sprint_A] sprint_B []).
  - vm_compute. reflexivity.
  - vm_compute. left.
  - reflexivity.
  - vm_compute. reflexivity.
  - reflexivity.
  - discriminate.
  - reflexivity.
  - reflexivity.
  - constructor.
Defined.

Lemma free_weekend_keeps_fill_witness :
  cell_face <$> ax_table sample_march !! (1, 5) = Some (FaceNamed "#f2f2f2").
Proof.
  apply (free_weekend_keeps_fill tab10_linspace sample_df sample_fig
           sample_march 2025 3 0 5 [0; 0; 0; 0; 0; 1; 2]%Z 1).
  - vm_compute. reflexivity.
  - vm_compute. left.
  - reflexivity.
  - vm_compute. reflexivity.
  - reflexivity.
  - discriminate.
  - left. vm_compute. reflexivity.
  - repeat constructor.
Defined.

Lemma spread_first_earliest : earliest_start spread_df spread_first.
Proof.
  split; [apply list_elem_of_further, list_elem_of_here|].
  intros t H. cbn [map spread_df Start_Date] in H.
  repeat (apply elem_of_cons in H as [[= ->]|H]; [reflexivity|]).
  by apply elem_of_nil in H.
Qed.

Lemma spread_last_latest : latest_end spread_df spread_last.
Proof.
  split; [apply list_elem_of_here|].
  intros t H. cbn [map spread_df End_Date] in H.
  repeat (apply elem_of_cons in H as [[= ->]|H]; [reflexivity|]).
  by apply elem_of_nil in H.
Qed.

Lemma months_enumerated_witness :
  earliest_start spread_df spread_first
  ∧ latest_end spread_df spread_last
  ∧ generate_wall_calendar tab10_linspace spread_df = Ok (Some spread_fig)
  ∧ map ax_title (fig_axes spread_fig)
    = [(2024, 12); (2025, 1); (2025, 2)]%Z.
Proof.
  split; [apply spread_first_earliest|].
  split; [apply spread_last_latest|].
  split; [vm_compute; reflexivity|].
  destruct (months_enumerated tab10_linspace spread_df spread_first
              spread_last spread_first_earliest spread_last_latest)
    as (_ & _ & Htitles & _); [simpl; lia..|].
  apply (Htitles spread_fig). vm_compute. reflexivity.
Defined.

Lemma same_name_one_color_witness :
  let last_color := tab10_linspace 3 2 in
  generate_wall_calendar tab10_linspace renamed_df = Ok (Some renamed_fig)
  ∧ fig_legend renamed_fig
    = [(pystr_of "A", last_color); (pystr_of "B", tab10_linspace 3 1)]
  ∧ cell_face <$> ax_table (nth_axes renamed_fig 0) !! (3, 2)
    = Some (FaceRGBA last_color)
  ∧ cell_face <$> ax_table (nth_axes renamed_fig 1) !! (2, 1)
    = Some (FaceRGBA last_color).
Proof.
  intros last_color.
  assert (Hfig : generate_wall_calendar tab10_linspace renamed_df
                 = Ok (Some renamed_fig)) by (vm_compute; reflexivity).
  destruct (same_name_one_color tab10_linspace renamed_df renamed_fig
              [sprint_A; sprint_B] sprint_A_again [] Hfig eq_refl
              (not_elem_of_nil _))
    as (_ & Hleg & _ & _ & _ & Hcells).
  split; [done|]. split; [rewrite Hleg; vm_compute; reflexivity|]. split.
  - apply (Hcells (nth_axes renamed_fig 0) 2025%Z 3%Z 2 2
             [10; 11; 12; 13; 14; 15; 16]%Z 12%Z
             [] sprint_A [sprint_B; sprint_A_again]).
    + vm_compute. left.
    + reflexivity.
    + vm_compute. reflexivity.
    + reflexivity.
    + discriminate.
    + reflexivity.
    + reflexivity.
    + repeat constructor.
    + reflexivity.
  - apply (Hcells (nth_axes renamed_fig 1) 2025%Z 4%Z 1 1
             [7; 8; 9; 10; 11; 12; 13]%Z 8%Z
             [sprint_A; sprint_B] sprint_A_again []).
    + vm_compute. right. left.
    + reflexivity.
    + vm_compute. reflexivity.
    + reflexivity.
    + discriminate.
    + reflexivity.
    + reflexivity.
    + constructor.
    + reflexivity.
Defined.

(** * Further properties *)

(** ** Whitespace in the text *)

Lemma lines_blank w : Forall (λ c, isspace c = true) w → lines w = [].
Proof.
  intros Hw. rewrite lines_eq_raw.
  rewrite <- (app_nil_r w), lines_raw_spaces_l by done. reflexivity.
Qed.

Lemma lines_spaces_r s w :
  Forall (λ c, isspace c = true) w → lines (s ++ w) = lines s.
Proof. intros Hw. rewrite !lines_eq_raw. by apply lines_raw_spaces_r. Qed.

Lemma lines_spaces_l w s :
  Forall (λ c, isspace c = true) w → lines (w ++ s) = lines s.
Proof. intros Hw. rewrite !lines_eq_raw. by apply lines_raw_spaces_l. Qed.

Section ParserMore.
Variable to_datetime : pystr → option pdvalue.

(** X1: whitespace before a line feed and whitespace after it, blank lines
    included, do not change the result: a carriage return before the line
    feed, indentation, or empty lines between two lines. *)
Theorem whitespace_at_line_breaks a w1 w2 b :
  Forall (λ c, isspace c = true) w1 →
  Forall (λ c, isspace c = true) w2 →
  parse_sprint_data to_datetime (a ++ w1 ++ LF :: w2 ++ b)
  = parse_sprint_data to_datetime (a ++ LF :: b).
Proof.
  intros H1 H2. unfold parse_sprint_data, data_lines.
  rewrite app_assoc, !lines_app_lf.
  by rewrite lines_spaces_r, lines_spaces_l.
Qed.

(** X2: whitespace before and after the whole text does not change the
    result. *)
Theorem whitespace_around_text w1 text w2 :
  Forall (λ c, isspace c = true) w1 →
  Forall (λ c, isspace c = true) w2 →
  parse_sprint_data to_datetime (w1 ++ text ++ w2)
  = parse_sprint_data to_datetime text.
Proof.
  intros H1 H2. unfold parse_sprint_data, data_lines.
  by rewrite lines_spaces_l, lines_spaces_r.
Qed.

End ParserMore.

Lemma split_ws_from_token cur t rest :
  Forall (λ c, isspace c = false) t →
  split_ws_from cur (t ++ rest) = split_ws_from (rev t ++ cur) rest.
Proof.
  intros Ht. revert cur. induction Ht as [|c t Hc _ IH]; intros cur; [done|].
  simpl. rewrite Hc, IH. by rewrite <- app_assoc.
Qed.

Lemma split_ws_from_gap cur w rest :
  whitespace w → w ≠ [] → cur ≠ [] →
  split_ws_from cur (w ++ rest) = rev cur :: split_ws_from [] rest.
Proof.
  intros Hw Hne Hcur. destruct Hw as [|c w Hc Hw]; [done|]. simpl. rewrite Hc.
  destruct cur as [|x cur]; [done|]. f_equal.
  clear Hne. induction Hw as [|c' w' Hc' _ IH]; [done|]. simpl. by rewrite Hc'.
Qed.

Lemma split_ws_from_end cur rest :
  token_end rest → cur ≠ [] →
  split_ws_from cur rest = rev cur :: split_ws rest.
Proof.
  intros Hr Hcur. destruct cur as [|x cur]; [done|].
  destruct rest as [|c rest]; [reflexivity|]. unfold split_ws. simpl in *.
  by rewrite Hr.
Qed.

Lemma split_ws_three w0 name w1 s w2 e rest :
  whitespace w0 → token name →
  whitespace w1 → w1 ≠ [] → token s →
  whitespace w2 → w2 ≠ [] → token e →
  token_end rest →
  split_ws (w0 ++ name ++ w1 ++ s ++ w2 ++ e ++ rest)
  = name :: s :: e :: split_ws rest.
Proof.
  intros H0 [Hn1 Hn2] H1 H1' [Hs1 Hs2] H2 H2' [He1 He2] Hr.
  assert (Hrev : ∀ t : pystr, t ≠ [] → rev t ++ [] ≠ []).
  { intros t Ht E. rewrite app_nil_r in E.
    apply Ht. by rewrite <- (rev_involutive t), E. }
  unfold split_ws.
  assert (Hl : ∀ t, split_ws_from [] (w0 ++ t) = split_ws_from [] t).
  { intros t. induction H0 as [|c w Hc _ IH]; [done|]. simpl. by rewrite Hc. }
  rewrite Hl, split_ws_from_token, split_ws_from_gap by auto.
  rewrite split_ws_from_token, split_ws_from_gap by auto.
  rewrite split_ws_from_token, split_ws_from_end by auto.
  by rewrite !app_nil_r, !rev_involutive.
Qed.

Section LineShape.
Variable to_datetime : pystr → option pdvalue.

(** X3: on a line made of a name, a start and an end token separated by
    any whitespace, the loop body reads the dates with [to_datetime], start
    first, and appends the record of the three tokens; whatever follows
    the third token after whitespace is ignored. *)
Theorem well_formed_line w0 name w1 s w2 e rest sprints :
  whitespace w0 → token name →
  whitespace w1 → w1 ≠ [] → token s →
  whitespace w2 → w2 ≠ [] → token e →
  token_end rest →
  parse_line to_datetime (w0 ++ name ++ w1 ++ s ++ w2 ++ e ++ rest) sprints
  = match to_datetime s with
    | None => Raise (ParseError s)
    | Some sd =>
        match to_datetime e with
        | None => Raise (ParseError e)
        | Some ed => Ok (sprints ++ [mkRow name sd ed])
        end
    end.
Proof.
  intros. unfold parse_line. by rewrite split_ws_three.
Qed.

End LineShape.

Section ParserErrors.
Variable to_datetime : pystr → option pdvalue.

Lemma parse_line_raise_inv line sprints e :
  parse_line to_datetime line sprints = Raise e →
  ∃ name s e' rest,
    split_ws line = name :: s :: e' :: rest
    ∧ ((to_datetime s = None ∧ e = ParseError s)
       ∨ (is_Some (to_datetime s) ∧ to_datetime e' = None
          ∧ e = ParseError e')).
Proof.
  unfold parse_line.
  destruct (split_ws line) as [|name [|s [|e' rest]]]; try done.
  intros H. exists name, s, e', rest. split; [done|].
  destruct (to_datetime s) as [sd|] eqn:Es.
  - destruct (to_datetime e') as [ed|] eqn:Ee; [done|].
    injection H as <-. right. eauto.
  - injection H as <-. by left.
Qed.

Lemma parse_raise_inv text e :
  parse_sprint_data to_datetime text = Raise e →
  ∃ before line after name s e' rest rows,
    data_lines text = before ++ line :: after
    ∧ parse_lines to_datetime before = Ok rows
    ∧ split_ws line = name :: s :: e' :: rest
    ∧ ((to_datetime s = None ∧ e = ParseError s)
       ∨ (is_Some (to_datetime s) ∧ to_datetime e' = None
          ∧ e = ParseError e')).
Proof.
  unfold parse_sprint_data, parse_lines at 1.
  destruct (parse_loop to_datetime (data_lines text) []) as [rows [e0|]] eqn:E;
    [|done].
  intros [= ->].
  apply parse_loop_raises in E as (before & line & after & Hd & Hb & Hl).
  apply parse_line_raise_inv in Hl as (name & s & e' & rest & Hs & Hcase).
  exists before, line, after, name, s, e', rest, rows.
  split_and!; try done. unfold parse_lines. by rewrite Hb.
Qed.

(** X5: the parser raises nothing but a [ParseError]; it names the first
    date token in reading order that [to_datetime] rejects: the lines
    before its line parse, and within the line the start date is tried
    before the end date. *)
Theorem first_bad_token_raised text e :
  parse_sprint_data to_datetime text = Raise e →
  ∃ before line after name s e' rest rows,
    data_lines text = before ++ line :: after
    ∧ parse_lines to_datetime before = Ok rows
    ∧ split_ws line = name :: s :: e' :: rest
    ∧ ((to_datetime s = None ∧ e = ParseError s)
       ∨ (is_Some (to_datetime s) ∧ to_datetime e' = None
          ∧ e = ParseError e')).
Proof. apply parse_raise_inv. Qed.

Lemma parse_loop_acc ls acc :
  parse_loop to_datetime ls acc
  = (acc ++ (parse_loop to_datetime ls []).1,
     (parse_loop to_datetime ls []).2).
Proof.
  revert acc. induction ls as [|line ls IH]; intros acc; simpl.
  - by rewrite app_nil_r.
  - unfold parse_line.
    destruct (split_ws line) as [|name [|s [|e rest]]];
      try (rewrite IH; reflexivity).
    destruct (to_datetime s) as [sd|]; [|by rewrite app_nil_r].
    destruct (to_datetime e) as [ed|]; [|by rewrite app_nil_r].
    rewrite IH. rewrite (IH ([] ++ _)). simpl. by rewrite <- app_assoc.
Qed.

Lemma parse_lines_app l1 l2 :
  parse_lines to_datetime (l1 ++ l2)
  = (d1 ← parse_lines to_datetime l1;
     d2 ← parse_lines to_datetime l2;
     Ok (d1 ++ d2)).
Proof.
  unfold parse_lines. rewrite parse_loop_app.
  destruct (parse_loop to_datetime l1 []) as [d1 [e1|]]; [done|].
  rewrite parse_loop_acc.
  destruct (parse_loop to_datetime l2 []) as [d2 [e2|]]; done.
Qed.

(** X6: once the header is in, parsing a text followed by more lines is
    parsing the text, then the further lines, and appending the records;
    the first exception wins. *)
Theorem parse_text_app a b :
  lines a ≠ [] →
  parse_sprint_data to_datetime (a ++ LF :: b)
  = (d1 ← parse_sprint_data to_datetime a;
     d2 ← parse_lines to_datetime (lines b);
     Ok (d1 ++ d2)).
Proof.
  intros Ha. unfold parse_sprint_data, data_lines.
  rewrite lines_app_lf. destruct (lines a) as [|h ls]; [done|].
  simpl tail. apply parse_lines_app.
Qed.

Lemma no_record_line_gives_empty_frame text :
  Forall (λ line, length (split_ws line) < 3) (data_lines text) →
  parse_sprint_data to_datetime text = Ok [].
Proof.
  unfold parse_sprint_data, parse_lines.
  generalize (data_lines text). intros ls H.
  induction H as [|line ls Hl _ IH]; [done|].
  simpl. by rewrite parse_line_short.
Qed.

End ParserErrors.






Section Outcomes.
Variable sample_colors : nat → nat → RGBA.



End Outcomes.

Lemma style_header_steps (K : nat * nat → Prop) :
  (∀ j, j < 7 → K (0, j)) →
  cellwise K style_header
    (λ k c, foldl (λ c j,
                     (if decide (k = (0, j))
                      then set_facecolor (FaceNamed "#e6e6e6") else id)
                       ((if decide (k = (0, j)) then set_text_bold else id) c))
                  c (seq 0 7)).
Proof.
  intros HK. unfold style_header.
  apply (cellwise_for_each K _ _
           (λ j k c,
              (if decide (k = (0, j))
               then set_facecolor (FaceNamed "#e6e6e6") else id)
                ((if decide (k = (0, j)) then set_text_bold else id) c))).
  intros j Hj%elem_of_seq.
  eapply cellwise_ext;
    [|apply (cellwise_bind K _ _ _ _
               (cellwise_modify K (0, j) set_text_bold (HK j ltac:(lia)))
               (cellwise_modify K (0, j)
                  (set_facecolor (FaceNamed "#e6e6e6")) (HK j ltac:(lia))))].
  intros k c. simpl. by repeat case_decide.
Qed.

Lemma header_pass_at (r j : nat) c :
  foldl (λ c j',
           (if decide ((r, j) = (0, j'))
            then set_facecolor (FaceNamed "#e6e6e6") else id)
             ((if decide ((r, j) = (0, j')) then set_text_bold else id) c))
        c (seq 0 7)
  = if decide (r = 0 ∧ j < 7)
    then set_facecolor (FaceNamed "#e6e6e6") (set_text_bold c) else c.
Proof.
  rewrite (foldl_seq_pick _
             (λ c, if decide (r = 0)
                   then set_facecolor (FaceNamed "#e6e6e6") (set_text_bold c)
                   else c) 0 7 j).
  - repeat case_decide; try done; lia.
  - intros c' i'. repeat case_decide; simplify_eq; try done.
    all: exfalso; auto.
Qed.

Lemma weekend_pass_row0 (cell_text : list (list pystr)) (j : nat) c :
  foldl (λ c week_idx,
           foldl (λ c day_idx,
                    if decide ((0, j) = (week_idx, day_idx))
                    then if truthy (default [] (cell_text !! week_idx
                                                ≫= (.!! day_idx)))
                         then set_facecolor (FaceNamed "#f2f2f2") c else c
                    else c)
                 c [5; 6])
        c (seq 1 (length cell_text - 1)) = c.
Proof.
  apply foldl_id. intros w c' Hw%elem_of_seq. simpl.
  rewrite !decide_False; [done|intros [= <- _]; lia..].
Qed.

Lemma sprint_pass_row0 sc y m cal sprint (j : nat) c :
  sprint_pass sc y m cal sprint (0, j) c = c.
Proof.
  unfold sprint_pass. apply foldl_id. intros [w week] c' Hw.
  apply elem_of_enumerate in Hw as [Hw _]. simpl.
  apply foldl_id. intros [j' d] c'' _. simpl.
  rewrite decide_False; [done|]. intros [= <- _]. lia.
Qed.

Lemma make_cell_text_lookup cal (r j : nat) :
  make_cell_text cal !! r ≫= (.!! j)
  = match r with
    | 0 => if decide (j < 7) then Some (default [] (day_names !! j)) else None
    | S w => (λ day : Z, if (day =? 0)%Z then [] else str_int day)
               <$> (cal !! w ≫= (.!! j))
    end.
Proof.
  unfold make_cell_text. destruct r as [|w]; simpl.
  - do 7 (destruct j as [|j]; [reflexivity|]).
    by rewrite decide_False by lia.
  - rewrite list_lookup_fmap. destruct (cal !! w) as [week|]; simpl; [|done].
    by rewrite list_lookup_fmap.
Qed.

Lemma month_axes_table sc df cols i y m :
  (∀ s, s ∈ df → is_Some (dict_find (Sprint s) sc)) →
  match month_check df (y, m) with
  | Some e => month_axes sc df cols i (y, m) = Raise e
  | None =>
      ∃ t, month_axes sc df cols i (y, m)
           = Ok (mkAxes (i / cols) (i mod cols) (y, m) t)
         ∧ ∀ k, t !! k = final_cell sc df y m k
  end.
Proof.
  intros Hsc. unfold month_axes.
  set (cal := monthcalendar y m). set (ct := make_cell_text cal).
  set (K := λ k : nat * nat, k.1 < length ct ∧ k.2 < 7).
  assert (Hrows : ∀ row, row ∈ ct → length row = 7)
    by apply make_cell_text_rows.
  assert (H0 : keys_ok K (make_table ct)).
  { intros [r c] [Hr Hc]. cbn [fst snd] in Hr, Hc. rewrite make_table_lookup.
    destruct (lookup_lt_is_Some_2 ct r Hr) as [row Hrow]. rewrite Hrow. simpl.
    destruct (lookup_lt_is_Some_2 row c) as [txt ->]; [|by eexists].
    rewrite (Hrows row); [done|]. by eapply list_elem_of_lookup_2. }
  destruct (style_header_steps K) with (t := make_table ct)
    as (t1 & E1 & L1); [|done|].
  { intros j Hj. split; [|done]. unfold ct.
    rewrite make_cell_text_length. cbn [fst]. lia. }
  pose proof (keys_ok_fmap _ _ _ _ H0 L1) as H1.
  destruct (highlight_weekends_cellwise K ct) with (t := t1)
    as (t2 & E2 & L2); [by intros w j ??|done|done|].
  pose proof (keys_ok_fmap _ _ _ _ H1 L2) as H2.
  pose proof (paint_sprints_cellwise sc y m K df) as H3. cbv zeta in H3.
  fold cal in H3. specialize (H3 ltac:(
    intros w week j Hw Hj; split; cbn [fst snd];
    [ unfold ct; rewrite make_cell_text_length;
      apply lookup_lt_Some in Hw; lia
    | apply monthcalendar_lookup in Hw as [Hl _]; lia ]) Hsc t2 H2).
  rewrite E1. cbn [mbind result_bind]. rewrite E2. cbn [mbind result_bind].
  destruct (month_check df (y, m)) as [e|]; [by rewrite H3|].
  destruct H3 as (t3 & E3 & L3).
  exists t3. rewrite E3. cbn [mbind result_bind].
  split; [done|]. intros [r j].
  assert (Hct : ∀ r j : nat, ct !! r ≫= (.!! j)
                = match r with
                  | 0 => if decide (j < 7)
                         then Some (default [] (day_names !! j)) else None
                  | S w => (λ day : Z, if (day =? 0)%Z then [] else str_int day)
                             <$> (cal !! w ≫= (.!! j))
                  end)
    by (intros; apply make_cell_text_lookup).
  rewrite L3, L2, L1, make_table_lookup, Hct.
  destruct r as [|w].
  - cbn [final_cell]. case_decide as Hj; [|done].
    cbn [fmap option_fmap option_map].
    rewrite header_pass_at, decide_True by done.
    rewrite weekend_pass_row0. f_equal.
    apply foldl_id. intros s c _. apply sprint_pass_row0.
  - cbn [final_cell]. fold cal.
    destruct (cal !! w ≫= (.!! j)) as [day|] eqn:Ed; [|done].
    cbn [fmap option_fmap option_map].
    assert (Hw : S w < length ct).
    { unfold ct. rewrite make_cell_text_length.
      destruct (cal !! w) eqn:Ew; [|done]. apply lookup_lt_Some in Ew. lia. }
    rewrite header_pass_at, decide_False by lia.
    rewrite weekend_pass_at by done.
    rewrite Hct, Ed.
    cbn [fmap option_fmap option_map default from_option id]. f_equal.
    erewrite foldl_ext_all;
      [|intros c s; rewrite sprint_pass_at; fold cal; rewrite Ed; reflexivity].
    destruct (Z.eqb_spec day 0) as [->|Hd].
    + cbn [truthy].
      assert (Hskip : ∀ c : Cell, (if decide (j = 5 ∨ j = 6) then c else c) = c)
        by (intros c; by case_decide).
      rewrite Hskip. apply foldl_id. intros s c _. reflexivity.
    + rewrite str_int_truthy. unfold base_cell. by case_decide.
Qed.

Section FigureShape.
Variable sample_colors : nat → nat → RGBA.

Lemma axes_loop_exact sc df cols months start acc :
  (∀ s, s ∈ df → is_Some (dict_find (Sprint s) sc)) →
  figure_check df months = None →
  ∃ axes,
    for_each (enumerate start months)
      (λ '(i, ym) axes, ax ← month_axes sc df cols i ym; Ok (axes ++ [ax])) acc
    = Ok (acc ++ axes)
    ∧ length axes = length months
    ∧ ∀ i ax, axes !! i = Some ax →
        ∃ y m, months !! i = Some (y, m)
               ∧ ax_title ax = (y, m)
               ∧ ax_row ax = (start + i) / cols
               ∧ ax_col ax = (start + i) mod cols
               ∧ ∀ k, ax_table ax !! k = final_cell sc df y m k.
Proof.
  intros Hsc Hchk. revert start acc.
  induction months as [|[y m] months IH]; intros start acc;
    cbn [for_each enumerate].
  - exists []. rewrite app_nil_r. split; [done|]. split; [done|].
    intros i ax H. by rewrite lookup_nil in H.
  - rewrite figure_check_cons in Hchk.
    pose proof (month_axes_table sc df cols start y m Hsc) as Hm.
    destruct (month_check df (y, m)) as [e|]; [done|].
    destruct Hm as (t & -> & Ht). cbn [mbind result_bind].
    destruct (IH Hchk (S start)
                (acc ++ [mkAxes (start / cols) (start mod cols) (y, m) t]))
      as (axes & -> & Hlen & Hax).
    eexists (_ :: axes). rewrite <- app_assoc. split; [done|].
    split; [simpl; by rewrite Hlen|].
    intros [|i] ax Hi; simpl in Hi.
    + injection Hi as <-. exists y, m. rewrite Nat.add_0_r. by split_and!.
    + destruct (Hax i ax Hi) as (y' & m' & ? & ? & ? & ? & ?).
      exists y', m'. replace (start + S i) with (S start + i) by lia.
      by split_and!.
Qed.

Lemma figure_inv df fig :
  generate_wall_calendar sample_colors df = Ok (Some fig) →
  ∃ r rs lo hi,
    df = r :: rs
    ∧ column_min (map Start_Date df) = Stamp lo
    ∧ column_max (map End_Date df) = Stamp hi
    ∧ length (fig_axes fig) = length (months_to_display lo hi)
    ∧ fig_cols fig = 3 `min` length (fig_axes fig)
    ∧ fig_rows fig
      = (length (fig_axes fig) + fig_cols fig - 1) / fig_cols fig
    ∧ fig_legend fig = make_sprint_colors sample_colors df
    ∧ fig_legend_ncol fig = 5 `min` length (fig_legend fig)
    ∧ ∀ i ax, fig_axes fig !! i = Some ax →
        ∃ y m, months_to_display lo hi !! i = Some (y, m)
               ∧ ax_title ax = (y, m)
               ∧ ax_row ax = i / fig_cols fig
               ∧ ax_col ax = i mod fig_cols fig
               ∧ ∀ k, ax_table ax !! k
                      = final_cell (make_sprint_colors sample_colors df)
                          df y m k.
Proof.
  intros H. pose proof H as Hinv.
  apply generate_wall_calendar_inv in Hinv
    as (lo & hi & Hlo & Hhi & Hchk & _ & _).
  destruct df as [|r rs]; [done|]. exists r, rs, lo, hi.
  split; [done|]. split; [done|]. split; [done|].
  unfold generate_wall_calendar in H. rewrite Hlo, Hhi in H.
  unfold render_months in H.
  destruct (decide (3 `min` length (months_to_display lo hi) = 0)); [done|].
  destruct (axes_loop_exact (make_sprint_colors sample_colors (r :: rs))
              (r :: rs) (3 `min` length (months_to_display lo hi))
              (months_to_display lo hi) 0 [])
    as (axes & E & Hlen & Hax); [|done|].
  { intros s Hs. by apply make_sprint_colors_total. }
  rewrite E in H. cbn [mbind result_bind app] in H. injection H as <-.
  cbn [fig_axes fig_cols fig_rows fig_legend fig_legend_ncol].
  rewrite Hlen. split_and!; try done.
Qed.

End FigureShape.

Lemma paint_keeps_text sc y m (df : list Row) day c :
  cell_text (foldl (λ c s, paint sc y m s day c) c df) = cell_text c
  ∧ cell_bold (foldl (λ c s, paint sc y m s day c) c df) = cell_bold c.
Proof.
  revert c. induction df as [|s df IH]; intros c; [done|]. simpl.
  destruct (IH (paint sc y m s day c)) as [-> ->].
  unfold paint. destruct (day =? 0)%Z; [done|].
  destruct (in_sprint s _); [|done].
  destruct (dict_find _ _) as [color|]; [|done].
  by destruct (is_dark color).
Qed.

Lemma ceil_div_bounds n c :
  0 < c → 0 < n →
  n ≤ (n + c - 1) / c * c ∧ ((n + c - 1) / c - 1) * c < n.
Proof.
  intros Hc Hn. pose proof (Nat.div_mod_eq (n + c - 1) c) as E.
  pose proof (Nat.mod_upper_bound (n + c - 1) c ltac:(lia)) as Hm.
  set (q := (n + c - 1) / c) in *. set (r := (n + c - 1) mod c) in *.
  assert (0 < q). { destruct q; [|lia]. lia. }
  nia.
Qed.

Section Cells.
Variable sample_colors : nat → nat → RGBA.

Lemma figure_axes_table df fig ax y m :
  generate_wall_calendar sample_colors df = Ok (Some fig) →
  ax ∈ fig_axes fig → ax_title ax = (y, m) →
  ∀ k, ax_table ax !! k
       = final_cell (make_sprint_colors sample_colors df) df y m k.
Proof.
  intros Hfig Hax Ht.
  apply figure_inv in Hfig
    as (r & rs & lo & hi & _ & _ & _ & _ & _ & _ & _ & _ & Hall).
  apply list_elem_of_lookup in Hax as [i Hi].
  destruct (Hall i ax Hi) as (y' & m' & _ & Ht' & _ & _ & Hk).
  rewrite Ht in Ht'. by injection Ht' as <- <-.
Qed.

(** X9: a returned figure has at least one subplot and at most three
    columns; the rows are just enough for the subplots; subplot [i] sits
    in row [i / cols] and column [i mod cols], inside the grid, and no two
    subplots share a place. *)
Theorem grid_layout df fig :
  generate_wall_calendar sample_colors df = Ok (Some fig) →
  let n := length (fig_axes fig) in
  0 < n
  ∧ fig_cols fig = 3 `min` n
  ∧ n ≤ fig_rows fig * fig_cols fig
  ∧ (fig_rows fig - 1) * fig_cols fig < n
  ∧ (∀ i ax, fig_axes fig !! i = Some ax →
       ax_row ax = i / fig_cols fig ∧ ax_col ax = i mod fig_cols fig
       ∧ ax_row ax < fig_rows fig ∧ ax_col ax < fig_cols fig)
  ∧ (∀ i i' ax ax', fig_axes fig !! i = Some ax →
       fig_axes fig !! i' = Some ax' →
       ax_row ax = ax_row ax' → ax_col ax = ax_col ax' → i = i').
Proof.
  intros Hfig n. pose proof Hfig as Hinv.
  apply figure_inv in Hinv
    as (r & rs & lo & hi & -> & Hlo & Hhi & Hlen & Hc & Hr & _ & _ & Hall).
  fold n in Hc, Hr.
  assert (Hn : 0 < n).
  { unfold n. rewrite Hlen.
    destruct (months_to_display lo hi) eqn:E; [|simpl; lia].
    unfold generate_wall_calendar in Hfig.
    rewrite Hlo, Hhi, E in Hfig. done. }
  assert (Hcpos : 0 < fig_cols fig) by lia.
  destruct (ceil_div_bounds n (fig_cols fig) Hcpos Hn) as [B1 B2].
  rewrite <- Hr in B1, B2.
  assert (Hpos : ∀ i ax, fig_axes fig !! i = Some ax →
            ax_row ax = i / fig_cols fig ∧ ax_col ax = i mod fig_cols fig
            ∧ ax_row ax < fig_rows fig ∧ ax_col ax < fig_cols fig).
  { intros i ax Hi. destruct (Hall i ax Hi) as (y & m & _ & _ & -> & -> & _).
    apply lookup_lt_Some in Hi. fold n in Hi.
    pose proof (Nat.div_mod_eq i (fig_cols fig)).
    pose proof (Nat.mod_upper_bound i (fig_cols fig) ltac:(lia)).
    split_and!; try done. 
    apply Nat.Div0.div_lt_upper_bound. nia. }
  split_and!; try done.
  intros i i' ax ax' Hi Hi' Er Ec.
  destruct (Hpos i ax Hi) as (R1 & C1 & _).
  destruct (Hpos i' ax' Hi') as (R2 & C2 & _).
  rewrite (Nat.div_mod_eq i (fig_cols fig)), (Nat.div_mod_eq i' (fig_cols fig)).
  congruence.
Qed.

(** X10: in every month of a returned figure, row 0 holds the seven
    weekday names, bold, on the fill ['#e6e6e6'], whatever the sprints. *)
Theorem header_row df fig ax (j : nat) :
  generate_wall_calendar sample_colors df = Ok (Some fig) →
  ax ∈ fig_axes fig → j < 7 →
  ax_table ax !! (0, j)
  = Some (mkCell (default [] (day_names !! j)) (FaceNamed "#e6e6e6")
            TextDefault true).
Proof.
  intros Hfig Hax Hj. destruct (ax_title ax) as [y m] eqn:Ht.
  rewrite (figure_axes_table df fig ax y m) by done.
  cbn [final_cell]. by rewrite decide_True.
Qed.

(** X11: a cell of the month calendar outside the month has no text and
    keeps the default fill and text colour, also in the weekend columns
    and whatever the sprints. *)
Theorem padding_cell_blank df fig ax y m (w j : nat) week :
  generate_wall_calendar sample_colors df = Ok (Some fig) →
  ax ∈ fig_axes fig → ax_title ax = (y, m) →
  monthcalendar y m !! w = Some week → week !! j = Some 0%Z →
  ax_table ax !! (S w, j) = Some (mkCell [] FaceDefault TextDefault false).
Proof.
  intros Hfig Hax Ht Hw Hj.
  rewrite (figure_axes_table df fig ax y m) by done.
  cbn [final_cell]. rewrite Hw. simpl. by rewrite Hj.
Qed.

(** X12: the table of a month has exactly the header row and one row per
    week of the month calendar, seven cells each, and no other cell. *)
Theorem table_is_week_grid df fig ax y m (r c : nat) :
  generate_wall_calendar sample_colors df = Ok (Some fig) →
  ax ∈ fig_axes fig → ax_title ax = (y, m) →
  is_Some (ax_table ax !! (r, c))
  ↔ r ≤ length (monthcalendar y m) ∧ c < 7.
Proof.
  intros Hfig Hax Ht.
  rewrite (figure_axes_table df fig ax y m) by done.
  destruct r as [|w]; cbn [final_cell].
  - case_decide.
    + split; [intros _; lia|intros _; by eexists].
    + split; [by intros []|lia].
  - destruct (monthcalendar y m !! w) as [week|] eqn:Hw; simpl.
    + pose proof (lookup_lt_Some _ _ _ Hw) as Hlt.
      apply monthcalendar_lookup in Hw as [Hlen _].
      destruct (week !! c) as [day|] eqn:Hc.
      * apply lookup_lt_Some in Hc. split; [intros _; lia|by eexists].
      * apply lookup_ge_None in Hc. split; [by intros []|lia].
    + apply lookup_ge_None in Hw. split; [by intros []|lia].
Qed.

(** X13: the cell of a day from Monday to Friday that lies in no sprint's
    range shows the day number on the default fill, with the default text
    colour. *)
Theorem free_weekday_unfilled df fig ax y m (w j : nat) week day :
  generate_wall_calendar sample_colors df = Ok (Some fig) →
  ax ∈ fig_axes fig → ax_title ax = (y, m) →
  monthcalendar y m !! w = Some week → week !! j = Some day → day ≠ 0%Z →
  (weekday y m day < 5)%Z →
  Forall (λ s, in_sprint s (mkDate y m day) = false) df →
  ax_table ax !! (S w, j)
  = Some (mkCell (str_int day) FaceDefault TextDefault false).
Proof.
  intros Hfig Hax Ht Hw Hj Hd Hwd Hfree.
  destruct (calendar_cell_weekday y m w j week day Hw Hj Hd) as [_ Hcol].
  rewrite (figure_axes_table df fig ax y m) by done.
  cbn [final_cell]. rewrite Hw. simpl. rewrite Hj.
  destruct (Z.eqb_spec day 0); [done|].
  rewrite paint_skip_all by done. unfold base_cell.
  by rewrite decide_False by lia.
Qed.

(** X14: every day of a displayed month has exactly one cell in the table
    of the month; the cell is in the column of the day's weekday and shows
    the day number. *)
Theorem every_day_has_one_cell df fig ax y m day :
  generate_wall_calendar sample_colors df = Ok (Some fig) →
  ax ∈ fig_axes fig → ax_title ax = (y, m) →
  (1 ≤ day ≤ days_in_month y m)%Z →
  ∃ (w j : nat),
    monthcalendar y m !! w ≫= (.!! j) = Some day
    ∧ Z.of_nat j = weekday y m day
    ∧ cell_text <$> ax_table ax !! (S w, j) = Some (str_int day)
    ∧ ∀ (w' j' : nat), monthcalendar y m !! w' ≫= (.!! j') = Some day →
                       w' = w ∧ j' = j.
Proof.
  intros Hfig Hax Ht Hday.
  destruct (calendar_shows_day y m day Hday) as (w & j & week & Hw & Hj).
  assert (Hd : day ≠ 0%Z) by lia.
  destruct (calendar_cell_weekday y m w j week day Hw Hj Hd) as [_ Hcol].
  exists w, j. split_and!.
  - rewrite Hw. simpl. done.
  - done.
  - rewrite (figure_axes_table df fig ax y m) by done.
    cbn [final_cell]. rewrite Hw. simpl. rewrite Hj.
    destruct (Z.eqb_spec day 0); [done|]. simpl.
    rewrite (proj1 (paint_keeps_text _ _ _ _ _ _)).
    unfold base_cell. by case_decide.
  - intros w' j' H'.
    destruct (monthcalendar y m !! w') as [week'|] eqn:Hw'; [|done].
    simpl in H'.
    pose proof (lookup_lt_Some _ _ _ H') as Hj7.
    pose proof (lookup_lt_Some _ _ _ Hj) as Hj7'.
    destruct (monthcalendar_lookup y m w' week' Hw') as [Hl' Hi'].
    destruct (monthcalendar_lookup y m w week Hw) as [Hl Hi].
    rewrite Hi' in H' by lia. rewrite Hi in Hj by lia.
    apply itermonthdays_nonzero in H' as [_ E']; [|done].
    apply itermonthdays_nonzero in Hj as [_ E]; [|done].
    lia.
Qed.

End Cells.

Lemma first_seen_ext s1 s2 names :
  (∀ x, x ∈ s1 ↔ x ∈ s2) → first_seen s1 names = first_seen s2 names.
Proof.
  revert s1 s2. induction names as [|x names IH]; intros s1 s2 H; [done|].
  simpl. destruct (decide (x ∈ s1)) as [H1|H1].
  - rewrite decide_True by by apply H. by apply IH.
  - rewrite decide_False by (intros ?; by apply H1, H). f_equal.
    apply IH. intros z. rewrite !elem_of_cons, H. done.
Qed.

Lemma sprint_colors_from_order sample_colors n rows d start :
  map fst (sprint_colors_from sample_colors n d start rows)
  = map fst d ++ first_seen (map fst d) (map Sprint rows).
Proof.
  revert d start. induction rows as [|row rows IH]; intros d start.
  - simpl. by rewrite app_nil_r.
  - rewrite sprint_colors_from_cons, IH, dict_set_keys. simpl.
    destruct (decide (Sprint row ∈ map fst d)) as [Hin|Hin]; [done|].
    rewrite <- app_assoc. simpl. do 2 f_equal.
    apply first_seen_ext. intros x. split; intros Hx.
    + apply elem_of_app in Hx as [Hx|Hx%list_elem_of_singleton];
        [by right|subst; by left].
    + apply elem_of_app. apply elem_of_cons in Hx as [->|Hx];
        [right; by apply list_elem_of_singleton|by left].
Qed.

Section Legend.
Variable sample_colors : nat → nat → RGBA.

(** X17: the legend lists the distinct sprint names in the order of their
    first appearance in the frame, in at least one and at most five
    columns. *)
Theorem legend_order df fig :
  generate_wall_calendar sample_colors df = Ok (Some fig) →
  map fst (fig_legend fig) = first_seen [] (map Sprint df)
  ∧ fig_legend_ncol fig = 5 `min` length (fig_legend fig)
  ∧ 1 ≤ fig_legend_ncol fig ≤ 5.
Proof.
  intros Hfig.
  apply figure_inv in Hfig
    as (r & rs & lo & hi & -> & _ & _ & _ & _ & _ & Hleg & Hncol & _).
  assert (Hkeys : map fst (fig_legend fig) = first_seen [] (map Sprint (r :: rs))).
  { rewrite Hleg.
    change (make_sprint_colors sample_colors (r :: rs))
      with (sprint_colors_from sample_colors (length (r :: rs)) [] 0 (r :: rs)).
    by rewrite sprint_colors_from_order. }
  split; [done|]. split; [done|].
  assert (0 < length (fig_legend fig)); [|lia].
  rewrite <- (length_map fst), Hkeys. simpl. lia.
Qed.

End Legend.

(** ** Inclusive ranges *)

Lemma date_leb_refl d : date_leb d d = true.
Proof.
  unfold date_leb. rewrite !Z.eqb_refl, Z.leb_refl. simpl.
  by rewrite !orb_true_r.
Qed.

Lemma date_leb_le a b :
  date_leb a b = true
  ↔ (d_year a < d_year b
     ∨ d_year a = d_year b
       ∧ (d_month a < d_month b
          ∨ d_month a = d_month b ∧ d_day a ≤ d_day b))%Z.
Proof.
  unfold date_leb.
  rewrite !orb_true_iff, !andb_true_iff, !orb_true_iff, !andb_true_iff,
    !Z.ltb_lt, !Z.eqb_eq, Z.leb_le. tauto.
Qed.

Lemma date_leb_trans a b c :
  date_leb a b = true → date_leb b c = true → date_leb a c = true.
Proof. rewrite !date_leb_le. lia. Qed.

(** X18: for a sprint whose start and end are timestamps of years 1 to
    9999, the test of line 141 never raises and is inclusive at both ends:
    when the start is not after the end it holds on the start date and on
    the end date, and when the start is after the end it holds on no date
    at all. *)
Theorem sprint_range_inclusive sprint s e :
  Start_Date sprint = Stamp s → End_Date sprint = Stamp e →
  (1 ≤ ts_year s ≤ 9999)%Z → (1 ≤ ts_year e ≤ 9999)%Z →
  let first := ts_date s in
  let last := ts_date e in
  (date_leb first last = true →
   check_in_sprint sprint first = Ok true
   ∧ check_in_sprint sprint last = Ok true)
  ∧ (date_leb first last = false →
     ∀ d, check_in_sprint sprint d = Ok false).
Proof.
  intros Hs He Hys Hye first last. split.
  - intros H. rewrite !(check_in_sprint_stamps sprint s e) by done.
    fold first last. by rewrite !date_leb_refl, H.
  - intros H d. rewrite (check_in_sprint_stamps sprint s e) by done.
    fold first last. f_equal. apply andb_false_iff.
    destruct (date_leb first d) eqn:E1; [|by left].
    destruct (date_leb d last) eqn:E2; [|by right].
    rewrite (date_leb_trans _ _ _ E1 E2) in H. done.
Qed.
















Section TimeOfDay.
Variable sample_colors : nat → nat → RGBA.


End TimeOfDay.

Section PageFacts.
Variable to_datetime : pystr → option pdvalue.
Variable sample_colors : nat → nat → RGBA.

Lemma parse_empty_iff text :
  parse_sprint_data to_datetime text = Ok []
  ↔ Forall (λ line, length (split_ws line) < 3) (data_lines text).
Proof.
  split; [|apply no_record_line_gives_empty_frame].
  unfold parse_sprint_data, parse_lines.
  destruct (parse_loop to_datetime (data_lines text) []) as [rows [e|]] eqn:E;
    [done|].
  intros [= ->]. apply parse_loop_rows in E as (new & Hnew & HF).
  symmetry in Hnew. apply app_eq_nil in Hnew as [_ ->].
  apply Forall2_nil_inv_r in HF.
  apply Forall_forall. intros line Hin.
  destruct (decide (accepted line)) as [Ha|Hn]; [|unfold accepted in Hn; lia].
  assert (line ∈ filter accepted (data_lines text))
    by (apply list_elem_of_filter; done).
  rewrite HF in H. by apply elem_of_nil in H.
Qed.

(** X7: the parser returns the empty frame exactly when no data line has
    three tokens: an empty text, a header alone, or short lines only. *)
Theorem empty_frame_iff_no_record text :
  parse_sprint_data to_datetime text = Ok []
  ↔ Forall (λ line, length (split_ws line) < 3) (data_lines text).
Proof. apply parse_empty_iff. Qed.

(** X20: the page shows its error message exactly when no data line has
    three tokens; a date that does not parse never leads to it. *)
Theorem error_message_iff_no_record text :
  (∃ body, st_error body ∈ (on_generate to_datetime sample_colors text).1)
  ↔ Forall (λ line, length (split_ws line) < 3) (data_lines text).
Proof.
  rewrite <- parse_empty_iff. unfold on_generate.
  destruct (parse_sprint_data to_datetime text) as [df|e] eqn:Ep.
  - destruct (generate_wall_calendar sample_colors df) as [[fig|]|e] eqn:Eg.
    + split.
      * intros [body Hin]. simpl in Hin.
        repeat (apply elem_of_cons in Hin as [?|Hin]; [done|]).
        by apply elem_of_nil in Hin.
      * intros [= ->]. done.
    + destruct df as [|r rs].
      * split; [done|]. intros _. eexists. simpl. do 3 right. by left.
      * by apply generate_wall_calendar_not_None in Eg.
    + split.
      * intros [body Hin]. simpl in Hin.
        repeat (apply elem_of_cons in Hin as [?|Hin]; [done|]).
        by apply elem_of_nil in Hin.
      * intros [= ->]. done.
  - split; [|done]. intros [body Hin]. by apply elem_of_nil in Hin.
Qed.


End PageFacts.

Lemma split_ws_from_tokens cur s :
  Forall (λ c, isspace c = false) cur → Forall token (split_ws_from cur s).
Proof.
  assert (Hrev : ∀ x (t : pystr), Forall (λ c, isspace c = false) (x :: t) →
                                  token (rev (x :: t))).
  { intros x t H. split; [|by apply Forall_rev].
    simpl. intros E. by apply app_eq_nil in E as [_ ?]. }
  revert cur. induction s as [|c s IH]; intros cur Hcur; simpl.
  - destruct cur as [|x cur]; [constructor|].
    constructor; [by apply Hrev|constructor].
  - destruct (isspace c) eqn:Hc.
    + destruct cur as [|x cur]; [by apply IH|].
      constructor; [by apply Hrev|by apply IH].
    + apply IH. by constructor.
Qed.

Lemma split_ws_tokens s : Forall token (split_ws s).
Proof. by apply split_ws_from_tokens. Qed.

Section Names.
Variable to_datetime : pystr → option pdvalue.

(** X4: every name in a parsed frame is one token: non-empty and without
    whitespace. *)
Theorem parsed_names_are_tokens text df :
  parse_sprint_data to_datetime text = Ok df →
  Forall (λ row, token (Sprint row)) df.
Proof.
  unfold parse_sprint_data, parse_lines.
  destruct (parse_loop to_datetime (data_lines text) []) as [rows [e|]] eqn:E;
    [done|].
  intros [= <-]. apply parse_loop_rows in E as (new & -> & HF). simpl.
  induction HF as [|line row ls rows' Hrow _ IH]; constructor; [|done].
  destruct Hrow as (name & s & e & rest & Hs & -> & _).
  pose proof (split_ws_tokens line) as Ht. rewrite Hs in Ht.
  by apply Forall_cons in Ht as [? _].
Qed.

End Names.

Lemma paint_face_cases sc y m day (df : list Row) c :
  day ≠ 0%Z →
  (∀ s, s ∈ df → is_Some (dict_find (Sprint s) sc)) →
  (Forall (λ s, in_sprint s (mkDate y m day) = false) df
   ∧ foldl (λ c s, paint sc y m s day c) c df = c)
  ∨ ∃ s color,
      s ∈ df ∧ in_sprint s (mkDate y m day) = true
      ∧ dict_find (Sprint s) sc = Some color
      ∧ cell_face (foldl (λ c s, paint sc y m s day c) c df) = FaceRGBA color.
Proof.
  intros Hd. induction df as [|s df IH] using rev_ind; intros Hsc.
  - left. by split.
  - rewrite foldl_app. simpl.
    destruct (in_sprint s (mkDate y m day)) eqn:Hin.
    + right. destruct (Hsc s) as [color Hc]; [apply elem_of_app; right; by left|].
      exists s, color. split_and!; try done.
      * apply elem_of_app. right. by left.
      * unfold paint. destruct (Z.eqb_spec day 0); [done|].
        rewrite Hin, Hc. by destruct (is_dark color).
    + rewrite paint_not_in_sprint by done.
      destruct IH as [[HF E]|(s' & color & Hs' & Hin' & Hc & Hface)].
      * intros s' Hs'. apply Hsc. apply elem_of_app. by left.
      * left. split; [|done]. apply Forall_app. split; [done|].
        by constructor.
      * right. exists s', color. split_and!; try done.
        apply elem_of_app. by left.
Qed.

Lemma enumerate_lookup_elem {A} (l : list A) (n i : nat) x :
  l !! i = Some x → (n + i, x) ∈ enumerate n l.
Proof.
  revert n i. induction l as [|y l IH]; intros n [|i]; simpl; try done.
  - intros [= ->]. rewrite Nat.add_0_r. by left.
  - intros H. right. replace (n + S i) with (S n + i) by lia. by apply IH.
Qed.

Lemma month_check_None_inv df ym s (w j : nat) week day :
  month_check df ym = None → s ∈ df →
  monthcalendar ym.1 ym.2 !! w = Some week → week !! j = Some day →
  paint_check ym.1 ym.2 s day = None.
Proof.
  unfold month_check. intros H Hs Hw Hj.
  apply first_exn_None in H. rewrite Forall_fmap, Forall_forall in H.
  specialize (H s Hs). cbn beta in H.
  apply first_exn_None in H. rewrite Forall_fmap, Forall_forall in H.
  specialize (H (1 + w, week) (enumerate_lookup_elem _ 1 w week Hw)).
  cbn beta in H. cbn [snd] in H.
  apply first_exn_None in H. rewrite Forall_fmap, Forall_forall in H.
  by specialize (H (0 + j, day) (enumerate_lookup_elem _ 0 j day Hj)).
Qed.

Section Fill.
Variable sample_colors : nat → nat → RGBA.

(** X22: in a returned figure every displayed month lies in a year from 1
    to 9999, and for every sprint of the frame and every day of a displayed
    month the test of line 141 ran without raising: its outcome is the
    truth value [in_sprint] stands for. *)
Theorem figure_tests_ran df fig ax y m (w j : nat) week day s :
  generate_wall_calendar sample_colors df = Ok (Some fig) →
  ax ∈ fig_axes fig → ax_title ax = (y, m) →
  monthcalendar y m !! w = Some week → week !! j = Some day → day ≠ 0%Z →
  s ∈ df →
  (1 ≤ y ≤ 9999)%Z
  ∧ check_in_sprint s (mkDate y m day) = Ok (in_sprint s (mkDate y m day)).
Proof.
  intros Hfig Hax Ht Hw Hj Hd Hs.
  apply generate_wall_calendar_inv in Hfig
    as (lo & hi & _ & _ & Hchk & _ & HF).
  apply list_elem_of_lookup in Hax as [i Hax].
  destruct (Forall2_lookup_r _ _ _ _ _ HF Hax) as (ym & Hym & Hty & _).
  rewrite Ht in Hty. subst ym.
  unfold figure_check in Hchk. apply first_exn_None in Hchk.
  rewrite Forall_fmap, Forall_forall in Hchk.
  specialize (Hchk (y, m) (list_elem_of_lookup_2 _ _ _ Hym)). cbn beta in Hchk.
  pose proof (month_check_None_inv df (y, m) s w j week day Hchk Hs Hw Hj)
    as Hp.
  cbn [fst snd] in Hp. unfold paint_check in Hp.
  destruct (Z.eqb_spec day 0) as [|_]; [done|].
  destruct (new_date y m day) as [d|] eqn:Ed; [|done].
  pose proof (new_date_Ok _ _ _ _ Ed) as ->.
  split.
  - unfold new_date in Ed.
    destruct (_ && _) eqn:Ec in Ed; [|done].
    rewrite !andb_true_iff, !Z.leb_le in Ec. lia.
  - unfold in_sprint.
    by destruct (check_in_sprint s (mkDate y m day)).
Qed.

(** X15: the fill of a day cell is never anything but the base fill (the
    weekend colour in the last two columns, the default elsewhere), when no
    sprint covers the day, or the legend colour of a sprint that covers
    the day. *)
Theorem day_cell_fill df fig ax y m (w j : nat) week day :
  generate_wall_calendar sample_colors df = Ok (Some fig) →
  ax ∈ fig_axes fig → ax_title ax = (y, m) →
  monthcalendar y m !! w = Some week → week !! j = Some day → day ≠ 0%Z →
  ∃ cell,
    ax_table ax !! (S w, j) = Some cell
    ∧ ((Forall (λ s, in_sprint s (mkDate y m day) = false) df
        ∧ cell_face cell
          = (if decide (j = 5 ∨ j = 6) then FaceNamed "#f2f2f2"
             else FaceDefault))
       ∨ ∃ s color,
           s ∈ df ∧ in_sprint s (mkDate y m day) = true
           ∧ (Sprint s, color) ∈ fig_legend fig
           ∧ cell_face cell = FaceRGBA color).
Proof.
  intros Hfig Hax Ht Hw Hj Hd.
  rewrite (figure_axes_table sample_colors df fig ax y m) by done.
  cbn [final_cell]. rewrite Hw. simpl. rewrite Hj.
  destruct (Z.eqb_spec day 0); [done|]. eexists. split; [done|].
  apply figure_inv in Hfig
    as (r & rs & lo & hi & _ & _ & _ & _ & _ & _ & Hleg & _).
  destruct (paint_face_cases (make_sprint_colors sample_colors df) y m day df
              (base_cell j day) Hd)
    as [[HF E]|(s & color & Hs & Hin & Hc & Hface)].
  - intros s Hs. by apply make_sprint_colors_total.
  - left. split; [done|]. rewrite E. unfold base_cell. by case_decide.
  - right. exists s, color. split_and!; try done.
    rewrite Hleg. apply dict_find_elem; [|done].
    apply make_sprint_colors_keys.
Qed.

(** X16: the day number of a cell is white exactly when some sprint that
    covers the day has a dark colour, whichever sprint fills the cell in
    the end; otherwise it keeps the default colour. *)
Theorem white_text_iff_dark_cover df fig ax y m (w j : nat) week day :
  generate_wall_calendar sample_colors df = Ok (Some fig) →
  ax ∈ fig_axes fig → ax_title ax = (y, m) →
  monthcalendar y m !! w = Some week → week !! j = Some day → day ≠ 0%Z →
  cell_textcolor <$> ax_table ax !! (S w, j) =
  Some (if existsb
             (λ s, in_sprint s (mkDate y m day)
                   && from_option is_dark false
                        (dict_find (Sprint s)
                           (make_sprint_colors sample_colors df))) df
        then TextNamed "white" else TextDefault).
Proof. apply text_white_iff_some_dark. Qed.

End Fill.


(** * The further properties on the example inputs *)

Lemma whitespace_at_line_breaks_witness :
  parse_sprint_data iso_to_datetime
    (pystr_of "Sprint Start End" ++ [CR] ++ LF
       :: [LF; TAB] ++ pystr_of "0 2025-03-10 2025-03-21")
  = parse_sprint_data iso_to_datetime
      (pystr_of "Sprint Start End" ++ LF :: pystr_of "0 2025-03-10 2025-03-21").
Proof.
  apply (whitespace_at_line_breaks iso_to_datetime
           (pystr_of "Sprint Start End") [CR] [LF; TAB]
           (pystr_of "0 2025-03-10 2025-03-21")).
  - repeat constructor.
  - repeat constructor.
Defined.

Lemma whitespace_around_text_witness :
  parse_sprint_data iso_to_datetime ([LF; LF] ++ sample_text ++ [CR; LF])
  = parse_sprint_data iso_to_datetime sample_text.
Proof.
  apply (whitespace_around_text iso_to_datetime [LF; LF] sample_text [CR; LF]).
  - repeat constructor.
  - repeat constructor.
Defined.

Lemma well_formed_line_witness :
  parse_line iso_to_datetime
    (pystr_of " " ++ pystr_of "S1" ++ [TAB] ++ pystr_of "2025-03-10"
       ++ pystr_of "   " ++ pystr_of "2025-03-21" ++ pystr_of " # kickoff") []
  = match iso_to_datetime (pystr_of "2025-03-10") with
    | None => Raise (ParseError (pystr_of "2025-03-10"))
    | Some sd =>
        match iso_to_datetime (pystr_of "2025-03-21") with
        | None => Raise (ParseError (pystr_of "2025-03-21"))
        | Some ed => Ok ([] ++ [mkRow (pystr_of "S1") sd ed])
        end
    end.
Proof.
  apply (well_formed_line iso_to_datetime (pystr_of " ") (pystr_of "S1") [TAB]
           (pystr_of "2025-03-10") (pystr_of "   ") (pystr_of "2025-03-21")
           (pystr_of " # kickoff") []).
  - repeat constructor.
  - split; [discriminate|repeat constructor].
  - repeat constructor.
  - discriminate.
  - split; [discriminate|repeat constructor].
  - repeat constructor.
  - discriminate.
  - split; [discriminate|repeat constructor].
  - reflexivity.
Defined.

Lemma first_bad_token_raised_witness :
  ∃ before line after name s e' rest rows,
    data_lines bad_text = before ++ line :: after
    ∧ parse_lines iso_to_datetime before = Ok rows
    ∧ split_ws line = name :: s :: e' :: rest
    ∧ ((iso_to_datetime s = None
        ∧ ParseError (pystr_of "2025-02-30") = ParseError s)
       ∨ (is_Some (iso_to_datetime s) ∧ iso_to_datetime e' = None
          ∧ ParseError (pystr_of "2025-02-30") = ParseError e')).
Proof.
  apply (first_bad_token_raised iso_to_datetime bad_text
           (ParseError (pystr_of "2025-02-30"))).
  vm_compute. reflexivity.
Defined.

Lemma parse_text_app_witness :
  parse_sprint_data iso_to_datetime
    (pystr_of "Sprint Start End
0 2025-03-10 2025-03-21" ++ LF :: pystr_of "1 2025-03-24 2025-04-11")
  = (d1 ← parse_sprint_data iso_to_datetime (pystr_of "Sprint Start End
0 2025-03-10 2025-03-21");
     d2 ← parse_lines iso_to_datetime
            (lines (pystr_of "1 2025-03-24 2025-04-11"));
     Ok (d1 ++ d2)).
Proof.
  apply (parse_text_app iso_to_datetime).
  vm_compute. discriminate.
Defined.

Lemma grid_layout_witness :
  let n := length (fig_axes long_fig) in
  0 < n
  ∧ fig_cols long_fig = 3 `min` n
  ∧ n ≤ fig_rows long_fig * fig_cols long_fig
  ∧ (fig_rows long_fig - 1) * fig_cols long_fig < n
  ∧ (∀ i ax, fig_axes long_fig !! i = Some ax →
       ax_row ax = i / fig_cols long_fig ∧ ax_col ax = i mod fig_cols long_fig
       ∧ ax_row ax < fig_rows long_fig ∧ ax_col ax < fig_cols long_fig)
  ∧ (∀ i i' ax ax', fig_axes long_fig !! i = Some ax →
       fig_axes long_fig !! i' = Some ax' →
       ax_row ax = ax_row ax' → ax_col ax = ax_col ax' → i = i').
Proof.
  apply (grid_layout tab10_linspace [long_sprint] long_fig).
  vm_compute. reflexivity.
Defined.

Lemma header_row_witness :
  ax_table sample_march !! (0, 5)
  = Some (mkCell (default [] (day_names !! 5)) (FaceNamed "#e6e6e6")
            TextDefault true).
Proof.
  apply (header_row tab10_linspace sample_df sample_fig sample_march 5).
  - vm_compute. reflexivity.
  - vm_compute. left.
  - lia.
Defined.

Lemma padding_cell_blank_witness :
  ax_table sample_may !! (5, 6)
  = Some (mkCell [] FaceDefault TextDefault false).
Proof.
  apply (padding_cell_blank tab10_linspace sample_df sample_fig sample_may
           2025 5 4 6 [26; 27; 28; 29; 30; 31; 0]%Z).
  - vm_compute. reflexivity.
  - vm_compute. do 2 right. left.
  - reflexivity.
  - vm_compute. reflexivity.
  - reflexivity.
Defined.

Lemma table_is_week_grid_witness :
  is_Some (ax_table sample_march !! (6, 0))
  ↔ 6 ≤ length (monthcalendar 2025 3) ∧ 0 < 7.
Proof.
  apply (table_is_week_grid tab10_linspace sample_df sample_fig sample_march
           2025 3 6 0).
  - vm_compute. reflexivity.
  - vm_compute. left.
  - reflexivity.
Defined.

Lemma free_weekday_unfilled_witness :
  ax_table sample_march !! (2, 0)
  = Some (mkCell (str_int 3) FaceDefault TextDefault false).
Proof.
  apply (free_weekday_unfilled tab10_linspace sample_df sample_fig sample_march
           2025 3 1 0 [3; 4; 5; 6; 7; 8; 9]%Z 3).
  - vm_compute. reflexivity.
  - vm_compute. left.
  - reflexivity.
  - vm_compute. reflexivity.
  - reflexivity.
  - discriminate.
  - vm_compute. reflexivity.
  - repeat constructor.
Defined.

Lemma every_day_has_one_cell_witness :
  ∃ (w j : nat),
    monthcalendar 2025 3 !! w ≫= (.!! j) = Some 31%Z
    ∧ Z.of_nat j = weekday 2025 3 31
    ∧ cell_text <$> ax_table sample_march !! (S w, j) = Some (str_int 31)
    ∧ ∀ (w' j' : nat), monthcalendar 2025 3 !! w' ≫= (.!! j') = Some 31%Z →
                       w' = w ∧ j' = j.
Proof.
  apply (every_day_has_one_cell tab10_linspace sample_df sample_fig
           sample_march 2025 3 31).
  - vm_compute. reflexivity.
  - vm_compute. left.
  - reflexivity.
  - vm_compute. split; discriminate.
Defined.

Lemma white_text_iff_dark_cover_witness :
  cell_textcolor <$> ax_table overlap_march !! (4, 0) =
  Some (if existsb
             (λ s, in_sprint s (mkDate 2025 3 17)
                   && from_option is_dark false
                        (dict_find (Sprint s)
                           (make_sprint_colors tab10_linspace overlap_df)))
             overlap_df
        then TextNamed "white" else TextDefault).
Proof.
  apply (white_text_iff_dark_cover tab10_linspace overlap_df overlap_fig
           overlap_march 2025 3 3 0 [17; 18; 19; 20; 21; 22; 23]%Z 17).
  - vm_compute. reflexivity.
  - vm_compute. left.
  - reflexivity.
  - vm_compute. reflexivity.
  - reflexivity.
  - discriminate.
Defined.

Lemma legend_order_witness :
  map fst (fig_legend renamed_fig) = first_seen [] (map Sprint renamed_df)
  ∧ fig_legend_ncol renamed_fig = 5 `min` length (fig_legend renamed_fig)
  ∧ 1 ≤ fig_legend_ncol renamed_fig ≤ 5.
Proof.
  apply (legend_order tab10_linspace renamed_df renamed_fig).
  vm_compute. reflexivity.
Defined.




Lemma sprint_range_inclusive_witness :
  (date_leb (mkDate 2025 3 10) (mkDate 2025 3 21) = true →
   check_in_sprint sprint_A (mkDate 2025 3 10) = Ok true
   ∧ check_in_sprint sprint_A (mkDate 2025 3 21) = Ok true)
  ∧ (date_leb (mkDate 2025 3 10) (mkDate 2025 3 21) = false →
     ∀ d, check_in_sprint sprint_A d = Ok false).
Proof.
  apply (sprint_range_inclusive sprint_A (mkTimestamp 2025 3 10 0)
           (mkTimestamp 2025 3 21 0)).
  - reflexivity.
  - reflexivity.
  - simpl. lia.
  - simpl. lia.
Defined.

Lemma parsed_names_are_tokens_witness :
  Forall (λ row, token (Sprint row)) sample_df.
Proof.
  apply (parsed_names_are_tokens iso_to_datetime sample_text).
  vm_compute. reflexivity.
Defined.

Lemma figure_tests_ran_witness :
  (1 ≤ 2025 ≤ 9999)%Z
  ∧ check_in_sprint sprint_A (mkDate 2025 3 17)
    = Ok (in_sprint sprint_A (mkDate 2025 3 17)).
Proof.
  apply (figure_tests_ran tab10_linspace overlap_df overlap_fig overlap_march
           2025 3 3 0 [17; 18; 19; 20; 21; 22; 23]%Z 17 sprint_A).
  - vm_compute. reflexivity.
  - vm_compute. left.
  - reflexivity.
  - vm_compute. reflexivity.
  - reflexivity.
  - discriminate.
  - left.
Defined.

Lemma day_cell_fill_witness :
  ∃ cell,
    ax_table overlap_march !! (4, 0) = Some cell
    ∧ ((Forall (λ s, in_sprint s (mkDate 2025 3 17) = false) overlap_df
        ∧ cell_face cell
          = (if decide (0 = 5 ∨ 0 = 6) then FaceNamed "#f2f2f2"
             else FaceDefault))
       ∨ ∃ s color,
           s ∈ overlap_df ∧ in_sprint s (mkDate 2025 3 17) = true
           ∧ (Sprint s, color) ∈ fig_legend overlap_fig
           ∧ cell_face cell = FaceRGBA color).
Proof.
  apply (day_cell_fill tab10_linspace overlap_df overlap_fig overlap_march
           2025 3 3 0 [17; 18; 19; 20; 21; 22; 23]%Z 17).
  - vm_compute. reflexivity.
  - vm_compute. left.
  - reflexivity.
  - vm_compute. reflexivity.
  - reflexivity.
  - discriminate.
Defined.
